(** * BLE-to-ADB bridge: device emulators, protocol engine and HID ingest

    A shallow embedding of the ADB side of the bridge (adb_platform.cpp,
    adb_protocol.cpp, adb_keyboard.cpp, adb_mouse.cpp, event_queue.cpp) and
    of the keyboard report parser of ble_hid_host.cpp, followed by the
    properties of the specification that were checked against it.

    Fixed-width C integers are [Z] with the wrap-around written out.  The
    two FreeRTOS queues are FIFO lists.  The bus and the timer are an
    oracle: the values successive calls of [read_pin] and [micros_now]
    return.  *)

From Stdlib Require Import ZArith Lia Bool.
From stdpp Require Import base tactics numbers list option.

Local Open Scope Z_scope.

(** ** Fixed-width integers *)

Definition u8 (x : Z) : Z := x mod 256.
Definition u16 (x : Z) : Z := x mod 65536.
Definition u32 (x : Z) : Z := x mod 4294967296.
Definition i8 (x : Z) : Z := (x + 128) mod 256 - 128.
Definition i16 (x : Z) : Z := (x + 32768) mod 65536 - 32768.

Definition is_u8 (x : Z) : Prop := 0 <= x < 256.
Definition is_u16 (x : Z) : Prop := 0 <= x < 65536.
Definition is_i16 (x : Z) : Prop := -32768 <= x < 32768.

(** ** config.h *)

Definition ADB_ATTN_MIN_US : Z := 560.
Definition ADB_ATTN_MAX_US : Z := 1040.
Definition ADB_SYNC_NOMINAL_US : Z := 65.
Definition ADB_BIT_CELL_US : Z := 100.
Definition ADB_BIT_0_LOW_US : Z := 65.
Definition ADB_BIT_0_HIGH_US : Z := 35.
Definition ADB_BIT_1_LOW_US : Z := 35.
Definition ADB_BIT_1_HIGH_US : Z := 65.
Definition ADB_BIT_THRESHOLD_US : Z := 50.
Definition ADB_SRQ_LOW_US : Z := 300.
Definition ADB_TLT_US : Z := 200.
Definition ADB_TLT_MAX_US : Z := 260.
Definition ADB_RESET_MIN_US : Z := 2800.
Definition ADB_TIMING_TOLERANCE_US : Z := 15.

Definition ADB_ADDR_KEYBOARD : Z := 2.
Definition ADB_ADDR_MOUSE : Z := 3.

Definition ADB_CMD_RESET : Z := 0.
Definition ADB_CMD_FLUSH : Z := 1.
Definition ADB_CMD_LISTEN : Z := 2.
Definition ADB_CMD_TALK : Z := 3.

Definition ADB_HANDLER_KEYBOARD : Z := 2.
Definition ADB_HANDLER_MOUSE : Z := 2.

Definition KBD_QUEUE_SIZE : nat := 32.
Definition MOUSE_QUEUE_SIZE : nat := 64.

(** ** event_queue.h / event_queue.cpp *)

Record KbdEvent := mkKbdEvent {
  adb_keycode : Z;      (* uint8_t *)
  released : bool
}.

Record MouseEvent := mkMouseEvent {
  dx : Z;               (* int16_t *)
  dy : Z;               (* int16_t *)
  button : bool
}.

Module event_queue.

(** [xQueueSend] with a zero timeout: the item is appended unless the
    queue already holds its full depth. *)
Definition send {A} (depth : nat) (evt : A) (q : list A) : bool * list A :=
  if (length q <? depth)%nat then (true, q ++ [evt]) else (false, q).

Definition send_kbd := @send KbdEvent KBD_QUEUE_SIZE.
Definition send_mouse := @send MouseEvent MOUSE_QUEUE_SIZE.

(** [xQueueReceive] with a zero timeout. *)
Definition receive {A} (q : list A) : option (A * list A) :=
  match q with
  | [] => None
  | evt :: q' => Some (evt, q')
  end.

Definition pending {A} (q : list A) : bool :=
  (0 <? length q)%nat.

End event_queue.

(** ** adb_keyboard.cpp *)

Module adb_keyboard.

Definition KEY_BUF_SIZE : Z := 32.

Record state := mk {
  s_address : Z;          (* uint8_t *)
  s_handler : Z;          (* uint8_t *)
  s_key_buf : list Z;     (* uint8_t [KEY_BUF_SIZE] *)
  s_key_head : Z;         (* int *)
  s_key_tail : Z;         (* int *)
  s_register2 : Z         (* uint16_t *)
}.

Definition set_address (a : Z) (s : state) : state :=
  mk a (s_handler s) (s_key_buf s) (s_key_head s) (s_key_tail s) (s_register2 s).
Definition set_handler (h : Z) (s : state) : state :=
  mk (s_address s) h (s_key_buf s) (s_key_head s) (s_key_tail s) (s_register2 s).
Definition set_register2 (r : Z) (s : state) : state :=
  mk (s_address s) (s_handler s) (s_key_buf s) (s_key_head s) (s_key_tail s) r.

Definition buf_empty (s : state) : bool :=
  s_key_head s =? s_key_tail s.

Definition buf_full (s : state) : bool :=
  (s_key_head s + 1) mod KEY_BUF_SIZE =? s_key_tail s.

Definition buf_push (key_event : Z) (s : state) : state :=
  if negb (buf_full s) then
    mk (s_address s) (s_handler s)
       (<[Z.to_nat (s_key_head s) := key_event]> (s_key_buf s))
       ((s_key_head s + 1) mod KEY_BUF_SIZE)
       (s_key_tail s) (s_register2 s)
  else s.

Definition buf_pop (s : state) : Z * state :=
  let val := s_key_buf s !!! Z.to_nat (s_key_tail s) in
  (val,
   mk (s_address s) (s_handler s) (s_key_buf s) (s_key_head s)
      ((s_key_tail s + 1) mod KEY_BUF_SIZE) (s_register2 s)).

(** The statics as the program image has them before [init] runs. *)
Definition power_on : state :=
  mk ADB_ADDR_KEYBOARD ADB_HANDLER_KEYBOARD (replicate 32 0) 0 0 65535.

(** [init] assigns the scalars and leaves the array alone. *)
Definition init (s : state) : state :=
  mk ADB_ADDR_KEYBOARD ADB_HANDLER_KEYBOARD (s_key_buf s) 0 0 65535.

Definition adb_event (evt : KbdEvent) : Z :=
  u8 (Z.lor (if released evt then 128 else 0) (Z.land (adb_keycode evt) 127)).

(** [while (receive_kbd(evt)) buf_push(...)]: the loop ends when the
    queue is empty. *)
Fixpoint process_queue (q : list KbdEvent) (s : state) : state * list KbdEvent :=
  match q with
  | [] => (s, [])
  | evt :: q' => process_queue q' (buf_push (adb_event evt) s)
  end.

Definition handle_talk (reg : Z) (s : state) (q : list KbdEvent)
  : option Z * state * list KbdEvent :=
  if reg =? 0 then
    let '(s1, q1) := process_queue q s in
    if buf_empty s1 then (None, s1, q1)
    else
      let '(key1, s2) := buf_pop s1 in
      let '(key2, s3) := if buf_empty s2 then (255, s2) else buf_pop s2 in
      (Some (u16 (Z.lor (Z.shiftl key1 8) key2)), s3, q1)
  else if reg =? 2 then
    (Some (s_register2 s), s, q)
  else if reg =? 3 then
    let byte0 := u8 (Z.lor 96 (Z.land (s_address s) 15)) in
    (Some (u16 (Z.lor (Z.shiftl byte0 8) (s_handler s))), s, q)
  else (None, s, q).

Definition handle_listen (reg : Z) (data : Z) (s : state) : state :=
  if reg =? 2 then set_register2 data s
  else if reg =? 3 then
    let new_addr := u8 (Z.shiftr data 8) in
    let new_handler := u8 (Z.land data 255) in
    let s1 :=
      if negb (new_addr =? 0) && negb (new_addr =? 254)
      then set_address (Z.land new_addr 15) s else s in
    if negb (new_handler =? 0) && negb (new_handler =? 254)
    then set_handler new_handler s1 else s1
  else s.

Definition handle_flush (s : state) : state :=
  mk (s_address s) (s_handler s) (s_key_buf s) 0 0 (s_register2 s).

Definition handle_reset (s : state) : state := init s.

Definition has_data (s : state) (q : list KbdEvent) : bool :=
  negb (buf_empty s) || event_queue.pending q.

Definition current_address (s : state) : Z := s_address s.

(** *** Abstraction of the ring: the bytes between tail and head *)

Definition ring_count (s : state) : Z :=
  (s_key_head s - s_key_tail s) mod KEY_BUF_SIZE.

Definition ring_contents (s : state) : list Z :=
  (fun i => s_key_buf s !!! Z.to_nat ((s_key_tail s + i) mod KEY_BUF_SIZE))
    <$> seqZ 0 (ring_count s).

Record wf (s : state) : Prop := mk_wf {
  wf_address : is_u8 (s_address s);
  wf_handler : is_u8 (s_handler s);
  wf_len : length (s_key_buf s) = 32%nat;
  wf_bytes : Forall is_u8 (s_key_buf s);
  wf_head : 0 <= s_key_head s < 32;
  wf_tail : 0 <= s_key_tail s < 32;
  wf_register2 : is_u16 (s_register2 s)
}.

End adb_keyboard.

(** ** adb_mouse.cpp *)

Module adb_mouse.

Record state := mk {
  s_address : Z;            (* uint8_t *)
  s_handler : Z;            (* uint8_t *)
  s_accum_dx : Z;           (* int16_t *)
  s_accum_dy : Z;           (* int16_t *)
  s_button_pressed : bool;
  s_button_changed : bool;
  s_events_from_queue : Z   (* volatile uint32_t, diagnostic *)
}.

(** Clamp a value to the 7-bit signed range. *)
Definition clamp7 (val : Z) : Z :=
  if 63 <? val then 63
  else if val <? -64 then -64
  else i8 val.

Definition power_on : state :=
  mk ADB_ADDR_MOUSE ADB_HANDLER_MOUSE 0 0 false false 0.

Definition init (s : state) : state :=
  mk ADB_ADDR_MOUSE ADB_HANDLER_MOUSE 0 0 false false (s_events_from_queue s).

(** One turn of the [while (receive_mouse(evt))] loop. *)
Definition absorb (evt : MouseEvent) (s : state) : state :=
  let new_button := button evt in
  let edge := negb (eqb new_button (s_button_pressed s)) in
  mk (s_address s) (s_handler s)
     (i16 (s_accum_dx s + dx evt))
     (i16 (s_accum_dy s + dy evt))
     (if edge then new_button else s_button_pressed s)
     (if edge then true else s_button_changed s)
     (u32 (s_events_from_queue s + 1)).

Fixpoint process_queue (q : list MouseEvent) (s : state) : state * list MouseEvent :=
  match q with
  | [] => (s, [])
  | evt :: q' => process_queue q' (absorb evt s)
  end.

Definition handle_talk (reg : Z) (s : state) (q : list MouseEvent)
  : option Z * state * list MouseEvent :=
  if reg =? 0 then
    let '(s1, q1) := process_queue q s in
    if (s_accum_dx s1 =? 0) && (s_accum_dy s1 =? 0) && negb (s_button_changed s1)
    then (None, s1, q1)
    else
      let dx := clamp7 (s_accum_dx s1) in
      let dy := clamp7 (s_accum_dy s1) in
      let s2 :=
        mk (s_address s1) (s_handler s1)
           (i16 (s_accum_dx s1 - dx)) (i16 (s_accum_dy s1 - dy))
           (s_button_pressed s1) false (s_events_from_queue s1) in
      let button_bit := if s_button_pressed s1 then 0 else 128 in
      let byte0 := u8 (Z.lor button_bit (Z.land dy 127)) in
      let byte1 := u8 (Z.lor 128 (Z.land dx 127)) in
      (Some (u16 (Z.lor (Z.shiftl byte0 8) byte1)), s2, q1)
  else if reg =? 3 then
    let byte0 := u8 (Z.lor 96 (Z.land (s_address s) 15)) in
    (Some (u16 (Z.lor (Z.shiftl byte0 8) (s_handler s))), s, q)
  else (None, s, q).

Definition handle_listen (reg : Z) (data : Z) (s : state) : state :=
  if reg =? 3 then
    let new_addr := u8 (Z.shiftr data 8) in
    let new_handler := u8 (Z.land data 255) in
    let s1 :=
      if negb (new_addr =? 0) && negb (new_addr =? 254)
      then mk (Z.land new_addr 15) (s_handler s) (s_accum_dx s) (s_accum_dy s)
              (s_button_pressed s) (s_button_changed s) (s_events_from_queue s)
      else s in
    if negb (new_handler =? 0) && negb (new_handler =? 254)
    then mk (s_address s1) new_handler (s_accum_dx s1) (s_accum_dy s1)
            (s_button_pressed s1) (s_button_changed s1) (s_events_from_queue s1)
    else s1
  else s.

Definition handle_flush (s : state) : state :=
  mk (s_address s) (s_handler s) 0 0 (s_button_pressed s) false
     (s_events_from_queue s).

Definition handle_reset (s : state) : state := init s.

Definition has_data (s : state) (q : list MouseEvent) : bool :=
  negb (s_accum_dx s =? 0) || negb (s_accum_dy s =? 0) || s_button_changed s
  || event_queue.pending q.

Definition current_address (s : state) : Z := s_address s.

Record wf (s : state) : Prop := mk_wf {
  wf_address : is_u8 (s_address s);
  wf_handler : is_u8 (s_handler s);
  wf_dx : is_i16 (s_accum_dx s);
  wf_dy : is_i16 (s_accum_dy s)
}.

End adb_mouse.

(** ** The bus and the timer as an oracle

    The line is driven by the host and the timer runs on its own, so what
    [read_pin] and [micros_now] return is input.  A [world] scripts the
    values the next calls return and records what the device does to the
    line.  A run that needs more input than the script holds has no
    result. *)

Inductive effect :=
  | DriveLow
  | Release
  | IntsDisable
  | IntsEnable
  | TaskDelay.

Global Instance effect_eq_dec : EqDecision effect.
Proof. solve_decision. Defined.

Record world := mkWorld {
  pins : list bool;       (* successive values of read_pin() *)
  clock : list Z;         (* successive values of esp_timer_get_time() *)
  trace : list effect     (* what the device did, oldest first *)
}.

Definition M (A : Type) : Type := world -> option (A * world).

Definition ret {A} (a : A) : M A := fun w => Some (a, w).

Definition bind {A B} (c : M A) (k : A -> M B) : M B :=
  fun w => match c w with
           | Some (a, w') => k a w'
           | None => None
           end.

Notation "'do' x <- c ; k" := (bind c (fun x => k))
  (at level 10, x name, c at level 100, k at level 200).
Notation "'run' c ; k" := (bind c (fun _ => k))
  (at level 10, c at level 100, k at level 200).

Definition when (b : bool) (c : M unit) : M unit :=
  if b then c else ret tt.

Definition emit (e : effect) : M unit :=
  fun w => Some (tt, mkWorld (pins w) (clock w) (trace w ++ [e])).

(** The effects a run added to the trace. *)
Definition new_effects (w w' : world) : list effect :=
  drop (length (trace w)) (trace w').

(** ** adb_platform.cpp *)

Module adb_platform.

Definition drive_low : M unit := emit DriveLow.
Definition release : M unit := emit Release.
Definition interrupts_disable : M unit := emit IntsDisable.
Definition interrupts_enable : M unit := emit IntsEnable.

Definition read_pin : M bool :=
  fun w => match pins w with
           | [] => None
           | p :: ps => Some (p, mkWorld ps (clock w) (trace w))
           end.

Definition micros_now : M Z :=
  fun w => match clock w with
           | [] => None
           | t :: ts => Some (u32 t, mkWorld (pins w) ts (trace w))
           end.

(** [while ((micros_now() - start) < us) {}]; every turn reads the timer
    once, so the length of the timer script bounds the turns. *)
Fixpoint delay_spin (fuel : nat) (start us : Z) : M unit :=
  match fuel with
  | O => fun _ => None
  | S fuel' =>
      do t <- micros_now ;
      if u32 (t - start) <? us then delay_spin fuel' start us else ret tt
  end.

Definition delay_us (us : Z) : M unit :=
  fun w => (do start <- micros_now ; delay_spin (length (clock w)) start us) w.

(** The loop of [wait_for_state]; every turn reads the pin once. *)
Fixpoint wait_spin (fuel : nat) (state : bool) (timeout_us start : Z) : M Z :=
  match fuel with
  | O => fun _ => None
  | S fuel' =>
      do p <- read_pin ;
      if negb (eqb p state) then
        do t <- micros_now ;
        let elapsed := u32 (t - start) in
        if elapsed >=? timeout_us then ret 0
        else wait_spin fuel' state timeout_us start
      else
        do t <- micros_now ;
        ret (u32 (t - start))
  end.

Definition wait_for_state (state : bool) (timeout_us : Z) : M Z :=
  fun w => (do start <- micros_now ;
            wait_spin (length (pins w)) state timeout_us start) w.

Fixpoint measure_spin (fuel : nat) (state : bool) (timeout_us start : Z) : M Z :=
  match fuel with
  | O => fun _ => None
  | S fuel' =>
      do p <- read_pin ;
      if eqb p state then
        do t <- micros_now ;
        let elapsed := u32 (t - start) in
        if elapsed >=? timeout_us then ret elapsed
        else measure_spin fuel' state timeout_us start
      else
        do t <- micros_now ;
        ret (u32 (t - start))
  end.

Definition measure_pulse (state : bool) (timeout_us : Z) : M Z :=
  fun w => (do p <- read_pin ;
            if negb (eqb p state) then ret 0
            else
              do start <- micros_now ;
              measure_spin (length (pins w)) state timeout_us start) w.

End adb_platform.

(** ** adb_protocol.cpp *)

Module adb_protocol.

Import adb_platform.

Record AdbCommand := mkCmd {
  address : Z;      (* 4-bit device address *)
  command : Z;      (* 2-bit command *)
  reg : Z;          (* 2-bit register number *)
  valid : bool
}.

(** Everything the ADB task owns or drains: the two device state blocks,
    the two queues it pops from, and its activity counters. *)
Record sys := mkSys {
  kbd : adb_keyboard.state;
  mouse : adb_mouse.state;
  kbd_queue : list KbdEvent;
  mouse_queue : list MouseEvent;
  s_poll_count : Z;             (* volatile uint32_t *)
  s_talk_response_count : Z     (* volatile uint32_t *)
}.

Definition send_bit (bit : bool) : M unit :=
  if bit then
    run drive_low ; run delay_us ADB_BIT_1_LOW_US ;
    run release ; delay_us ADB_BIT_1_HIGH_US
  else
    run drive_low ; run delay_us ADB_BIT_0_LOW_US ;
    run release ; delay_us ADB_BIT_0_HIGH_US.

(** [for (int i = n - 1; i >= 0; i--) send_bit((data >> i) & 1)] *)
Fixpoint send_bits (n : nat) (data : Z) : M unit :=
  match n with
  | O => ret tt
  | S i => run send_bit (Z.testbit data (Z.of_nat i)) ; send_bits i data
  end.

Definition send_byte (byte : Z) : M unit := send_bits 8 byte.

Definition send_data (data : Z) : M unit :=
  run send_bit true ;
  run send_bits 16 data ;
  send_bit false.

Definition receive_bit : M Z :=
  do e <- wait_for_state false (ADB_BIT_CELL_US * 2) ;
  if e =? 0 then ret (-1)
  else
    do low_time <- measure_pulse false (ADB_BIT_CELL_US + ADB_TIMING_TOLERANCE_US) ;
    if low_time =? 0 then ret (-1)
    else
      run wait_for_state true ADB_BIT_CELL_US ;
      ret (if low_time <? ADB_BIT_THRESHOLD_US then 1 else 0).

(** [for (int i = n - 1; i >= 0; i--) { bit = receive_bit();
    if (bit < 0) return -1; result |= bit << i; }] *)
Fixpoint receive_bits (n : nat) (result : Z) : M Z :=
  match n with
  | O => ret result
  | S i =>
      do bit <- receive_bit ;
      if bit <? 0 then ret (-1)
      else receive_bits i (Z.lor result (Z.shiftl bit (Z.of_nat i)))
  end.

Definition receive_byte : M Z := receive_bits 8 0.

Definition receive_data : M Z :=
  do start <- receive_bit ;
  if (start <? 0) || negb (start =? 1) then ret (-1)
  else
    do result <- receive_bits 16 0 ;
    if result <? 0 then ret (-1)
    else
      run receive_bit ;
      ret result.

Definition receive_command : M AdbCommand :=
  do byte <- receive_byte ;
  if byte <? 0 then ret (mkCmd 0 0 0 false)
  else
    ret (mkCmd (Z.land (Z.shiftr byte 4) 15)
               (Z.land (Z.shiftr byte 2) 3)
               (Z.land byte 3)
               true).

Definition assert_srq : M unit :=
  run drive_low ;
  run delay_us ADB_SRQ_LOW_US ;
  release.

Definition consume_stop_bit (do_srq : bool) : M unit :=
  run wait_for_state false (ADB_BIT_CELL_US * 2) ;
  if do_srq then assert_srq
  else
    run wait_for_state true (ADB_BIT_CELL_US * 2) ;
    ret tt.

Definition count_poll (st : sys) : sys :=
  mkSys (kbd st) (mouse st) (kbd_queue st) (mouse_queue st)
        (u32 (s_poll_count st + 1)) (s_talk_response_count st).

Definition count_response (st : sys) : sys :=
  mkSys (kbd st) (mouse st) (kbd_queue st) (mouse_queue st)
        (s_poll_count st) (u32 (s_talk_response_count st + 1)).

Definition with_kbd (k : adb_keyboard.state) (q : list KbdEvent) (st : sys) : sys :=
  mkSys k (mouse st) q (mouse_queue st)
        (s_poll_count st) (s_talk_response_count st).

Definition with_mouse (m : adb_mouse.state) (q : list MouseEvent) (st : sys) : sys :=
  mkSys (kbd st) m (kbd_queue st) q
        (s_poll_count st) (s_talk_response_count st).

Definition kbd_has_data (st : sys) : bool :=
  adb_keyboard.has_data (kbd st) (kbd_queue st).

Definition mouse_has_data (st : sys) : bool :=
  adb_mouse.has_data (mouse st) (mouse_queue st).

Definition is_kbd (cmd : AdbCommand) (st : sys) : bool :=
  address cmd =? adb_keyboard.current_address (kbd st).

Definition is_mouse (cmd : AdbCommand) (st : sys) : bool :=
  address cmd =? adb_mouse.current_address (mouse st).

(** First half of [handle_command]: who is addressed, and the stop bit
    with or without SRQ.  The result tells whether the command is for one
    of the two devices. *)
Definition dispatch_stop_bit (cmd : AdbCommand) (ints_disabled : bool)
    (st : sys) : M bool :=
  if negb (is_kbd cmd st) && negb (is_mouse cmd st) then
    let want_srq := kbd_has_data st || mouse_has_data st in
    run consume_stop_bit want_srq ;
    run when ints_disabled interrupts_enable ;
    ret false
  else
    let other_has_data :=
      if is_kbd cmd st then mouse_has_data st else kbd_has_data st in
    run consume_stop_bit other_has_data ;
    run when ints_disabled interrupts_enable ;
    ret true.

(** Second half of [handle_command]: the [switch (cmd.command)]. *)
Definition dispatch_command (cmd : AdbCommand) (st : sys) : M sys :=
  let to_kbd := is_kbd cmd st in
  let to_mouse := is_mouse cmd st in
  if command cmd =? ADB_CMD_TALK then
    let '(response, st1) :=
      if to_kbd then
        let '(r, k, q) := adb_keyboard.handle_talk (reg cmd) (kbd st) (kbd_queue st) in
        (r, with_kbd k q st)
      else
        let '(r, m, q) := adb_mouse.handle_talk (reg cmd) (mouse st) (mouse_queue st) in
        (r, with_mouse m q st) in
    match response with
    | Some data =>
        run delay_us ADB_TLT_US ;
        run interrupts_disable ;
        run send_data data ;
        run interrupts_enable ;
        ret (count_response st1)
    | None => ret st1
    end
  else if command cmd =? ADB_CMD_LISTEN then
    do e <- wait_for_state false (ADB_TLT_MAX_US + 100) ;
    if e =? 0 then ret st
    else
      run interrupts_disable ;
      do data <- receive_data ;
      run interrupts_enable ;
      if data >=? 0 then
        if to_kbd then
          ret (with_kbd (adb_keyboard.handle_listen (reg cmd) (u16 data) (kbd st))
                        (kbd_queue st) st)
        else
          ret (with_mouse (adb_mouse.handle_listen (reg cmd) (u16 data) (mouse st))
                          (mouse_queue st) st)
      else ret st
  else if command cmd =? ADB_CMD_FLUSH then
    let st1 :=
      if to_kbd then with_kbd (adb_keyboard.handle_flush (kbd st)) (kbd_queue st) st
      else st in
    ret (if to_mouse
         then with_mouse (adb_mouse.handle_flush (mouse st1)) (mouse_queue st1) st1
         else st1)
  else if command cmd =? ADB_CMD_RESET then
    let st1 :=
      if to_kbd then with_kbd (adb_keyboard.handle_reset (kbd st)) (kbd_queue st) st
      else st in
    ret (if to_mouse
         then with_mouse (adb_mouse.handle_reset (mouse st1)) (mouse_queue st1) st1
         else st1)
  else ret st.

Definition handle_command (cmd : AdbCommand) (ints_disabled : bool)
    (st : sys) : M sys :=
  let st0 := count_poll st in
  do for_us <- dispatch_stop_bit cmd ints_disabled st0 ;
  if for_us then dispatch_command cmd st0 else ret st0.

Definition init : sys :=
  mkSys (adb_keyboard.init adb_keyboard.power_on)
        (adb_mouse.init adb_mouse.power_on) [] [] 0 0.

Definition global_reset (st : sys) : sys :=
  let st1 := with_kbd (adb_keyboard.handle_reset (kbd st)) (kbd_queue st) st in
  with_mouse (adb_mouse.handle_reset (mouse st1)) (mouse_queue st1) st1.

(** [bus_loop], the valid-attention branch: sync, command byte,
    dispatch. *)
Definition attention_stage (st : sys) : M sys :=
  do sync_start <- micros_now ;
  run wait_for_state false (ADB_SYNC_NOMINAL_US + 30) ;
  do t <- micros_now ;
  let sync := u32 (t - sync_start) in
  if 0 <? sync then
    run interrupts_disable ;
    do cmd <- receive_command ;
    if valid cmd then handle_command cmd true st
    else
      run interrupts_enable ;
      ret st
  else ret st.

(** [if (++yield_counter >= 256) { yield_counter = 0; vTaskDelay(1); }] *)
Definition periodic_yield (yield_counter : Z) : M Z :=
  let c := u32 (yield_counter + 1) in
  if c >=? 256 then
    run emit TaskDelay ;
    ret 0
  else ret c.

(** [bus_loop], from the measured low pulse to the end of the turn. *)
Definition pulse_stage (low_duration : Z) (st : sys) (yield_counter : Z)
  : M (sys * Z) :=
  if low_duration >=? ADB_RESET_MIN_US then
    ret (global_reset st, yield_counter)
  else
    do st1 <-
      (if (low_duration >=? ADB_ATTN_MIN_US) && (low_duration <=? ADB_ATTN_MAX_US)
       then attention_stage st
       else ret st) ;
    do c <- periodic_yield yield_counter ;
    ret (st1, c).

(** One turn of the [while (true)] of [bus_loop]. *)
Definition bus_turn (st : sys) (yield_counter : Z) : M (sys * Z) :=
  do p <- read_pin ;
  if negb p then
    run wait_for_state true (ADB_RESET_MIN_US + 500) ;
    ret (st, yield_counter)
  else
    do e <- wait_for_state false 10000 ;
    if e =? 0 then
      run emit TaskDelay ;
      ret (st, yield_counter)
    else
      do low_start <- micros_now ;
      run wait_for_state true (ADB_RESET_MIN_US + 500) ;
      do t <- micros_now ;
      pulse_stage (u32 (t - low_start)) st yield_counter.

Fixpoint bus_loop (turns : nat) (st : sys) (yield_counter : Z) : M (sys * Z) :=
  match turns with
  | O => ret (st, yield_counter)
  | S n =>
      do r <- bus_turn st yield_counter ;
      bus_loop n (fst r) (snd r)
  end.

End adb_protocol.

(** ** keycode_map.h *)

Module keycode_map.

Definition ADB_KEY_NONE : Z := 255.

Definition USB_MOD_LEFT_CTRL : Z := 1.
Definition USB_MOD_LEFT_SHIFT : Z := 2.
Definition USB_MOD_LEFT_ALT : Z := 4.
Definition USB_MOD_LEFT_GUI : Z := 8.
Definition USB_MOD_RIGHT_CTRL : Z := 16.
Definition USB_MOD_RIGHT_SHIFT : Z := 32.
Definition USB_MOD_RIGHT_ALT : Z := 64.
Definition USB_MOD_RIGHT_GUI : Z := 128.

Definition ADB_KEY_LEFT_CTRL : Z := 54.     (* 0x36 *)
Definition ADB_KEY_LEFT_SHIFT : Z := 56.    (* 0x38 *)
Definition ADB_KEY_LEFT_ALT : Z := 58.      (* 0x3A *)
Definition ADB_KEY_LEFT_GUI : Z := 55.      (* 0x37 *)
Definition ADB_KEY_RIGHT_CTRL : Z := 125.   (* 0x7D *)
Definition ADB_KEY_RIGHT_SHIFT : Z := 123.  (* 0x7B *)
Definition ADB_KEY_RIGHT_ALT : Z := 124.    (* 0x7C *)
Definition ADB_KEY_RIGHT_GUI : Z := 55.     (* 0x37 *)

Record ModifierMapping := mkMapping {
  usb_mask : Z;
  adb_keycode : Z
}.

Definition MODIFIER_MAP : list ModifierMapping := [
  mkMapping USB_MOD_LEFT_CTRL ADB_KEY_LEFT_CTRL;
  mkMapping USB_MOD_LEFT_SHIFT ADB_KEY_LEFT_SHIFT;
  mkMapping USB_MOD_LEFT_ALT ADB_KEY_LEFT_ALT;
  mkMapping USB_MOD_LEFT_GUI ADB_KEY_LEFT_GUI;
  mkMapping USB_MOD_RIGHT_CTRL ADB_KEY_RIGHT_CTRL;
  mkMapping USB_MOD_RIGHT_SHIFT ADB_KEY_RIGHT_SHIFT;
  mkMapping USB_MOD_RIGHT_ALT ADB_KEY_RIGHT_ALT;
  mkMapping USB_MOD_RIGHT_GUI ADB_KEY_RIGHT_GUI
].

Definition MODIFIER_MAP_SIZE : nat := length MODIFIER_MAP.

End keycode_map.

(** ** ble_hid_host.cpp: the keyboard report callback *)

Module ble_hid_host.

(** The part of the keyboard slot and of the callback counters that
    [on_keyboard_report] reads or writes. *)
Record kbd_slot := mkSlot {
  prev_keys : list Z;           (* uint8_t [6] *)
  prev_modifiers : Z;           (* uint8_t *)
  s_ble_kbd_cb_count : Z;
  s_ble_kbd_cb_used : Z;
  s_ble_kbd_cb_dropped : Z
}.

Section Report.

(** [keycode_map::usb_to_adb] is declared in keycode_map.h; its table is
    in a file that is not part of the sources at hand, so the callback is
    embedded over any such function. *)
Variable usb_to_adb : Z -> Z.

(** The indices [j] of [for (int j = 2; j < 8 && j < (int)length; j++)]. *)
Definition key_slots (len : nat) : list nat :=
  filter (fun j => (j < len)%nat) (seq 2 6).

(** The modifier loop: one turn per entry of [MODIFIER_MAP]. *)
Fixpoint modifier_loop (map : list keycode_map.ModifierMapping)
    (modifiers mod_diff : Z) : list KbdEvent :=
  match map with
  | [] => []
  | m :: rest =>
      let mask := keycode_map.usb_mask m in
      if negb (Z.land mod_diff mask =? 0) then
        mkKbdEvent (keycode_map.adb_keycode m) (Z.land modifiers mask =? 0)
          :: modifier_loop rest modifiers mod_diff
      else modifier_loop rest modifiers mod_diff
  end.

(** The inner loop with [break]: is [key] in one of the key bytes? *)
Fixpoint scan_report (js : list nat) (data : list Z) (key : Z) : bool :=
  match js with
  | [] => false
  | j :: js' => if data !!! j =? key then true else scan_report js' data key
  end.

Fixpoint scan_prev (keys : list Z) (key : Z) : bool :=
  match keys with
  | [] => false
  | k :: keys' => if k =? key then true else scan_prev keys' key
  end.

(** Releases: keys in prev but not in current. *)
Fixpoint release_loop (keys : list Z) (data : list Z) : list KbdEvent :=
  match keys with
  | [] => []
  | prev_key :: keys' =>
      if prev_key =? 0 then release_loop keys' data
      else
        let still_pressed := scan_report (key_slots (length data)) data prev_key in
        if negb still_pressed then
          let adb_code := u8 (usb_to_adb prev_key) in
          if negb (adb_code =? keycode_map.ADB_KEY_NONE) then
            mkKbdEvent adb_code true :: release_loop keys' data
          else release_loop keys' data
        else release_loop keys' data
  end.

(** Presses: keys in current but not in prev. *)
Fixpoint press_loop (js : list nat) (data : list Z) (prev : list Z)
  : list KbdEvent :=
  match js with
  | [] => []
  | j :: js' =>
      let cur_key := data !!! j in
      if cur_key =? 0 then press_loop js' data prev
      else
        let was_pressed := scan_prev prev cur_key in
        if negb was_pressed then
          let adb_code := u8 (usb_to_adb cur_key) in
          if negb (adb_code =? keycode_map.ADB_KEY_NONE) then
            mkKbdEvent adb_code false :: press_loop js' data prev
          else press_loop js' data prev
        else press_loop js' data prev
  end.

(** [prev_keys[i] = (i + 2 < length) ? data[i + 2] : 0] for [i] in 0..5. *)
Definition save_keys (data : list Z) : list Z :=
  (fun i => if (i + 2 <? length data)%nat then data !!! (i + 2)%nat else 0)
    <$> seq 0 6.

(** The callback: the new slot state and the events handed to
    [event_queue::send_kbd], in the order of the calls. *)
Definition on_keyboard_report (data : list Z) (st : kbd_slot)
  : kbd_slot * list KbdEvent :=
  let count := u32 (s_ble_kbd_cb_count st + 1) in
  if (length data <? 8)%nat then
    (mkSlot (prev_keys st) (prev_modifiers st) count (s_ble_kbd_cb_used st)
            (u32 (s_ble_kbd_cb_dropped st + 1)), [])
  else
    let used := u32 (s_ble_kbd_cb_used st + 1) in
    let modifiers := data !!! 0%nat in
    let mod_diff := u8 (Z.lxor modifiers (prev_modifiers st)) in
    let '(mod_events, mods') :=
      if negb (mod_diff =? 0)
      then (modifier_loop keycode_map.MODIFIER_MAP modifiers mod_diff, modifiers)
      else ([], prev_modifiers st) in
    let releases := release_loop (prev_keys st) data in
    let presses := press_loop (key_slots (length data)) data (prev_keys st) in
    (mkSlot (save_keys data) mods' count used (s_ble_kbd_cb_dropped st),
     mod_events ++ releases ++ presses).

(** The queue after the [send_kbd] calls of one callback: each event is
    appended unless the queue is full at that moment. *)
Definition deliver (evts : list KbdEvent) (q : list KbdEvent) : list KbdEvent :=
  foldl (fun q evt => snd (event_queue.send_kbd evt q)) q evts.

(** *** The diff as the specification words it *)

Definition MODIFIER_KEYCODES : list Z := [54; 56; 58; 55; 125; 123; 124; 55].

(** One event per bit set in [modifiers XOR prev_modifiers]. *)
Definition spec_modifier_events (modifiers prev : Z) : list KbdEvent :=
  omap (fun b : nat =>
          if Z.testbit (Z.lxor modifiers prev) (Z.of_nat b)
          then Some (mkKbdEvent (MODIFIER_KEYCODES !!! b)
                                (negb (Z.testbit modifiers (Z.of_nat b))))
          else None)
       (seq 0 8).

(** The six key bytes of a report. *)
Definition report_keys (data : list Z) : list Z := take 6 (drop 2 data).

(** One event per non-zero code of [from] that is absent from [other] and
    has an ADB keycode. *)
Definition spec_key_events (rel : bool) (from other : list Z) : list KbdEvent :=
  omap (fun k =>
          if bool_decide (k ≠ 0 ∧ (k ∉ other) ∧ u8 (usb_to_adb k) ≠ 255)
          then Some (mkKbdEvent (u8 (usb_to_adb k)) rel)
          else None)
       from.

End Report.

End ble_hid_host.

(** ** Command sequences, for the reachability statements *)

Inductive device_command :=
  | Talk (reg : Z)
  | Listen (reg : Z) (data : Z)
  | Flush
  | Reset.

(** What a command addressed to the keyboard does to its state block.  A
    Talk drains whatever the queue holds at that moment ([pending]). *)
Definition kbd_apply (s : adb_keyboard.state)
    (c : device_command * list KbdEvent) : adb_keyboard.state :=
  match c with
  | (Talk r, pending) => (adb_keyboard.handle_talk r s pending).1.2
  | (Listen r data, _) => adb_keyboard.handle_listen r (u16 data) s
  | (Flush, _) => adb_keyboard.handle_flush s
  | (Reset, _) => adb_keyboard.handle_reset s
  end.

Definition mouse_apply (s : adb_mouse.state)
    (c : device_command * list MouseEvent) : adb_mouse.state :=
  match c with
  | (Talk r, pending) => (adb_mouse.handle_talk r s pending).1.2
  | (Listen r data, _) => adb_mouse.handle_listen r (u16 data) s
  | (Flush, _) => adb_mouse.handle_flush s
  | (Reset, _) => adb_mouse.handle_reset s
  end.

(** Pushes and pops on the key ring. *)
Inductive ring_op :=
  | Push (key_event : Z)
  | Pop.

Definition ring_apply (s : adb_keyboard.state) (op : ring_op) : adb_keyboard.state :=
  match op with
  | Push v => adb_keyboard.buf_push v s
  | Pop => (adb_keyboard.buf_pop s).2
  end.

(** Pushed values are [uint8_t]. *)
Definition byte_op (op : ring_op) : Prop :=
  match op with
  | Push v => is_u8 v
  | Pop => True
  end.

(** ** Runs on the bus *)

(** A computation that adds exactly the effects [es]. *)
Definition emits {A} (es : list effect) (c : M A) : Prop :=
  forall w a w', c w = Some (a, w') -> trace w' = trace w ++ es.

(** Some bit of an [n]-bit reception times out: the bits before it arrive
    and [receive_bit] then reports an error. *)
Inductive bits_time_out : nat -> world -> Prop :=
  | bits_time_out_here n w w' b :
      adb_protocol.receive_bit w = Some (b, w') -> b < 0 ->
      bits_time_out (S n) w
  | bits_time_out_later n w w' b :
      adb_protocol.receive_bit w = Some (b, w') -> 0 <= b ->
      bits_time_out n w' ->
      bits_time_out (S n) w.

(** The ways the data frame of a Listen is lost, [w] being the bus when the
    Listen branch starts: the host never drives the start bit; the start
    bit is not a 1; one of the 16 data bits times out. *)
Inductive listen_frame_dropped (w : world) : Prop :=
  | no_start_bit w1 :
      adb_platform.wait_for_state false (ADB_TLT_MAX_US + 100) w = Some (0, w1) ->
      listen_frame_dropped w
  | bad_start_bit e w1 w2 b w3 :
      adb_platform.wait_for_state false (ADB_TLT_MAX_US + 100) w = Some (e, w1) ->
      e <> 0 ->
      adb_platform.interrupts_disable w1 = Some (tt, w2) ->
      adb_protocol.receive_bit w2 = Some (b, w3) ->
      b <> 1 ->
      listen_frame_dropped w
  | data_bit_lost e w1 w2 w3 :
      adb_platform.wait_for_state false (ADB_TLT_MAX_US + 100) w = Some (e, w1) ->
      e <> 0 ->
      adb_platform.interrupts_disable w1 = Some (tt, w2) ->
      adb_protocol.receive_bit w2 = Some (1, w3) ->
      bits_time_out 16 w3 ->
      listen_frame_dropped w.

(** *** Host scripts, for concrete runs

    What a host that keeps the ADB timing makes the device read.  One bit
    cell seen through [receive_bit]: the falling edge one microsecond after
    the wait starts, the low phase, the rising edge. *)
Definition cell_pins : list bool := [false; false; true; true].

Definition cell_clock (t : Z) (bit : bool) : list Z :=
  let low := if bit then ADB_BIT_1_LOW_US else ADB_BIT_0_LOW_US in
  [t; t + 1; t + 1; t + 1 + low; t + 1 + low; t + 2 + low].

(** The cells of the [n] low bits of [v], most significant first, from
    time [t] on, one cell every 100 microseconds. *)
Fixpoint cells (n : nat) (v : Z) (t : Z) : list bool * list Z :=
  match n with
  | O => ([], [])
  | S i =>
      let rest := cells i v (t + ADB_BIT_CELL_US) in
      (cell_pins ++ rest.1, cell_clock t (Z.testbit v (Z.of_nat i)) ++ rest.2)
  end.

(** The data frame of a Listen as the host sends it: the falling edge of
    the start bit 100 microseconds after the wait begins, start bit 1,
    sixteen data bits, stop bit 0. *)
Definition listen_frame (data : Z) : world :=
  let start := cells 1 1 300 in
  let bits := cells 16 data 400 in
  let stop := cells 1 0 2000 in
  mkWorld ([false] ++ start.1 ++ bits.1 ++ stop.1)
          ([200; 300] ++ start.2 ++ bits.2 ++ stop.2)
          [].

(** ** Bus discipline

    The line and the interrupt mask as the effects of a run leave them.
    [discipline masked driving es] follows the effects [es] from a bus
    with the interrupts masked or not and the line driven or not; it has no
    result when the device pulls the line low with the interrupts on,
    turns the interrupts on while it holds the line, or yields to the
    scheduler inside either. *)
Fixpoint discipline (masked driving : bool) (es : list effect)
  : option (bool * bool) :=
  match es with
  | [] => Some (masked, driving)
  | DriveLow :: es' => if masked then discipline masked true es' else None
  | Release :: es' => discipline masked false es'
  | IntsDisable :: es' => discipline true driving es'
  | IntsEnable :: es' => if driving then None else discipline false driving es'
  | TaskDelay :: es' =>
      if masked || driving then None else discipline masked driving es'
  end.

(** A computation that takes the bus from one mode to another within the
    discipline. *)
Definition keeps {A} (before after : bool * bool) (c : M A) : Prop :=
  forall w a w', c w = Some (a, w') ->
    exists es, trace w' = trace w ++ es /\
               discipline before.1 before.2 es = Some after.

(** ** Polling sequences *)

(** [n] Talk R0 polls of the keyboard; the first one finds [q] queued. *)
Fixpoint kbd_polls (n : nat) (s : adb_keyboard.state) (q : list KbdEvent)
  : list (option Z) * adb_keyboard.state :=
  match n with
  | O => ([], s)
  | S n' =>
      let '(r, s1, q1) := adb_keyboard.handle_talk 0 s q in
      let '(rs, s2) := kbd_polls n' s1 q1 in
      (r :: rs, s2)
  end.

(** The words that carry a list of event bytes: two bytes a word, 0xFF in
    the low byte of a last odd one. *)
Fixpoint pair_words (c : list Z) : list Z :=
  match c with
  | [] => []
  | [hi] => [Z.lor (Z.shiftl hi 8) 255]
  | hi :: lo :: rest => Z.lor (Z.shiftl hi 8) lo :: pair_words rest
  end.

(** [n] Talk R0 polls of the mouse with nothing queued. *)
Fixpoint mouse_polls (n : nat) (s : adb_mouse.state) : adb_mouse.state :=
  match n with
  | O => s
  | S n' => mouse_polls n' (adb_mouse.handle_talk 0 s []).1.2
  end.

(** Interrupts on, line released; interrupts masked, line released. *)
Definition idle_bus : bool * bool := (false, false).
Definition masked_bus : bool * bool := (true, false).

(** What the device reads during one turn of the bus loop when the host
    sends an 800 microsecond attention, the sync, the command byte [byte]
    and its stop bit, and then leaves the line alone while the timer
    runs. *)
Definition command_turn (byte : Z) : world :=
  let host := cells 8 byte 870 in
  mkWorld ([true; false; true; false] ++ host.1 ++ [false; true])
          ([0; 5; 5; 5; 805; 805; 805; 805; 870; 870] ++ host.2
           ++ [1670; 1671; 1671; 1736; 1736; 1940]
           ++ flat_map (fun i => [i * 100; i * 100 + 70; i * 100 + 70; i * 100 + 140])
                       (seqZ 30 18))
          [].

(** The test of Talk R0 on the mouse: nothing to report. *)
Definition adb_mouse_idle (s : adb_mouse.state) : bool :=
  (adb_mouse.s_accum_dx s =? 0) && (adb_mouse.s_accum_dy s =? 0)
  && negb (adb_mouse.s_button_changed s).

(** ** ble_hid_host.cpp: mouse callback, classification, slots, link loss *)

Definition i32 (x : Z) : Z := (x + 2147483648) mod 4294967296 - 2147483648.

Definition BLE_RECONNECT_INITIAL_MS : Z := 1000.
Definition BLE_RECONNECT_MAX_MS : Z := 30000.
Definition BLE_RECONNECT_MAX_ATTEMPTS : Z := 10.

Module ble_hid_link.

Inductive DeviceState :=
  | DISCONNECTED
  | SCANNING
  | CONNECTING
  | DISCOVERING
  | CONNECTED
  | RECONNECTING.

(** [BleDevice], with the client pointer as the fact that there is one and
    the peer address as a number. *)
Record BleDevice := mkDevice {
  has_client : bool;
  state : DeviceState;
  is_keyboard : bool;
  is_mouse : bool;
  prev_keys : list Z;           (* uint8_t [6] *)
  prev_modifiers : Z;           (* uint8_t *)
  prev_buttons : bool;
  bonded_addr : Z;
  was_keyboard : bool;
  was_mouse : bool;
  reconnect_next_ms : Z;        (* uint32_t *)
  reconnect_delay_ms : Z;       (* uint32_t *)
  reconnect_attempts : Z        (* int *)
}.

(** [on_mouse_report]: the new [prev_buttons] of the mouse slot, the new
    callback count, and the event handed to [event_queue::send_mouse], if
    any. *)
Definition on_mouse_report (data : list Z) (prev : bool) (cb_count : Z)
  : bool * Z * option MouseEvent :=
  let count := u32 (cb_count + 1) in
  if (length data <? 3)%nat then (prev, count, None)
  else
    let evt :=
      if (5 <=? length data)%nat then
        mkMouseEvent
          (i16 (Z.lor (data !!! 1%nat) (Z.shiftl (data !!! 2%nat) 8)))
          (i16 (Z.lor (data !!! 3%nat) (Z.shiftl (data !!! 4%nat) 8)))
          (negb (Z.land (data !!! 0%nat) 1 =? 0))
      else
        mkMouseEvent
          (i8 (data !!! 1%nat))
          (i8 (data !!! 2%nat))
          (negb (Z.land (data !!! 0%nat) 1 =? 0)) in
    (button evt, count, Some evt).

(** One turn of the Report Map scan of [detect_device_type]. *)
Definition scan_step (d : list Z) (found : bool * bool) (i : nat) : bool * bool :=
  if (d !!! i =? 5) && (d !!! (i + 1)%nat =? 1) && (i + 3 <? length d)%nat then
    if d !!! (i + 2)%nat =? 9 then
      let usage := d !!! (i + 3)%nat in
      if usage =? 6 then (true, found.2)
      else if usage =? 2 then (found.1, true)
      else found
    else found
  else found.

(** [for (size_t i = 0; i + 1 < len; i++)] *)
Definition scan_report_map (d : list Z) : bool * bool :=
  foldl (scan_step d) (false, false) (seq 0 (length d - 1)).

(** [detect_device_type], from what the HID service exposes: the two Boot
    input characteristics, and the Report Map when it is there and
    readable.  The result is (is_keyboard, is_mouse). *)
Definition detect_device_type (boot_kbd boot_mouse : bool)
    (report_map : option (list Z)) : bool * bool :=
  if boot_kbd || boot_mouse then (boot_kbd, boot_mouse)
  else
    match report_map with
    | None => (false, false)
    | Some d =>
        let found := scan_report_map d in
        if negb found.1 && negb found.2 then (true, false) else found
    end.

(** *** [try_connect]

    What the BLE stack answers during one call is input.  A
    [Characteristic] holds what the call asks of a characteristic of the
    HID service, a [HidService] what it asks of the service, a [Stack] the
    results of the calls on the client.  [secureConnection] is called and
    its result only logged. *)
Record Characteristic := mkChr {
  is_hid_report : bool;       (* getUUID() == HID_REPORT_UUID *)
  can_notify : bool;          (* canNotify() *)
  can_indicate : bool;        (* canIndicate() *)
  subscribes : bool           (* subscribe(..., cb_fn) *)
}.

Record HidService := mkHid {
  boot_kbd_input : option Characteristic;   (* getCharacteristic(BOOT_KBD_INPUT_UUID) *)
  boot_mouse_input : option Characteristic; (* getCharacteristic(BOOT_MOUSE_INPUT_UUID) *)
  report_map : option (list Z);             (* the Report Map, when it is there and canRead() *)
  protocol_mode : option (bool * bool);     (* PROTOCOL_MODE_UUID: canWrite(), writeValue(&mode, 1, false) *)
  characteristics : list Characteristic     (* getCharacteristics(true) *)
}.

Record Stack := mkStack {
  connects : bool;                    (* client->connect(addr) *)
  discovers : bool;                   (* client->discoverAttributes() *)
  hid_service : option HidService;    (* client->getService(HID_SERVICE_UUID) *)
  stays_connected : bool              (* client->isConnected(), after subscribing *)
}.

Definition is_disconnected (d : BleDevice) : bool :=
  match state d with
  | DISCONNECTED => true
  | _ => false
  end.

(** The choice of the slot: [Some true] the keyboard slot, [Some false]
    the mouse slot, [None] where the chain returns false. *)
Definition choose_slot (dev_is_kbd dev_is_mouse need_kbd need_mouse : bool)
  : option bool :=
  if dev_is_kbd && need_kbd then Some true
  else if dev_is_mouse && need_mouse then Some false
  else if dev_is_kbd && negb need_kbd && need_mouse then None
  else if dev_is_mouse && negb need_mouse && need_kbd then None
  else if need_kbd then Some true
  else Some false.

(** [chr && (chr->canNotify() || chr->canIndicate())], then [subscribe]. *)
Definition subscribe_boot (chr : option Characteristic) : bool :=
  match chr with
  | Some c => (can_notify c || can_indicate c) && subscribes c
  | None => false
  end.

(** The loops over the HID Report characteristics end with [subscribed]
    set iff one of them can notify and is subscribed to. *)
Definition subscribe_report (h : HidService) : bool :=
  existsb (fun c => is_hid_report c && can_notify c && subscribes c)
          (characteristics h).

(** Keyboard: Boot Keyboard Input when Boot Protocol was set, else the
    HID Report characteristics. *)
Definition subscribe_keyboard (h : HidService) : bool :=
  let boot_protocol_set :=
    match protocol_mode h with
    | Some (can_write, written) => can_write && written
    | None => false
    end in
  if boot_protocol_set && subscribe_boot (boot_kbd_input h) then true
  else subscribe_report h.

(** Mouse: the first HID Report characteristic that takes the
    subscription, else Boot Mouse Input. *)
Definition subscribe_mouse (h : HidService) : bool :=
  if subscribe_report h then true
  else subscribe_boot (boot_mouse_input h).

(** The slot when [try_connect] gives the device up after having taken
    it. *)
Definition given_up (d : BleDevice) : BleDevice :=
  mkDevice false DISCONNECTED (is_keyboard d) (is_mouse d)
           (prev_keys d) (prev_modifiers d) (prev_buttons d)
           (bonded_addr d) (was_keyboard d) (was_mouse d)
           (reconnect_next_ms d) (reconnect_delay_ms d) (reconnect_attempts d).

(** The slot when [try_connect] succeeds. *)
Definition connected_as (assign_as_kbd : bool) (peer : Z) (d : BleDevice)
  : BleDevice :=
  mkDevice true CONNECTED assign_as_kbd (negb assign_as_kbd)
           (prev_keys d) (prev_modifiers d) (prev_buttons d)
           peer (was_keyboard d) (was_mouse d)
           (reconnect_next_ms d) (reconnect_delay_ms d) 0.

(** [try_connect]: what it returns and the two slots as it leaves them.
    The name of the device is display only and not part of the record;
    callbacks the stack fires on its own task are not part of the call. *)
Definition try_connect (peer : Z) (k : Stack) (kb ms : BleDevice)
  : bool * BleDevice * BleDevice :=
  let need_kbd := is_disconnected kb in
  let need_mouse := is_disconnected ms in
  if negb need_kbd && negb need_mouse then (false, kb, ms)
  else if negb (connects k) then (false, kb, ms)
  else if negb (discovers k) then (false, kb, ms)
  else
    match hid_service k with
    | None => (false, kb, ms)
    | Some h =>
        let dev := detect_device_type (bool_decide (is_Some (boot_kbd_input h)))
                                      (bool_decide (is_Some (boot_mouse_input h)))
                                      (report_map h) in
        match choose_slot dev.1 dev.2 need_kbd need_mouse with
        | None => (false, kb, ms)
        | Some assign_as_kbd =>
            let target := if assign_as_kbd then kb else ms in
            let subscribed :=
              if assign_as_kbd then subscribe_keyboard h else subscribe_mouse h in
            let '(ok, target') :=
              if subscribed then
                if negb (stays_connected k) then (false, given_up target)
                else (true, connected_as assign_as_kbd peer target)
              else (false, given_up target) in
            if assign_as_kbd then (ok, target', ms) else (ok, kb, target')
        end
    end.

(** [ClientCallbacks::onDisconnect]; [peer] is the address of the client
    and [now] the value of [millis()]. *)
Definition onDisconnect (peer now : Z) (d : BleDevice) : BleDevice :=
  if is_keyboard d || is_mouse d then
    mkDevice (has_client d) RECONNECTING (is_keyboard d) (is_mouse d)
             (replicate 6 0) 0 false
             peer (is_keyboard d) (is_mouse d)
             (u32 (u32 now + BLE_RECONNECT_INITIAL_MS))
             BLE_RECONNECT_INITIAL_MS 0
  else
    mkDevice false DISCONNECTED false false
             (replicate 6 0) 0 false
             (bonded_addr d) (was_keyboard d) (was_mouse d)
             (reconnect_next_ms d) (reconnect_delay_ms d) (reconnect_attempts d).

Section Reconnection.

(** [try_reconnect] works the BLE stack; here it is any function that
    reports success and leaves a device record. *)
Variable try_reconnect : BleDevice -> bool * BleDevice.

Definition handle_reconnection (now : Z) (d : BleDevice) : BleDevice :=
  match state d with
  | RECONNECTING =>
      if i32 (u32 (now - reconnect_next_ms d)) <? 0 then d
      else
        let '(ok, d1) := try_reconnect d in
        if ok then d1
        else
          let attempts := reconnect_attempts d1 + 1 in
          if attempts >=? BLE_RECONNECT_MAX_ATTEMPTS then
            mkDevice false DISCONNECTED false false
                     (prev_keys d1) (prev_modifiers d1) (prev_buttons d1)
                     (bonded_addr d1) (was_keyboard d1) (was_mouse d1)
                     (reconnect_next_ms d1) (reconnect_delay_ms d1) attempts
          else
            let delay := Z.min (u32 (reconnect_delay_ms d1 * 2)) BLE_RECONNECT_MAX_MS in
            mkDevice (has_client d1) (state d1) (is_keyboard d1) (is_mouse d1)
                     (prev_keys d1) (prev_modifiers d1) (prev_buttons d1)
                     (bonded_addr d1) (was_keyboard d1) (was_mouse d1)
                     (u32 (now + delay)) delay attempts
  | _ => d
  end.

(** An attempt made at the very millisecond it is due. *)
Definition retry (d : BleDevice) : BleDevice :=
  handle_reconnection (reconnect_next_ms d) d.

End Reconnection.

(** The keyboard slot as [on_keyboard_report] sees it. *)
Definition kbd_slot_of (d : BleDevice) (count used dropped : Z) : ble_hid_host.kbd_slot :=
  ble_hid_host.mkSlot (prev_keys d) (prev_modifiers d) count used dropped.

End ble_hid_link.

(** The Report Map [d] has, at index [i], Usage Page (Generic Desktop)
    followed by Usage [u]: the four bytes 05 01 09 [u]. *)
Definition usage_at (d : list Z) (u : Z) (i : nat) : Prop :=
  d !! i = Some 5 /\ d !! (i + 1)%nat = Some 1 /\
  d !! (i + 2)%nat = Some 9 /\ d !! (i + 3)%nat = Some u.

(** The test [ble_hid_link.scan_step] makes at index [i], for usage [u]. *)
Definition usage_hit (d : list Z) (u : Z) (i : nat) : bool :=
  (d !!! i =? 5) && (d !!! (i + 1)%nat =? 1) && (i + 3 <? length d)%nat
  && (d !!! (i + 2)%nat =? 9) && (d !!! (i + 3)%nat =? u).

(** A failed [try_reconnect] may fetch a client for the slot; the state of
    the slot and its schedule are as before. *)
Definition same_schedule (d d' : ble_hid_link.BleDevice) : Prop :=
  ble_hid_link.state d' = ble_hid_link.state d /\
  ble_hid_link.reconnect_next_ms d' = ble_hid_link.reconnect_next_ms d /\
  ble_hid_link.reconnect_delay_ms d' = ble_hid_link.reconnect_delay_ms d /\
  ble_hid_link.reconnect_attempts d' = ble_hid_link.reconnect_attempts d.

(** *** A bit cell as the device sees it

    [receive_bit] looks at the line and reads the timer as often as its
    loops turn.  A [sight] holds the readings of the timer during one call
    that sees a whole cell: the line is high for some looks, then low for
    some looks, then high again. *)
Record sight := mkSight {
  wait_start : Z;        (* the reading that starts the wait for the falling edge *)
  wait_high : list Z;    (* one reading after each look that finds the line high *)
  fall : Z;              (* the reading after the look that finds it low *)
  low_start : Z;         (* the reading that starts the measurement *)
  low_looks : list Z;    (* one reading after each look that finds it still low *)
  rise : Z;              (* the reading after the look that finds it high *)
  high_start : Z;        (* the two readings of the wait for the high phase, *)
  high_seen : Z          (* which finds the line high at its first look *)
}.

(** What [read_pin] returns during the call. *)
Definition sight_pins (s : sight) : list bool :=
  replicate (length (wait_high s)) true ++ [false]
  ++ [false] ++ replicate (length (low_looks s)) false ++ [true]
  ++ [true].

(** What the timer returns during the call. *)
Definition sight_clock (s : sight) : list Z :=
  [wait_start s] ++ wait_high s ++ [fall s]
  ++ [low_start s] ++ low_looks s ++ [rise s]
  ++ [high_start s; high_seen s].

(** The low time [measure_pulse] finds. *)
Definition low_time (s : sight) : Z := u32 (rise s - low_start s).

(** The cell arrives: the falling edge is seen before the wait of two bit
    cells runs out, at a reading later than the one the wait started
    with, and the low phase ends before the measurement runs out, at a
    reading later than the one the measurement started with. *)
Definition arrives (s : sight) : Prop :=
  Forall (fun t => u32 (t - wait_start s) < ADB_BIT_CELL_US * 2) (wait_high s) /\
  u32 (fall s - wait_start s) <> 0 /\
  Forall (fun t => u32 (t - low_start s) < ADB_BIT_CELL_US + ADB_TIMING_TOLERANCE_US)
         (low_looks s) /\
  low_time s <> 0.

(** The bit the cell carries for the device: 1 iff the low time is under
    the threshold. *)
Definition sight_bit (s : sight) : bool := low_time s <? ADB_BIT_THRESHOLD_US.

(** The [n] low bits of [v], most significant first. *)
Fixpoint msb_first (n : nat) (v : Z) : list bool :=
  match n with
  | O => []
  | S i => Z.testbit v (Z.of_nat i) :: msb_first i v
  end.

(** A cell as the device sees it when it looks twice while the line is
    still high and twice while it is low, [low] microseconds long. *)
Definition polled_cell (t low : Z) : sight :=
  mkSight t [t + 3; t + 6] (t + 9) (t + 10) [t + 12; t + 14] (t + 10 + low)
          (t + 11 + low) (t + 12 + low).

(** The reception of some bit of a Listen data frame times out, the stop
    bit included: the frame starts, and of its eighteen bits (start bit,
    sixteen data bits, stop bit) the first ones arrive and the next one is
    answered by [receive_bit] with an error.  [w] is the bus when the
    Listen branch starts. *)
Definition listen_bit_times_out (w : world) : Prop :=
  exists e w1 w2,
    adb_platform.wait_for_state false (ADB_TLT_MAX_US + 100) w = Some (e, w1) /\
    e <> 0 /\
    adb_platform.interrupts_disable w1 = Some (tt, w2) /\
    bits_time_out 18 w2.

(** * Properties *)

(** ** Integer facts *)

Ltac wrap_arith :=
  unfold u8, u16, u32, i8, i16, is_u8, is_u16, is_i16 in *;
  Z.div_mod_to_equations; lia.

Lemma u8_small x : 0 <= x < 256 -> u8 x = x.
Proof. wrap_arith. Qed.

Lemma u16_small x : 0 <= x < 65536 -> u16 x = x.
Proof. wrap_arith. Qed.

Lemma u32_small x : 0 <= x < 4294967296 -> u32 x = x.
Proof. wrap_arith. Qed.

Lemma i16_small x : -32768 <= x < 32768 -> i16 x = x.
Proof. wrap_arith. Qed.

Lemma i8_small x : -128 <= x < 128 -> i8 x = x.
Proof. wrap_arith. Qed.

Lemma i16_range x : is_i16 (i16 x).
Proof. wrap_arith. Qed.

Lemma u8_range x : is_u8 (u8 x).
Proof. wrap_arith. Qed.

Lemma u8_land_ones x : u8 x = Z.land x (Z.ones 8).
Proof. unfold u8. rewrite Z.land_ones by lia. reflexivity. Qed.

Lemma u16_land_ones x : u16 x = Z.land x (Z.ones 16).
Proof. unfold u16. rewrite Z.land_ones by lia. reflexivity. Qed.

Lemma u8_lor a b : u8 (Z.lor a b) = Z.lor (u8 a) (u8 b).
Proof. rewrite !u8_land_ones. apply Z.land_lor_distr_l. Qed.

Lemma u16_lor a b : u16 (Z.lor a b) = Z.lor (u16 a) (u16 b).
Proof. rewrite !u16_land_ones. apply Z.land_lor_distr_l. Qed.

Lemma land_low7 x : Z.land x 127 = x mod 128.
Proof. change 127 with (Z.ones 7). rewrite Z.land_ones by lia. reflexivity. Qed.

Lemma land_low4 x : Z.land x 15 = x mod 16.
Proof. change 15 with (Z.ones 4). rewrite Z.land_ones by lia. reflexivity. Qed.

Lemma shiftl8 x : Z.shiftl x 8 = x * 256.
Proof. rewrite Z.shiftl_mul_pow2 by lia. reflexivity. Qed.

(** A byte in the high half and a byte in the low half do not overlap. *)
Lemma lor_bytes a b :
  0 <= a -> 0 <= b < 256 -> Z.lor (Z.shiftl a 8) b = a * 256 + b.
Proof.
  intros Ha Hb.
  rewrite <- Z.lxor_lor, <- Z.add_nocarry_lxor, shiftl8; try reflexivity.
  all: apply Z.bits_inj'; intros n Hn; rewrite Z.land_spec, Z.bits_0.
  all: destruct (Z.lt_ge_cases n 8) as [Hlt|Hge].
  all: try (rewrite Z.shiftl_spec_low by lia; reflexivity).
  all: replace (Z.testbit b n) with false; [apply andb_false_r|].
  all: symmetry; apply (Z.bits_above_log2 b n); [lia|].
  all: destruct (Z.eq_dec b 0) as [->|]; [simpl; lia|].
  all: apply Z.log2_lt_pow2; [lia|].
  all: apply Z.lt_le_trans with (2 ^ 8); [lia|].
  all: apply Z.pow_le_mono_r; lia.
Qed.

(** ** Mouse emulator *)

Section Mouse.

Import adb_mouse.

Lemma clamp7_max_min v :
  is_i16 v -> clamp7 v = Z.max (-64) (Z.min 63 v).
Proof.
  intros Hv. unfold clamp7.
  destruct (Z.ltb_spec 63 v); [lia|].
  destruct (Z.ltb_spec v (-64)); [lia|].
  rewrite i8_small; lia.
Qed.

Lemma clamp7_range v : is_i16 v -> -64 <= clamp7 v <= 63.
Proof. intros Hv. rewrite clamp7_max_min by done. lia. Qed.

(** What is left after a report stays an int16: the residual is closer to
    zero than the accumulator was. *)
Lemma residual_fits v : is_i16 v -> i16 (v - clamp7 v) = v - clamp7 v.
Proof.
  intros Hv. apply i16_small. rewrite clamp7_max_min by done.
  unfold is_i16 in Hv. lia.
Qed.

Lemma absorb_wf evt s : wf s -> wf (absorb evt s).
Proof.
  intros [Ha Hh Hx Hy]. split; simpl; try done; apply i16_range.
Qed.

Lemma process_queue_wf q : forall s, wf s -> wf (process_queue q s).1.
Proof.
  induction q as [|evt q IH]; intros s Hs; simpl; [done|].
  apply IH, absorb_wf, Hs.
Qed.

Lemma process_queue_drains q : forall s, (process_queue q s).2 = [].
Proof. induction q as [|evt q IH]; intros s; simpl; [done|apply IH]. Qed.

(** The two bytes of a report need no truncation. *)
Lemma report_byte_fits hi v : hi = 0 \/ hi = 128 -> u8 (Z.lor hi (Z.land v 127)) = Z.lor hi (Z.land v 127).
Proof.
  intros Hhi. rewrite u8_lor. f_equal.
  - apply u8_small. lia.
  - apply u8_small. rewrite land_low7. Z.div_mod_to_equations. lia.
Qed.

Lemma report_word_fits b0 b1 :
  is_u8 b0 -> is_u8 b1 -> u16 (Z.lor (Z.shiftl b0 8) b1) = Z.lor (Z.shiftl b0 8) b1.
Proof.
  unfold is_u8. intros H0 H1. rewrite lor_bytes by lia. apply u16_small. lia.
Qed.

End Mouse.

(** C9.  Flush on the mouse zeroes both accumulators and clears
    [button_changed]; [button_pressed], the address and the handler id are
    what they were. *)
Theorem mouse_flush_frame (s : adb_mouse.state) :
  let s' := adb_mouse.handle_flush s in
  adb_mouse.s_accum_dx s' = 0 /\
  adb_mouse.s_accum_dy s' = 0 /\
  adb_mouse.s_button_changed s' = false /\
  adb_mouse.s_button_pressed s' = adb_mouse.s_button_pressed s /\
  adb_mouse.s_address s' = adb_mouse.s_address s /\
  adb_mouse.s_handler s' = adb_mouse.s_handler s.
Proof. destruct s. cbn. repeat split. Qed.

(** C2.  Mouse Talk R0, seen from the state [s1] the drain leaves: the
    reported deltas are the accumulators clamped to -64..63, the new
    accumulators are the old ones minus what was reported, and the word is
    [byte0][byte1] with byte0 = (pressed ? 0 : 0x80) | (dy7 & 0x7F) and
    byte1 = 0x80 | (dx7 & 0x7F); when there is nothing to report
    (both accumulators 0, no button edge) no word is sent and the identity
    on the accumulators is 0 = 0 - 0.  After the single queued event
    (200, -200, up) from power-on the word is 0xC0BF and the accumulators
    are 137 and -136. *)
Theorem mouse_talk_r0_report (s : adb_mouse.state) (q : list MouseEvent) :
  adb_mouse.wf s ->
  let s1 := (adb_mouse.process_queue q s).1 in
  let dx7 := Z.max (-64) (Z.min 63 (adb_mouse.s_accum_dx s1)) in
  let dy7 := Z.max (-64) (Z.min 63 (adb_mouse.s_accum_dy s1)) in
  let byte0 :=
    Z.lor (if adb_mouse.s_button_pressed s1 then 0 else 128) (Z.land dy7 127) in
  let byte1 := Z.lor 128 (Z.land dx7 127) in
  let idle :=
    (adb_mouse.s_accum_dx s1 =? 0) && (adb_mouse.s_accum_dy s1 =? 0)
    && negb (adb_mouse.s_button_changed s1) in
  let r := adb_mouse.handle_talk 0 s q in
  adb_mouse.clamp7 (adb_mouse.s_accum_dx s1) = dx7 /\
  adb_mouse.clamp7 (adb_mouse.s_accum_dy s1) = dy7 /\
  adb_mouse.s_accum_dx r.1.2 = adb_mouse.s_accum_dx s1 - dx7 /\
  adb_mouse.s_accum_dy r.1.2 = adb_mouse.s_accum_dy s1 - dy7 /\
  r.1.1 = (if idle then None else Some (Z.lor (Z.shiftl byte0 8) byte1)) /\
  adb_mouse.handle_talk 0 adb_mouse.power_on [mkMouseEvent 200 (-200) false]
  = (Some 49343, adb_mouse.mk 3 2 137 (-136) false false 1, []).
Proof.
  intros Hs s1 dx7 dy7 byte0 byte1 idle r.
  pose proof (process_queue_wf q s Hs) as [_ _ Hx Hy]. fold s1 in Hx, Hy.
  assert (Hcx : adb_mouse.clamp7 (adb_mouse.s_accum_dx s1) = dx7)
    by (apply clamp7_max_min, Hx).
  assert (Hcy : adb_mouse.clamp7 (adb_mouse.s_accum_dy s1) = dy7)
    by (apply clamp7_max_min, Hy).
  split; [exact Hcx|]. split; [exact Hcy|].
  assert (Hr : r = if idle then (None, s1, (adb_mouse.process_queue q s).2)
               else (Some (Z.lor (Z.shiftl byte0 8) byte1),
                     adb_mouse.mk (adb_mouse.s_address s1) (adb_mouse.s_handler s1)
                       (adb_mouse.s_accum_dx s1 - dx7) (adb_mouse.s_accum_dy s1 - dy7)
                       (adb_mouse.s_button_pressed s1) false
                       (adb_mouse.s_events_from_queue s1),
                     (adb_mouse.process_queue q s).2)).
  { subst r. unfold adb_mouse.handle_talk. simpl (0 =? 0).
    cbv iota. subst s1 idle.
    destruct (adb_mouse.process_queue q s) as [s1 q1]. cbn [fst snd] in *.
    case_match; [reflexivity|].
    rewrite !residual_fits, Hcx, Hcy by assumption.
    rewrite !report_byte_fits
      by (lia || (destruct (adb_mouse.s_button_pressed s1); lia)).
    fold byte0 byte1. rewrite report_word_fits; [reflexivity|..].
    - unfold byte0. rewrite <- (report_byte_fits _ dy7)
        by (destruct (adb_mouse.s_button_pressed s1); lia).
      apply u8_range.
    - unfold byte1. rewrite <- (report_byte_fits 128 dx7) by lia.
      apply u8_range. }
  rewrite Hr. destruct idle eqn:Hidle; cbn [fst snd adb_mouse.s_accum_dx adb_mouse.s_accum_dy].
  - subst idle. apply andb_prop in Hidle as [Hxy _].
    apply andb_prop in Hxy as [Hx0 Hy0].
    apply Z.eqb_eq in Hx0, Hy0. subst dx7 dy7. rewrite Hx0, Hy0.
    repeat split.
  - repeat split.
Qed.

Lemma mouse_power_on_wf : adb_mouse.wf adb_mouse.power_on.
Proof. split; cbv; (split; [discriminate|reflexivity]). Qed.

Lemma mouse_talk_r0_report_witness :
  adb_mouse.wf adb_mouse.power_on /\
  (adb_mouse.handle_talk 0 adb_mouse.power_on [mkMouseEvent 200 (-200) false]).1.1
  = Some 49343.
Proof.
  split; [exact mouse_power_on_wf|].
  destruct (mouse_talk_r0_report adb_mouse.power_on
              [mkMouseEvent 200 (-200) false] mouse_power_on_wf)
    as (_ & _ & _ & _ & _ & H).
  rewrite H. reflexivity.
Defined.

(** ** Key ring *)

Section Ring.

Import adb_keyboard.

Ltac ring_arith :=
  unfold ring_count, buf_full, buf_empty, KEY_BUF_SIZE in *;
  repeat match goal with
         | H : wf _ |- _ => destruct H as [_ _ _ _ ? ? _]
         | H : (_ =? _) = true |- _ => apply Z.eqb_eq in H
         | H : (_ =? _) = false |- _ => apply Z.eqb_neq in H
         | |- (_ =? _) = true => apply Z.eqb_eq
         | |- (_ =? _) = false => apply Z.eqb_neq
         end;
  Z.div_mod_to_equations; lia.

Lemma ring_count_range s : 0 <= ring_count s < 32.
Proof. ring_arith. Qed.

Lemma buf_full_iff s : wf s -> buf_full s = true <-> ring_count s = 31.
Proof. intros Hs. split; intros H; ring_arith. Qed.

Lemma buf_full_false s : wf s -> buf_full s = false <-> ring_count s < 31.
Proof. intros Hs. split; intros H; ring_arith. Qed.

Lemma buf_empty_iff s : wf s -> buf_empty s = true <-> ring_count s = 0.
Proof. intros Hs. split; intros H; ring_arith. Qed.

Lemma buf_empty_false s : wf s -> buf_empty s = false <-> 0 < ring_count s.
Proof. intros Hs. split; intros H; ring_arith. Qed.

Lemma ring_contents_length s :
  length (ring_contents s) = Z.to_nat (ring_count s).
Proof. unfold ring_contents. rewrite length_fmap. apply length_seqZ. Qed.

Lemma ring_contents_nil s : ring_count s = 0 -> ring_contents s = [].
Proof. intros H. unfold ring_contents. rewrite H. reflexivity. Qed.

Lemma buf_push_wf v s : is_u8 v -> wf s -> wf (buf_push v s).
Proof.
  intros Hv Hs. unfold buf_push. destruct (buf_full s); simpl; [done|].
  destruct Hs as [Ha Hh Hl Hb Hhd Htl Hr]. split; simpl; try done.
  - rewrite length_insert. done.
  - apply Forall_insert; done.
  - unfold KEY_BUF_SIZE. Z.div_mod_to_equations. lia.
Qed.

Lemma buf_pop_wf s : wf s -> wf (buf_pop s).2.
Proof.
  intros [Ha Hh Hl Hb Hhd Htl Hr]. split; simpl; try done.
  unfold KEY_BUF_SIZE. Z.div_mod_to_equations. lia.
Qed.

(** A push onto a ring that is not full appends the byte. *)
Lemma buf_push_contents v s :
  wf s -> ring_count s < 31 ->
  ring_contents (buf_push v s) = ring_contents s ++ [v] /\
  ring_count (buf_push v s) = ring_count s + 1.
Proof.
  intros Hs Hc.
  assert (Hnf : buf_full s = false) by (apply buf_full_false; done).
  assert (Hcount : ring_count (buf_push v s) = ring_count s + 1).
  { unfold buf_push. rewrite Hnf. unfold ring_count. cbn [negb s_key_head s_key_tail]. clear Hnf. ring_arith. }
  split; [|exact Hcount].
  unfold ring_contents at 1. rewrite Hcount.
  pose proof (ring_count_range s) as Hr.
  replace (ring_count s + 1) with (Z.of_nat (S (Z.to_nat (ring_count s)))) by lia.
  rewrite seqZ_S, fmap_app, Z2Nat.id by lia. simpl.
  unfold buf_push. rewrite Hnf. cbn [negb s_key_head s_key_tail s_key_buf].
  destruct Hs as [_ _ Hl _ Hhd Htl _].
  f_equal.
  - unfold ring_contents. apply list_fmap_ext. intros k i Hi.
    apply lookup_seqZ in Hi as [-> Hi].
    apply list_lookup_total_insert_ne.
    unfold ring_count, KEY_BUF_SIZE in *. Z.div_mod_to_equations. lia.
  - f_equal.
    replace ((s_key_tail s + (0 + ring_count s)) mod KEY_BUF_SIZE)
      with (s_key_head s)
      by (unfold ring_count, KEY_BUF_SIZE in *; Z.div_mod_to_equations; lia).
    apply list_lookup_total_insert_eq. lia.
Qed.

(** A push onto a full ring changes nothing (drop-newest). *)
Lemma buf_push_full v s : wf s -> ring_count s = 31 -> buf_push v s = s.
Proof.
  intros Hs Hc. unfold buf_push.
  rewrite (proj2 (buf_full_iff s Hs) Hc). reflexivity.
Qed.

(** A pop from a ring that is not empty takes its oldest byte. *)
Lemma buf_pop_contents s :
  wf s -> 0 < ring_count s ->
  ring_contents s = (buf_pop s).1 :: ring_contents (buf_pop s).2 /\
  ring_count (buf_pop s).2 = ring_count s - 1.
Proof.
  intros Hs Hc.
  assert (Hcount : ring_count (buf_pop s).2 = ring_count s - 1).
  { unfold buf_pop, ring_count. cbn [snd s_key_head s_key_tail]. ring_arith. }
  split; [|exact Hcount].
  unfold ring_contents. rewrite Hcount.
  rewrite (seqZ_cons 0 (ring_count s)) by lia.
  unfold buf_pop. cbn [fst snd fmap list_fmap s_key_head s_key_tail s_key_buf].
  destruct Hs as [_ _ _ _ Hhd Htl _].
  f_equal.
  - f_equal. f_equal. unfold KEY_BUF_SIZE. Z.div_mod_to_equations. lia.
  - replace (Z.succ 0) with (1 + 0) by lia.
    rewrite <- fmap_add_seqZ, <- list_fmap_compose.
    replace (Z.pred (ring_count s)) with (ring_count s - 1) by lia.
    apply list_fmap_ext. intros k i Hi. cbn [compose].
    f_equal. f_equal. unfold KEY_BUF_SIZE. Z.div_mod_to_equations. lia.
Qed.

End Ring.

(** ** Keyboard emulator *)

Section Keyboard.

Import adb_keyboard.

Lemma ring_contents_bytes s : wf s -> Forall is_u8 (ring_contents s).
Proof.
  intros Hs. unfold ring_contents. apply Forall_fmap, list.Forall_forall.
  intros i Hi. apply elem_of_seqZ in Hi. cbn [compose].
  pose proof (ring_count_range s) as Hr.
  apply Forall_lookup_total_1; [apply Hs|].
  rewrite (wf_len s Hs). unfold KEY_BUF_SIZE. Z.div_mod_to_equations. lia.
Qed.

Lemma adb_event_byte evt : is_u8 (adb_event evt).
Proof. apply u8_range. Qed.

(** An event byte is the low seven bits of the keycode, with bit 7 set
    iff the event is a release. *)
Lemma adb_event_layout evt :
  adb_event evt
  = Z.lor (if released evt then 128 else 0) (Z.land (adb_keycode evt) 127) /\
  Z.testbit (adb_event evt) 7 = released evt /\
  Z.land (adb_event evt) 127 = Z.land (adb_keycode evt) 127.
Proof.
  assert (E : adb_event evt
    = Z.lor (if released evt then 128 else 0) (Z.land (adb_keycode evt) 127)).
  { unfold adb_event. apply report_byte_fits. destruct (released evt); lia. }
  split; [exact E|]. rewrite E.
  split.
  - rewrite Z.lor_spec.
    replace (Z.testbit (Z.land (adb_keycode evt) 127) 7) with false.
    + destruct (released evt); reflexivity.
    + change 127 with (Z.ones 7). rewrite Z.land_spec, Z.ones_spec_high by lia.
      symmetry. apply andb_false_r.
  - rewrite Z.land_lor_distr_l, <- Z.land_assoc.
    change (Z.land 127 127) with 127.
    destruct (released evt); reflexivity.
Qed.

(** The drain appends the queued events to the ring, newest dropped once
    the ring is full, and empties the queue. *)
Lemma process_queue_contents q : forall s,
  wf s ->
  wf (process_queue q s).1 /\
  (process_queue q s).2 = [] /\
  ring_contents (process_queue q s).1
  = ring_contents s ++ take (Z.to_nat (31 - ring_count s)) (adb_event <$> q).
Proof.
  induction q as [|evt q IH]; intros s Hs; cbn [process_queue fst snd].
  - rewrite fmap_nil, take_nil, app_nil_r. done.
  - pose proof (ring_count_range s) as Hr.
    destruct (IH (buf_push (adb_event evt) s)) as (Hwf & Hq & Hc).
    { apply buf_push_wf; [apply adb_event_byte|done]. }
    split; [exact Hwf|]. split; [exact Hq|]. rewrite Hc.
    destruct (Z.eq_dec (ring_count s) 31) as [Hfull|Hroom].
    + rewrite buf_push_full, Hfull by done. reflexivity.
    + destruct (buf_push_contents (adb_event evt) s Hs) as [-> ->]; [lia|].
      replace (Z.to_nat (31 - ring_count s))
        with (S (Z.to_nat (31 - (ring_count s + 1)))) by lia.
      rewrite fmap_cons. cbn [take]. rewrite <- app_assoc. reflexivity.
Qed.

Lemma key_word_fits hi lo :
  is_u8 hi -> is_u8 lo ->
  u16 (Z.lor (Z.shiftl hi 8) lo) = Z.lor (Z.shiftl hi 8) lo.
Proof. apply report_word_fits. Qed.

(** Talk R0 on a ring seen as a list. *)
Lemma talk_r0_on_ring s q :
  wf s ->
  let c := ring_contents (process_queue q s).1 in
  let r := handle_talk 0 s q in
  r.1.1 = match c with
          | [] => None
          | [hi] => Some (Z.lor (Z.shiftl hi 8) 255)
          | hi :: lo :: _ => Some (Z.lor (Z.shiftl hi 8) lo)
          end /\
  ring_contents r.1.2 = drop 2 c /\
  r.2 = [].
Proof.
  intros Hs c r. subst c r. unfold handle_talk. simpl (0 =? 0). cbv iota.
  destruct (process_queue_contents q s Hs) as (Hwf & Hq & _).
  destruct (process_queue q s) as [s1 q1]. cbn [fst snd] in *. subst q1.
  pose proof (ring_contents_bytes s1 Hwf) as Hbytes.
  destruct (buf_empty s1) eqn:He.
  - apply buf_empty_iff in He; [|done].
    cbn [fst snd]. rewrite (ring_contents_nil s1 He). done.
  - apply buf_empty_false in He; [|done].
    destruct (buf_pop_contents s1 Hwf He) as [Hc1 Hn1].
    pose proof (buf_pop_wf s1 Hwf) as Hwf2.
    destruct (buf_pop s1) as [key1 s2]. cbn [fst snd] in *.
    rewrite Hc1 in Hbytes |- *. apply Forall_cons_1 in Hbytes as [Hk1 Hbytes].
    destruct (buf_empty s2) eqn:He2.
    + apply buf_empty_iff in He2; [|done].
      cbn [fst snd]. rewrite (ring_contents_nil s2 He2).
      rewrite key_word_fits by (done || (unfold is_u8; lia)). done.
    + apply buf_empty_false in He2; [|done].
      destruct (buf_pop_contents s2 Hwf2 He2) as [Hc2 Hn2].
      destruct (buf_pop s2) as [key2 s3]. cbn [fst snd] in *.
      rewrite Hc2 in Hbytes |- *. apply Forall_cons_1 in Hbytes as [Hk2 Hbytes].
      cbn [fst snd]. rewrite key_word_fits by done. done.
Qed.

End Keyboard.

Lemma kbd_power_on_wf : adb_keyboard.wf adb_keyboard.power_on.
Proof.
  split; try (cbv; (split; [discriminate|reflexivity])); try reflexivity.
  apply Forall_replicate. cbv. split; [discriminate|reflexivity].
Qed.

(** C3.  Keyboard Talk R0 drains the queue into the ring (the ring afterwards
    holds what it held, then the queued event bytes, as far as they fit).  If
    that is empty there is no data; otherwise the oldest byte is the high
    byte, the next one the low byte, or 0xFF when there is none, and both
    leave the ring.  An event byte carries the low seven bits of the ADB
    keycode and has bit 7 set iff the event is a release.  A single queued
    press of keycode 0 gives 0x00FF, a single queued release 0x80FF. *)
Theorem keyboard_talk_r0 (s : adb_keyboard.state) (q : list KbdEvent) :
  adb_keyboard.wf s ->
  let room := Z.to_nat (31 - adb_keyboard.ring_count s) in
  let c := adb_keyboard.ring_contents s ++ take room (adb_keyboard.adb_event <$> q) in
  let r := adb_keyboard.handle_talk 0 s q in
  r.1.1 = match c with
          | [] => None
          | [hi] => Some (Z.lor (Z.shiftl hi 8) 255)
          | hi :: lo :: _ => Some (Z.lor (Z.shiftl hi 8) lo)
          end /\
  adb_keyboard.ring_contents r.1.2 = drop 2 c /\
  r.2 = [] /\
  (forall evt,
     Z.testbit (adb_keyboard.adb_event evt) 7 = released evt /\
     Z.land (adb_keyboard.adb_event evt) 127 = Z.land (adb_keycode evt) 127 /\
     is_u8 (adb_keyboard.adb_event evt)) /\
  (adb_keyboard.handle_talk 0 adb_keyboard.power_on [mkKbdEvent 0 false]).1.1
  = Some 255 /\
  (adb_keyboard.handle_talk 0 adb_keyboard.power_on [mkKbdEvent 0 true]).1.1
  = Some 33023.
Proof.
  intros Hs room c r.
  destruct (talk_r0_on_ring s q Hs) as (Hword & Hrest & Hq).
  destruct (process_queue_contents q s Hs) as (_ & _ & Hc).
  rewrite Hc in Hword, Hrest. fold room c in Hword, Hrest.
  split; [exact Hword|]. split; [exact Hrest|]. split; [exact Hq|].
  split; [|split; reflexivity].
  intros evt. destruct (adb_event_layout evt) as (_ & H7 & Hlow).
  split; [exact H7|]. split; [exact Hlow|]. apply adb_event_byte.
Qed.

Lemma keyboard_talk_r0_witness :
  adb_keyboard.wf adb_keyboard.power_on /\
  (adb_keyboard.handle_talk 0 adb_keyboard.power_on
     [mkKbdEvent 0 true; mkKbdEvent 5 false]).1.1 = Some 32773.
Proof.
  split; [exact kbd_power_on_wf|].
  destruct (keyboard_talk_r0 adb_keyboard.power_on
              [mkKbdEvent 0 true; mkKbdEvent 5 false] kbd_power_on_wf)
    as (H & _).
  rewrite H. reflexivity.
Defined.

Lemma ring_apply_wf s op : byte_op op -> adb_keyboard.wf s -> adb_keyboard.wf (ring_apply s op).
Proof.
  destruct op as [v|]; simpl; intros Hop Hs.
  - apply buf_push_wf; done.
  - apply buf_pop_wf; done.
Qed.

Lemma ring_run_wf ops : forall s,
  Forall byte_op ops -> adb_keyboard.wf s -> adb_keyboard.wf (foldl ring_apply s ops).
Proof.
  induction ops as [|op ops IH]; intros s Hops Hs; simpl; [done|].
  apply Forall_cons_1 in Hops as [Hop Hops].
  apply IH; [done|]. apply ring_apply_wf; done.
Qed.

(** C8, as stated, fails: after 31 pushes the ring holds 31 events, fewer
    than 32, and the next push is dropped. *)
Lemma key_ring_push_below_32_dropped :
  ~ (forall (ops : list ring_op) (v : Z),
       Forall byte_op ops -> is_u8 v ->
       let s := foldl ring_apply adb_keyboard.power_on ops in
       adb_keyboard.ring_count s < 32 ->
       adb_keyboard.ring_contents (adb_keyboard.buf_push v s)
       = adb_keyboard.ring_contents s ++ [v]).
Proof.
  intros H.
  specialize (H (replicate 31 (Push 1)) 2).
  assert (Hops : Forall byte_op (replicate 31 (Push 1))).
  { apply Forall_replicate. cbv. split; [discriminate|reflexivity]. }
  assert (Hv : is_u8 2) by (cbv; split; [discriminate|reflexivity]).
  specialize (H Hops Hv).
  assert (Hc : adb_keyboard.ring_count
                 (foldl ring_apply adb_keyboard.power_on (replicate 31 (Push 1))) < 32)
    by (vm_compute; reflexivity).
  specialize (H Hc). apply (f_equal length) in H.
  vm_compute in H. discriminate H.
Qed.

(** C8, amended.  The ring has 32 slots and keeps one free: after any
    sequence of pushes and pops it holds at most 31 events; a push onto a
    ring holding 31 events leaves the ring unchanged (drop-newest); a push
    onto a ring holding fewer than 31 events appends the event. *)
Theorem key_ring_capacity (s0 : adb_keyboard.state) (ops : list ring_op) (v : Z) :
  adb_keyboard.wf s0 -> Forall byte_op ops -> is_u8 v ->
  let s := foldl ring_apply s0 ops in
  (length (adb_keyboard.ring_contents s) <= 31)%nat /\
  (length (adb_keyboard.ring_contents s) = 31%nat ->
   adb_keyboard.buf_push v s = s) /\
  ((length (adb_keyboard.ring_contents s) < 31)%nat ->
   adb_keyboard.ring_contents (adb_keyboard.buf_push v s)
   = adb_keyboard.ring_contents s ++ [v]).
Proof.
  intros Hs0 Hops Hv s.
  pose proof (ring_run_wf ops s0 Hops Hs0) as Hs. fold s in Hs.
  pose proof (ring_count_range s) as Hr.
  rewrite ring_contents_length.
  split; [lia|]. split; intros Hc.
  - apply buf_push_full; [done|lia].
  - apply buf_push_contents; [done|lia].
Qed.

Lemma key_ring_capacity_witness :
  adb_keyboard.wf adb_keyboard.power_on /\
  Forall byte_op [Push 7; Pop; Push 9] /\
  is_u8 11 /\
  adb_keyboard.ring_contents
    (adb_keyboard.buf_push 11
       (foldl ring_apply adb_keyboard.power_on [Push 7; Pop; Push 9]))
  = [9; 11].
Proof.
  assert (Hops : Forall byte_op [Push 7; Pop; Push 9]).
  { repeat constructor; cbv; discriminate. }
  assert (Hv : is_u8 11) by (cbv; split; [discriminate|reflexivity]).
  split; [exact kbd_power_on_wf|]. split; [exact Hops|]. split; [exact Hv|].
  destruct (key_ring_capacity adb_keyboard.power_on [Push 7; Pop; Push 9] 11
              kbd_power_on_wf Hops Hv) as (_ & _ & H).
  rewrite H; [reflexivity|].
  vm_compute. lia.
Defined.

(** ** Addresses *)

Lemma kbd_process_queue_address q : forall s,
  adb_keyboard.s_address (adb_keyboard.process_queue q s).1 = adb_keyboard.s_address s.
Proof.
  induction q as [|evt q IH]; intros s; simpl; [done|].
  rewrite IH. unfold adb_keyboard.buf_push.
  destruct (adb_keyboard.buf_full s); reflexivity.
Qed.

Lemma kbd_talk_address r s q :
  adb_keyboard.s_address (adb_keyboard.handle_talk r s q).1.2 = adb_keyboard.s_address s.
Proof.
  unfold adb_keyboard.handle_talk.
  destruct (r =? 0).
  - pose proof (kbd_process_queue_address q s) as H.
    destruct (adb_keyboard.process_queue q s) as [s1 q1]. simpl in H.
    destruct (adb_keyboard.buf_empty s1); [done|]. simpl.
    destruct (adb_keyboard.buf_empty _); done.
  - destruct (r =? 2); [done|]. destruct (r =? 3); done.
Qed.

Lemma mouse_process_queue_address q : forall s,
  adb_mouse.s_address (adb_mouse.process_queue q s).1 = adb_mouse.s_address s.
Proof. induction q as [|evt q IH]; intros s; simpl; [done|]. rewrite IH. done. Qed.

Lemma mouse_talk_address r s q :
  adb_mouse.s_address (adb_mouse.handle_talk r s q).1.2 = adb_mouse.s_address s.
Proof.
  unfold adb_mouse.handle_talk.
  destruct (r =? 0).
  - pose proof (mouse_process_queue_address q s) as H.
    destruct (adb_mouse.process_queue q s) as [s1 q1]. simpl in H.
    destruct (_ && _); done.
  - destruct (r =? 3); done.
Qed.

(** Only Listen R3 writes the address, and what it writes is a nibble.  So
    the address of a reachable state is below 16; it is never 0xFE. *)
Lemma kbd_address_nibble cmds :
  0 <= adb_keyboard.s_address (foldl kbd_apply adb_keyboard.power_on cmds) < 16.
Proof.
  assert (H : forall s, 0 <= adb_keyboard.s_address s < 16 ->
                        0 <= adb_keyboard.s_address (foldl kbd_apply s cmds) < 16).
  { induction cmds as [|[c pending] cmds IH]; intros s Hs; simpl; [done|].
    apply IH. destruct c as [r|r data| |]; simpl.
    - rewrite kbd_talk_address. done.
    - unfold adb_keyboard.handle_listen.
      destruct (r =? 2); [done|]. destruct (r =? 3); [|done].
      repeat case_match; simpl; try done;
        rewrite land_low4; Z.div_mod_to_equations; lia.
    - done.
    - cbv. split; [discriminate|reflexivity]. }
  apply H. cbv. split; [discriminate|reflexivity].
Qed.

Lemma mouse_address_nibble cmds :
  0 <= adb_mouse.s_address (foldl mouse_apply adb_mouse.power_on cmds) < 16.
Proof.
  assert (H : forall s, 0 <= adb_mouse.s_address s < 16 ->
                        0 <= adb_mouse.s_address (foldl mouse_apply s cmds) < 16).
  { induction cmds as [|[c pending] cmds IH]; intros s Hs; simpl; [done|].
    apply IH. destruct c as [r|r data| |]; simpl.
    - rewrite mouse_talk_address. done.
    - unfold adb_mouse.handle_listen.
      destruct (r =? 3); [|done].
      repeat case_match; simpl; try done;
        rewrite land_low4; Z.div_mod_to_equations; lia.
    - done.
    - cbv. split; [discriminate|reflexivity]. }
  apply H. cbv. split; [discriminate|reflexivity].
Qed.

(** C1.  The guard of Listen R3 tests the proposed byte before it is masked
    to four bits.  The payload 0x1000 proposes 0x10, which is neither 0 nor
    0xFE, and leaves each device at address 0: in the handlers, and when
    the host sends that frame after a Listen R3 to address 2 or 3. *)
Theorem listen_r3_stores_address_zero :
  let st := adb_protocol.mkSys adb_keyboard.power_on adb_mouse.power_on [] [] 0 0 in
  let to_kbd := adb_protocol.mkCmd 2 ADB_CMD_LISTEN 3 true in
  let to_mouse := adb_protocol.mkCmd 3 ADB_CMD_LISTEN 3 true in
  u8 (Z.shiftr 4096 8) = 16 /\
  adb_keyboard.s_address
    (foldl kbd_apply adb_keyboard.power_on [(Listen 3 4096, [])]) = 0 /\
  adb_mouse.s_address
    (foldl mouse_apply adb_mouse.power_on [(Listen 3 4096, [])]) = 0 /\
  ((fun r => adb_keyboard.s_address (adb_protocol.kbd r.1))
     <$> adb_protocol.dispatch_command to_kbd st (listen_frame 4096)) = Some 0 /\
  ((fun r => adb_mouse.s_address (adb_protocol.mouse r.1))
     <$> adb_protocol.dispatch_command to_mouse st (listen_frame 4096)) = Some 0.
Proof. repeat split; vm_compute; reflexivity. Qed.

(** ** Runs on the bus *)

Section Runs.

Import adb_platform adb_protocol.

Lemma bind_run {A B} (c : M A) (k : A -> M B) w a w1 :
  c w = Some (a, w1) -> bind c k w = k a w1.
Proof. intros H. unfold bind. rewrite H. reflexivity. Qed.

Lemma bind_some {A B} (c : M A) (k : A -> M B) w b w' :
  bind c k w = Some (b, w') ->
  exists a w1, c w = Some (a, w1) /\ k a w1 = Some (b, w').
Proof.
  unfold bind. destruct (c w) as [[a w1]|]; [|discriminate].
  intros H. exists a, w1. done.
Qed.

Lemma emits_ret {A} (a : A) : emits [] (ret a).
Proof. intros w a' w' [= _ <-]. rewrite app_nil_r. reflexivity. Qed.

Lemma emits_bind {A B} es1 es2 (c : M A) (k : A -> M B) :
  emits es1 c -> (forall a, emits es2 (k a)) -> emits (es1 ++ es2) (bind c k).
Proof.
  intros Hc Hk w b w' H. apply bind_some in H as (a & w1 & H1 & H2).
  rewrite (Hk a _ _ _ H2), (Hc _ _ _ H1), app_assoc. reflexivity.
Qed.

Lemma emits_quiet_bind {A B} es (c : M A) (k : A -> M B) :
  emits [] c -> (forall a, emits es (k a)) -> emits es (bind c k).
Proof. intros Hc Hk. apply (emits_bind [] es); done. Qed.

Lemma emits_emit e : emits [e] (emit e).
Proof. intros w a w' [= _ <-]. reflexivity. Qed.

Lemma emits_read_pin : emits [] read_pin.
Proof.
  intros w a w'. unfold read_pin. destruct (pins w); [discriminate|].
  intros [= _ <-]. simpl. rewrite app_nil_r. reflexivity.
Qed.

Lemma emits_micros_now : emits [] micros_now.
Proof.
  intros w a w'. unfold micros_now. destruct (clock w); [discriminate|].
  intros [= _ <-]. simpl. rewrite app_nil_r. reflexivity.
Qed.

Lemma emits_if {A} es (b : bool) (c1 c2 : M A) :
  emits es c1 -> emits es c2 -> emits es (if b then c1 else c2).
Proof. destruct b; done. Qed.

Lemma emits_delay_spin fuel start us : emits [] (delay_spin fuel start us).
Proof.
  induction fuel as [|fuel IH]; simpl; [intros w a w'; discriminate|].
  apply emits_quiet_bind; [apply emits_micros_now|]. intros t.
  apply emits_if; [apply IH|apply emits_ret].
Qed.

Lemma emits_delay_us us : emits [] (delay_us us).
Proof.
  intros w a w'. unfold delay_us.
  apply (emits_quiet_bind [] micros_now); [apply emits_micros_now|].
  intros start. apply emits_delay_spin.
Qed.

Lemma emits_wait_spin fuel state timeout start :
  emits [] (wait_spin fuel state timeout start).
Proof.
  induction fuel as [|fuel IH]; simpl; [intros w a w'; discriminate|].
  apply emits_quiet_bind; [apply emits_read_pin|]. intros p.
  apply emits_if; (apply emits_quiet_bind; [apply emits_micros_now|]); intros t.
  - apply emits_if; [apply emits_ret|apply IH].
  - apply emits_ret.
Qed.

Lemma emits_wait_for_state state timeout : emits [] (wait_for_state state timeout).
Proof.
  intros w a w'. unfold wait_for_state.
  apply (emits_quiet_bind [] micros_now); [apply emits_micros_now|].
  intros start. apply emits_wait_spin.
Qed.

Lemma emits_assert_srq : emits [DriveLow; Release] assert_srq.
Proof.
  unfold assert_srq, drive_low, release.
  apply (emits_bind [DriveLow] [Release]); [apply emits_emit|]. intros _.
  apply emits_quiet_bind; [apply emits_delay_us|]. intros _. apply emits_emit.
Qed.

Lemma emits_consume_stop_bit (do_srq : bool) :
  emits (if do_srq then [DriveLow; Release] else []) (consume_stop_bit do_srq).
Proof.
  unfold consume_stop_bit.
  apply emits_quiet_bind; [apply emits_wait_for_state|]. intros _.
  destruct do_srq; [apply emits_assert_srq|].
  apply emits_quiet_bind; [apply emits_wait_for_state|]. intros _.
  apply emits_ret.
Qed.

Lemma emits_when_enable (b : bool) :
  emits (if b then [IntsEnable] else []) (when b interrupts_enable).
Proof. destruct b; simpl; [apply emits_emit|apply emits_ret]. Qed.

Lemma new_effects_app w w' es : trace w' = trace w ++ es -> new_effects w w' = es.
Proof. intros H. unfold new_effects. rewrite H. apply drop_app_length. Qed.

(** What the first half of the dispatch does to the line: an SRQ pulse or
    nothing, then the interrupts back on. *)
Lemma dispatch_stop_bit_effects cmd (ints : bool) st :
  let do_srq :=
    if negb (is_kbd cmd st) && negb (is_mouse cmd st)
    then kbd_has_data st || mouse_has_data st
    else if is_kbd cmd st then mouse_has_data st else kbd_has_data st in
  emits ((if do_srq then [DriveLow; Release] else [])
         ++ (if ints then [IntsEnable] else []))
        (dispatch_stop_bit cmd ints st).
Proof.
  intros do_srq. subst do_srq. unfold dispatch_stop_bit.
  destruct (negb (is_kbd cmd st) && negb (is_mouse cmd st)).
  - apply emits_bind; [apply emits_consume_stop_bit|]. intros _.
    rewrite <- (app_nil_r (if ints then _ else _)).
    apply emits_bind; [apply emits_when_enable|]. intros _. apply emits_ret.
  - apply emits_bind; [apply emits_consume_stop_bit|]. intros _.
    rewrite <- (app_nil_r (if ints then _ else _)).
    apply emits_bind; [apply emits_when_enable|]. intros _. apply emits_ret.
Qed.

End Runs.

(** ** Dispatch *)

Section Dispatch.

Import adb_platform adb_protocol.



Lemma bits_time_out_receive n w :
  bits_time_out n w -> forall acc, exists w', receive_bits n acc w = Some (-1, w').
Proof.
  induction 1 as [n w w' b Hbit Hb|n w w' b Hbit Hb Hrest IH]; intros acc; simpl.
  - rewrite (bind_run _ _ _ _ _ Hbit).
    rewrite (proj2 (Z.ltb_lt b 0) Hb). eexists. reflexivity.
  - rewrite (bind_run _ _ _ _ _ Hbit).
    rewrite (proj2 (Z.ltb_ge b 0) Hb). apply IH.
Qed.

(** The stop bit of a data frame is consumed and not looked at: whatever
    [receive_bit] reports for it, the sixteen bits received are the
    result. *)
Lemma receive_data_ignores_stop w w1 v w2 stop w3 :
  receive_bit w = Some (1, w1) ->
  receive_bits 16 0 w1 = Some (v, w2) ->
  0 <= v ->
  receive_bit w2 = Some (stop, w3) ->
  receive_data w = Some (v, w3).
Proof.
  intros Hstart Hbits Hv Hstop. unfold receive_data.
  rewrite (bind_run _ _ _ _ _ Hstart). simpl.
  rewrite (bind_run _ _ _ _ _ Hbits).
  rewrite (proj2 (Z.ltb_ge v 0) Hv).
  rewrite (bind_run _ _ _ _ _ Hstop). reflexivity.
Qed.

(** A Listen whose data frame is lost ends with the state it started
    with. *)
Lemma listen_dropped_frame cmd st w :
  command cmd = ADB_CMD_LISTEN ->
  listen_frame_dropped w ->
  exists w', dispatch_command cmd st w = Some (st, w').
Proof.
  intros Hcmd Hdrop. unfold dispatch_command. rewrite Hcmd.
  change (ADB_CMD_LISTEN =? ADB_CMD_TALK) with false.
  change (ADB_CMD_LISTEN =? ADB_CMD_LISTEN) with true. cbv iota.
  destruct Hdrop as [w1 Hwait|e w1 w2 b w3 Hwait He Hoff Hbit Hb
                    |e w1 w2 w3 Hwait He Hoff Hbit Hbits].
  - rewrite (bind_run _ _ _ _ _ Hwait). simpl. eexists. reflexivity.
  - rewrite (bind_run _ _ _ _ _ Hwait).
    rewrite (proj2 (Z.eqb_neq e 0) He).
    rewrite (bind_run _ _ _ _ _ Hoff).
    assert (Hdata : receive_data w2 = Some (-1, w3)).
    { unfold receive_data. rewrite (bind_run _ _ _ _ _ Hbit).
      destruct (Z.ltb_spec b 0); [reflexivity|].
      rewrite (proj2 (Z.eqb_neq b 1) Hb). reflexivity. }
    rewrite (bind_run _ _ _ _ _ Hdata). simpl. eexists. reflexivity.
  - rewrite (bind_run _ _ _ _ _ Hwait).
    rewrite (proj2 (Z.eqb_neq e 0) He).
    rewrite (bind_run _ _ _ _ _ Hoff).
    destruct (bits_time_out_receive 16 w3 Hbits 0) as [w4 Hrecv].
    assert (Hdata : receive_data w2 = Some (-1, w4)).
    { unfold receive_data. rewrite (bind_run _ _ _ _ _ Hbit). simpl.
      rewrite (bind_run _ _ _ _ _ Hrecv). reflexivity. }
    rewrite (bind_run _ _ _ _ _ Hdata). simpl. eexists. reflexivity.
Qed.

(** C6, as stated, fails: with "or whose bit reception times out" taken
    at its word, the stop bit is one of the bits.  Listen R3 to the
    keyboard at address 2, payload 0x0600: the start bit and the sixteen
    data bits arrive, then the host leaves the line high.  The reception
    of the stop bit times out, [receive_bit] returns -1 for it, and the
    frame is accepted all the same: the keyboard moves to address 6. *)
Lemma listen_stop_bit_timeout_accepted :
  ~ (forall (cmd : AdbCommand) (ints : bool) (st : sys) (w w1 : world)
            (for_us : bool),
       command cmd = ADB_CMD_LISTEN ->
       dispatch_stop_bit cmd ints (count_poll st) w = Some (for_us, w1) ->
       listen_bit_times_out w1 ->
       exists st' w',
         handle_command cmd ints st w = Some (st', w') /\
         kbd st' = kbd st /\ mouse st' = mouse st /\
         kbd_queue st' = kbd_queue st /\ mouse_queue st' = mouse_queue st).
Proof.
  intros H.
  pose (cmd := mkCmd 2 ADB_CMD_LISTEN 3 true).
  pose (st := mkSys adb_keyboard.power_on adb_mouse.power_on [] [] 0 0).
  pose (frame := ((cells 1 1 300).1 ++ (cells 16 1536 400).1 ++ [true],
                  (cells 1 1 300).2 ++ (cells 16 1536 400).2 ++ [2000; 2250])).
  pose (w := mkWorld ([false; true] ++ [false] ++ frame.1)
                     ([0; 1; 1; 66] ++ [200; 300] ++ frame.2) []).
  pose (w1 := mkWorld ([false] ++ frame.1) ([200; 300] ++ frame.2) [IntsEnable]).
  assert (Hstop : dispatch_stop_bit cmd true (count_poll st) w = Some (true, w1))
    by reflexivity.
  assert (Hbits : listen_bit_times_out w1).
  { exists 100, (mkWorld frame.1 frame.2 [IntsEnable]),
      (mkWorld frame.1 frame.2 [IntsEnable; IntsDisable]).
    split; [reflexivity|]. split; [discriminate|]. split; [reflexivity|].
    do 17 (eapply bits_time_out_later;
           [vm_compute; reflexivity|vm_compute; discriminate|]).
    eapply bits_time_out_here; [vm_compute; reflexivity|reflexivity]. }
  destruct (H cmd true st w w1 true eq_refl Hstop Hbits)
    as (st' & w' & Hrun & Hkbd & _).
  vm_compute in Hrun. injection Hrun as <- _.
  vm_compute in Hkbd. discriminate Hkbd.
Qed.

(** A Listen whose frame arrives is served, whatever the reception of the
    stop bit returns. *)
Lemma listen_served cmd st w e w1 w2 w3 v w4 stop w5 :
  command cmd = ADB_CMD_LISTEN ->
  wait_for_state false (ADB_TLT_MAX_US + 100) w = Some (e, w1) ->
  e <> 0 ->
  interrupts_disable w1 = Some (tt, w2) ->
  receive_bit w2 = Some (1, w3) ->
  receive_bits 16 0 w3 = Some (v, w4) ->
  0 <= v ->
  receive_bit w4 = Some (stop, w5) ->
  dispatch_command cmd st w
  = Some (if is_kbd cmd st
          then with_kbd (adb_keyboard.handle_listen (reg cmd) (u16 v) (kbd st))
                        (kbd_queue st) st
          else with_mouse (adb_mouse.handle_listen (reg cmd) (u16 v) (mouse st))
                          (mouse_queue st) st,
          mkWorld (pins w5) (clock w5) (trace w5 ++ [IntsEnable])).
Proof.
  intros Hcmd Hwait He Hoff Hstart Hbits Hv Hstop.
  unfold dispatch_command. rewrite Hcmd.
  change (ADB_CMD_LISTEN =? ADB_CMD_TALK) with false.
  change (ADB_CMD_LISTEN =? ADB_CMD_LISTEN) with true. cbv iota.
  rewrite (bind_run _ _ _ _ _ Hwait), (proj2 (Z.eqb_neq e 0) He).
  rewrite (bind_run _ _ _ _ _ Hoff).
  rewrite (bind_run _ _ _ _ _
             (receive_data_ignores_stop _ _ _ _ _ _ Hstart Hbits Hv Hstop)).
  unfold interrupts_enable, emit, bind.
  destruct (Z.geb_spec v 0); [|lia].
  destruct (is_kbd cmd st); reflexivity.
Qed.

(** C6, amended.  A Listen whose data frame is lost (no start bit within
    Tlt_max plus margin, a start bit that is not 1, or an error returned by
    the reception of one of the sixteen data bits) is dropped: the command
    returns, and both device state blocks and both queues are exactly what
    they were when the Listen was dispatched.  The stop bit is received
    and not checked: a frame whose start bit and sixteen data bits are
    received goes to the device that has the address, whatever the
    reception of the stop bit returns. *)
Theorem listen_error_no_side_effect (cmd : AdbCommand) (ints : bool)
    (st : sys) (w w1 : world) (for_us : bool) :
  command cmd = ADB_CMD_LISTEN ->
  dispatch_stop_bit cmd ints (count_poll st) w = Some (for_us, w1) ->
  (listen_frame_dropped w1 ->
   exists st' w',
     handle_command cmd ints st w = Some (st', w') /\
     kbd st' = kbd st /\ mouse st' = mouse st /\
     kbd_queue st' = kbd_queue st /\ mouse_queue st' = mouse_queue st) /\
  (for_us = true ->
   forall e w2 w3 w4 v w5 stop w6,
     wait_for_state false (ADB_TLT_MAX_US + 100) w1 = Some (e, w2) ->
     e <> 0 ->
     interrupts_disable w2 = Some (tt, w3) ->
     receive_bit w3 = Some (1, w4) ->
     receive_bits 16 0 w4 = Some (v, w5) ->
     0 <= v ->
     receive_bit w5 = Some (stop, w6) ->
     exists st' w',
       handle_command cmd ints st w = Some (st', w') /\
       kbd st' = (if is_kbd cmd st
                  then adb_keyboard.handle_listen (reg cmd) (u16 v) (kbd st)
                  else kbd st) /\
       mouse st' = (if is_kbd cmd st
                    then mouse st
                    else adb_mouse.handle_listen (reg cmd) (u16 v) (mouse st))).
Proof.
  intros Hcmd Hstop. unfold handle_command. cbv zeta.
  rewrite (bind_run _ _ _ _ _ Hstop). split.
  - intros Hdrop. destruct for_us.
    + destruct (listen_dropped_frame cmd (count_poll st) w1 Hcmd Hdrop) as [w' Hrun].
      exists (count_poll st), w'. done.
    + exists (count_poll st), w1. done.
  - intros -> e w2 w3 w4 v w5 stop w6 Hwait He Hoff Hstart Hbits Hv Hlast.
    rewrite (listen_served cmd (count_poll st) w1 e w2 w3 w4 v w5 stop w6
               Hcmd Hwait He Hoff Hstart Hbits Hv Hlast).
    eexists _, _. split; [reflexivity|].
    change (is_kbd cmd (count_poll st)) with (is_kbd cmd st).
    destruct (is_kbd cmd st); done.
Qed.

(** The host sends Listen R3 to the keyboard and then stays silent: the
    keyboard is as it was.  The host sends Listen R3 with the payload
    0x0600 and no stop bit: the keyboard has taken the payload. *)
Lemma listen_error_no_side_effect_witness :
  let cmd := mkCmd 2 ADB_CMD_LISTEN 3 true in
  let st := mkSys adb_keyboard.power_on adb_mouse.power_on [] [] 0 0 in
  let w := mkWorld [false; true; true] [0; 1; 1; 66; 66; 500] [] in
  let w1 := mkWorld [true] [66; 500] [IntsEnable] in
  let start := cells 1 1 300 in
  let bits := cells 16 1536 400 in
  let v := mkWorld ([false; true] ++ [false] ++ start.1 ++ bits.1 ++ [true])
                   ([0; 1; 1; 66] ++ [200; 300] ++ start.2 ++ bits.2
                    ++ [2000; 2250]) [] in
  let v1 := mkWorld ([false] ++ start.1 ++ bits.1 ++ [true])
                    ([200; 300] ++ start.2 ++ bits.2 ++ [2000; 2250])
                    [IntsEnable] in
  let v2 := mkWorld (start.1 ++ bits.1 ++ [true])
                    (start.2 ++ bits.2 ++ [2000; 2250]) [IntsEnable] in
  let v3 := mkWorld (pins v2) (clock v2) [IntsEnable; IntsDisable] in
  let v4 := mkWorld (bits.1 ++ [true]) (bits.2 ++ [2000; 2250])
                    [IntsEnable; IntsDisable] in
  let v5 := mkWorld [true] [2000; 2250] [IntsEnable; IntsDisable] in
  let v6 := mkWorld [] [] [IntsEnable; IntsDisable] in
  (command cmd = ADB_CMD_LISTEN /\
   dispatch_stop_bit cmd true (count_poll st) w = Some (true, w1) /\
   listen_frame_dropped w1 /\
   exists st' w',
     handle_command cmd true st w = Some (st', w') /\
     kbd st' = kbd st /\ mouse st' = mouse st /\
     kbd_queue st' = kbd_queue st /\ mouse_queue st' = mouse_queue st) /\
  (dispatch_stop_bit cmd true (count_poll st) v = Some (true, v1) /\
   wait_for_state false (ADB_TLT_MAX_US + 100) v1 = Some (100, v2) /\
   interrupts_disable v2 = Some (tt, v3) /\
   receive_bit v3 = Some (1, v4) /\
   receive_bits 16 0 v4 = Some (1536, v5) /\
   receive_bit v5 = Some (-1, v6) /\
   exists st' w',
     handle_command cmd true st v = Some (st', w') /\
     kbd st' = adb_keyboard.handle_listen 3 1536 (kbd st) /\
     adb_keyboard.s_address (kbd st') = 6 /\
     mouse st' = mouse st).
Proof.
  intros cmd st w w1 start bits v v1 v2 v3 v4 v5 v6.
  assert (Hstop : dispatch_stop_bit cmd true (count_poll st) w = Some (true, w1))
    by reflexivity.
  assert (Hdrop : listen_frame_dropped w1).
  { apply (no_start_bit w1 (mkWorld [] [] [IntsEnable])). reflexivity. }
  assert (Hstop' : dispatch_stop_bit cmd true (count_poll st) v = Some (true, v1))
    by reflexivity.
  assert (Hwait : wait_for_state false (ADB_TLT_MAX_US + 100) v1 = Some (100, v2))
    by reflexivity.
  assert (He : 100 <> 0) by discriminate.
  assert (Hoff : interrupts_disable v2 = Some (tt, v3)) by reflexivity.
  assert (Hstart : receive_bit v3 = Some (1, v4)) by reflexivity.
  assert (Hbits : receive_bits 16 0 v4 = Some (1536, v5)) by reflexivity.
  assert (Hv : 0 <= 1536) by lia.
  assert (Hlast : receive_bit v5 = Some (-1, v6)) by reflexivity.
  split.
  - split; [reflexivity|]. split; [exact Hstop|]. split; [exact Hdrop|].
    exact (proj1 (listen_error_no_side_effect cmd true st w w1 true eq_refl Hstop)
             Hdrop).
  - do 6 (split; [assumption|]).
    destruct (proj2 (listen_error_no_side_effect cmd true st v v1 true eq_refl
                       Hstop')
                eq_refl 100 v2 v3 v4 1536 v5 (-1) v6
                Hwait He Hoff Hstart Hbits Hv Hlast)
      as (st' & w' & Hrun & Hk & Hm).
    exists st', w'. split; [exact Hrun|]. split; [exact Hk|].
    split; [rewrite Hk; reflexivity|exact Hm].
Defined.

End Dispatch.

(** ** Main loop *)

Section MainLoop.

Import adb_platform adb_protocol.

Lemma periodic_yield_total yc w : exists c w', periodic_yield yc w = Some (c, w').
Proof.
  unfold periodic_yield. destruct (u32 (yc + 1) >=? 256); eexists _, _; reflexivity.
Qed.

(** The switch of [handle_command] leaves the poll counter alone. *)
Lemma dispatch_command_poll_count cmd st w st' w' :
  dispatch_command cmd st w = Some (st', w') ->
  s_poll_count st' = s_poll_count st.
Proof.
  unfold dispatch_command. intros H.
  destruct (command cmd =? ADB_CMD_TALK).
  { destruct (is_kbd cmd st).
    - destruct (adb_keyboard.handle_talk (reg cmd) (kbd st) (kbd_queue st))
        as [[[data|] k] q].
      + repeat (apply bind_some in H as (? & ? & _ & H)).
        injection H as <- _. reflexivity.
      + injection H as <- _. reflexivity.
    - destruct (adb_mouse.handle_talk (reg cmd) (mouse st) (mouse_queue st))
        as [[[data|] m] q].
      + repeat (apply bind_some in H as (? & ? & _ & H)).
        injection H as <- _. reflexivity.
      + injection H as <- _. reflexivity. }
  destruct (command cmd =? ADB_CMD_LISTEN).
  { apply bind_some in H as (e & ? & _ & H).
    destruct (e =? 0); [injection H as <- _; reflexivity|].
    apply bind_some in H as (? & ? & _ & H).
    apply bind_some in H as (data & ? & _ & H).
    apply bind_some in H as (? & ? & _ & H).
    destruct (data >=? 0), (is_kbd cmd st); injection H as <- _; reflexivity. }
  destruct (command cmd =? ADB_CMD_FLUSH).
  { injection H as <- _. destruct (is_kbd cmd st), (is_mouse cmd st); reflexivity. }
  destruct (command cmd =? ADB_CMD_RESET).
  { injection H as <- _. destruct (is_kbd cmd st), (is_mouse cmd st); reflexivity. }
  injection H as <- _. reflexivity.
Qed.

(** Every command handled is counted as one poll. *)
Lemma handle_command_counts cmd ints st w st' w' :
  handle_command cmd ints st w = Some (st', w') ->
  s_poll_count st' = u32 (s_poll_count st + 1).
Proof.
  unfold handle_command. cbv zeta. intros H.
  apply bind_some in H as (for_us & w1 & _ & H).
  destruct for_us.
  - apply dispatch_command_poll_count in H. exact H.
  - injection H as <- _. reflexivity.
Qed.

(** C4.  What the main loop does with a measured low pulse of [d]
    microseconds.  From 2800 on, both emulators are reset: addresses 2 and
    3, empty ring, zero accumulators.  From 560 to 1040, the loop goes on
    with the command frame: it times the sync, masks the interrupts and
    receives the command byte; a valid command is handed to
    [handle_command], which counts it as a poll, and the turn ends with
    what that leaves; an invalid one unmasks the interrupts and leaves the
    state as it was.  For any other [d] the turn ends with both device
    state blocks as they were. *)
Theorem low_pulse_classes (d : Z) (st : sys) (yc : Z) (w : world) :
  (2800 <= d ->
   pulse_stage d st yc w = Some ((global_reset st, yc), w) /\
   adb_keyboard.s_address (kbd (global_reset st)) = 2 /\
   adb_mouse.s_address (mouse (global_reset st)) = 3 /\
   adb_keyboard.buf_empty (kbd (global_reset st)) = true /\
   adb_keyboard.ring_contents (kbd (global_reset st)) = [] /\
   adb_mouse.s_accum_dx (mouse (global_reset st)) = 0 /\
   adb_mouse.s_accum_dy (mouse (global_reset st)) = 0) /\
  (560 <= d <= 1040 ->
   pulse_stage d st yc w
   = (do st1 <- attention_stage st ;
      do c <- periodic_yield yc ;
      ret (st1, c)) w /\
   (forall sync_start w1 e w2 t w3 w4 cmd w5,
      micros_now w = Some (sync_start, w1) ->
      wait_for_state false (ADB_SYNC_NOMINAL_US + 30) w1 = Some (e, w2) ->
      micros_now w2 = Some (t, w3) ->
      0 < u32 (t - sync_start) ->
      interrupts_disable w3 = Some (tt, w4) ->
      receive_command w4 = Some (cmd, w5) ->
      (valid cmd = true ->
       pulse_stage d st yc w
       = (do st1 <- handle_command cmd true st ;
          do c <- periodic_yield yc ;
          ret (st1, c)) w5 /\
       (forall r w', pulse_stage d st yc w = Some (r, w') ->
          s_poll_count r.1 = u32 (s_poll_count st + 1))) /\
      (valid cmd = false ->
       exists c w', pulse_stage d st yc w = Some ((st, c), w')))) /\
  (d < 560 \/ 1040 < d < 2800 ->
   exists c w', pulse_stage d st yc w = Some ((st, c), w')).
Proof.
  unfold pulse_stage, ADB_RESET_MIN_US, ADB_ATTN_MIN_US, ADB_ATTN_MAX_US.
  split; [|split].
  - intros Hd. destruct (Z.geb_spec d 2800); [|lia]. repeat split.
  - intros Hd.
    destruct (Z.geb_spec d 2800); [lia|].
    destruct (Z.geb_spec d 560); [|lia].
    destruct (Z.leb_spec d 1040); [|lia]. cbn [andb].
    split; [reflexivity|].
    intros sync_start w1 e w2 t w3 w4 cmd w5 Ht0 Hw Ht1 Hsync Hoff Hcmd.
    split.
    + intros Hvalid.
      assert (Hrun : forall k : sys -> M (sys * Z),
                bind (attention_stage st) k w
                = bind (handle_command cmd true st) k w5).
      { intros k. unfold bind at 1. unfold attention_stage.
        rewrite (bind_run _ _ _ _ _ Ht0), (bind_run _ _ _ _ _ Hw),
          (bind_run _ _ _ _ _ Ht1).
        rewrite (proj2 (Z.ltb_lt _ _) Hsync).
        rewrite (bind_run _ _ _ _ _ Hoff), (bind_run _ _ _ _ _ Hcmd), Hvalid.
        reflexivity. }
      split; [apply Hrun|].
      intros r w'. rewrite Hrun. intros Hr.
      apply bind_some in Hr as (st1 & w6 & Hhandled & Hr).
      apply bind_some in Hr as (c & w7 & _ & Hr).
      injection Hr as <- _. cbn [fst].
      exact (handle_command_counts _ _ _ _ _ _ Hhandled).
    + intros Hvalid.
      assert (Hstage : attention_stage st w
                = Some (st, mkWorld (pins w5) (clock w5) (trace w5 ++ [IntsEnable]))).
      { unfold attention_stage.
        rewrite (bind_run _ _ _ _ _ Ht0), (bind_run _ _ _ _ _ Hw),
          (bind_run _ _ _ _ _ Ht1).
        rewrite (proj2 (Z.ltb_lt _ _) Hsync).
        rewrite (bind_run _ _ _ _ _ Hoff), (bind_run _ _ _ _ _ Hcmd), Hvalid.
        reflexivity. }
      rewrite (bind_run _ _ _ _ _ Hstage).
      destruct (periodic_yield_total yc
                  (mkWorld (pins w5) (clock w5) (trace w5 ++ [IntsEnable])))
        as (c & w' & Hy).
      exists c, w'. rewrite (bind_run _ _ _ _ _ Hy). reflexivity.
  - intros Hd.
    destruct (Z.geb_spec d 2800); [lia|].
    assert (Hnoise : (d >=? 560) && (d <=? 1040) = false).
    { destruct (Z.geb_spec d 560), (Z.leb_spec d 1040); try reflexivity; lia. }
    rewrite Hnoise. rewrite (bind_run _ _ w st w) by reflexivity.
    destruct (periodic_yield_total yc w) as (c & w' & Hy).
    exists c, w'. rewrite (bind_run _ _ _ _ _ Hy). reflexivity.
Qed.

(** An 800 microsecond attention followed by Talk R0 to address 2, with a
    key press queued: the command is received, handled and counted, and
    the key is sent.  A 3000 microsecond pulse resets a keyboard that had
    been moved to address 6.  A 100 microsecond glitch changes nothing. *)
Lemma low_pulse_classes_witness :
  let st := mkSys adb_keyboard.power_on adb_mouse.power_on
                  [mkKbdEvent 0 false] [] 0 0 in
  let moved :=
    with_kbd (adb_keyboard.handle_listen 3 1536 adb_keyboard.power_on) [] st in
  let host := cells 8 44 870 in
  let w := mkWorld (false :: host.1 ++ [false; true])
             ([805; 805; 870; 870] ++ host.2
              ++ [1670; 1671; 1671; 1736; 1736; 1940]
              ++ flat_map (fun i => [i * 100; i * 100 + 70; i * 100 + 70; i * 100 + 140])
                          (seqZ 30 18)) [] in
  let w1 := mkWorld (pins w) (drop 1 (clock w)) [] in
  let w2 := mkWorld (drop 1 (pins w)) (drop 3 (clock w)) [] in
  let w3 := mkWorld (drop 1 (pins w)) (drop 4 (clock w)) [] in
  let w4 := mkWorld (drop 1 (pins w)) (drop 4 (clock w)) [IntsDisable] in
  let w5 := mkWorld (drop 33 (pins w)) (drop 52 (clock w)) [IntsDisable] in
  let cmd := mkCmd 2 ADB_CMD_TALK 0 true in
  (2800 <= 3000 /\
   adb_keyboard.s_address (kbd moved) = 6 /\
   (fst <$> pulse_stage 3000 moved 0 w) = Some (global_reset moved, 0) /\
   adb_keyboard.s_address (kbd (global_reset moved)) = 2) /\
  (560 <= 800 <= 1040 /\
   micros_now w = Some (805, w1) /\
   wait_for_state false (ADB_SYNC_NOMINAL_US + 30) w1 = Some (65, w2) /\
   micros_now w2 = Some (870, w3) /\
   0 < u32 (870 - 805) /\
   interrupts_disable w3 = Some (tt, w4) /\
   receive_command w4 = Some (cmd, w5) /\
   valid cmd = true /\
   pulse_stage 800 st 0 w
   = (do st1 <- handle_command cmd true st ;
      do c <- periodic_yield 0 ;
      ret (st1, c)) w5 /\
   ((fun r => (s_poll_count r.1.1, s_talk_response_count r.1.1))
      <$> pulse_stage 800 st 0 w) = Some (1, 1)) /\
  ((100 < 560 \/ 1040 < 100 < 2800) /\
   exists c w', pulse_stage 100 st 0 w = Some ((st, c), w')).
Proof.
  intros st moved host w w1 w2 w3 w4 w5 cmd.
  assert (H3000 : 2800 <= 3000) by lia.
  assert (H800 : 560 <= 800 <= 1040) by lia.
  assert (H100 : 100 < 560 \/ 1040 < 100 < 2800) by lia.
  assert (H0 : micros_now w = Some (805, w1)) by reflexivity.
  assert (H1 : wait_for_state false (ADB_SYNC_NOMINAL_US + 30) w1 = Some (65, w2))
    by reflexivity.
  assert (H2 : micros_now w2 = Some (870, w3)) by reflexivity.
  assert (Hsync : 0 < u32 (870 - 805)) by reflexivity.
  assert (H3 : interrupts_disable w3 = Some (tt, w4)) by reflexivity.
  assert (H4 : receive_command w4 = Some (cmd, w5)) by reflexivity.
  split; [|split].
  - destruct (low_pulse_classes 3000 moved 0 w) as (Hreset & _ & _).
    destruct (Hreset H3000) as (Hrun & Haddr & _).
    split; [exact H3000|]. split; [reflexivity|].
    split; [rewrite Hrun; reflexivity|exact Haddr].
  - destruct (low_pulse_classes 800 st 0 w) as (_ & Hattn & _).
    destruct (Hattn H800) as (_ & Hframe).
    destruct (Hframe 805 w1 65 w2 870 w3 w4 cmd w5 H0 H1 H2 Hsync H3 H4)
      as (Hvalid & _).
    destruct (Hvalid eq_refl) as (Hrun & _).
    do 8 (split; [done|]).
    split; [exact Hrun|]. vm_compute. reflexivity.
  - destruct (low_pulse_classes 100 st 0 w) as (_ & _ & Hnoise).
    split; [exact H100|]. exact (Hnoise H100).
Defined.

(** A line that is already in the awaited state: the call returns the
    time between its two readings of the timer. *)
Lemma wait_for_state_immediate state timeout w ps t0 t1 ts :
  pins w = state :: ps ->
  clock w = t0 :: t1 :: ts ->
  wait_for_state state timeout w
  = Some (u32 (u32 t1 - u32 t0), mkWorld ps ts (trace w)).
Proof.
  intros Hp Hc. unfold wait_for_state, bind, micros_now. rewrite Hc, Hp.
  cbn [length wait_spin bind read_pin micros_now pins clock trace].
  rewrite eqb_reflx. reflexivity.
Qed.

(** A line that reaches the awaited state after [k] readings, each of
    them before the timeout: the call returns the time of the reading
    that saw it, counted from the start. *)
Lemma wait_spin_reaches state timeout start (k : nat) :
  forall fuel ps before tk rest tr,
    (k < fuel)%nat ->
    length before = k ->
    Forall (fun t => u32 (u32 t - start) < timeout) before ->
    wait_spin fuel state timeout start
      (mkWorld (replicate k (negb state) ++ state :: ps) (before ++ tk :: rest) tr)
    = Some (u32 (u32 tk - start), mkWorld ps rest tr).
Proof.
  induction k as [|k IH]; intros fuel ps before tk rest tr Hfuel Hlen Hearly.
  - destruct before; [|discriminate]. destruct fuel as [|fuel]; [lia|].
    cbn [replicate app wait_spin bind read_pin micros_now pins clock trace].
    rewrite eqb_reflx. reflexivity.
  - destruct before as [|b before]; [discriminate|].
    destruct fuel as [|fuel]; [lia|].
    apply Forall_cons_1 in Hearly as [Hb Hearly].
    cbn [replicate app wait_spin bind read_pin micros_now pins clock trace].
    replace (eqb (negb state) state) with false by (destruct state; reflexivity).
    cbn [negb bind micros_now pins clock trace].
    destruct (Z.geb_spec (u32 (u32 b - start)) timeout); [lia|].
    apply IH; [lia|simpl in Hlen; lia|done].
Qed.

Lemma wait_for_state_reaches state timeout (k : nat) ps t0 before tk rest tr :
  length before = k ->
  Forall (fun t => u32 (u32 t - u32 t0) < timeout) before ->
  wait_for_state state timeout
    (mkWorld (replicate k (negb state) ++ state :: ps) (t0 :: before ++ tk :: rest) tr)
  = Some (u32 (u32 tk - u32 t0), mkWorld ps rest tr).
Proof.
  intros Hlen Hearly. unfold wait_for_state, bind, micros_now.
  cbn [pins clock trace].
  apply wait_spin_reaches; [|done..].
  rewrite length_app, length_replicate. simpl. lia.
Qed.

(** C10.  The elapsed time of a successful wait and the timeout value
    share the number 0.  With the line already low and both readings of
    the timer in the same microsecond, [wait_for_state(false, 200)]
    returns 0; it also returns 0 when the line stays high for 200
    microseconds.  [receive_bit] takes the first for the second and gives
    up on a bit that is on the line. *)
Theorem wait_for_state_zero_elapsed :
  let already_low :=
    mkWorld [false; false; true; true] [1000; 1000; 1000; 1035; 1035; 1036] [] in
  let never_low := mkWorld [true; true] [1000; 1100; 1200] [] in
  (fst <$> wait_for_state false 200 already_low) = Some 0 /\
  (fst <$> wait_for_state false 200 never_low) = Some 0 /\
  (fst <$> receive_bit already_low) = Some (-1) /\
  (fst <$> receive_bit
     (mkWorld [false; false; true; true] [1000; 1001; 1001; 1036; 1036; 1037] []))
  = Some 1.
Proof. repeat split. Qed.

End MainLoop.

(** ** Keyboard report diff *)

Section ReportDiff.

Import ble_hid_host.

Variable usb_to_adb : Z -> Z.

(** Testing a one-bit mask is testing the bit. *)
Lemma land_pow2_eqb x (i : Z) :
  0 <= i -> (Z.land x (2 ^ i) =? 0) = negb (Z.testbit x i).
Proof.
  intros Hi. destruct (Z.testbit x i) eqn:Hbit; simpl.
  - apply Z.eqb_neq. intros Hz. apply (f_equal (fun v => Z.testbit v i)) in Hz.
    rewrite Z.land_spec, Hbit, Z.pow2_bits_true, Z.bits_0 in Hz by lia.
    discriminate.
  - apply Z.eqb_eq, Z.bits_inj'. intros n Hn.
    rewrite Z.land_spec, Z.bits_0, Z.pow2_bits_eqb by lia.
    destruct (Z.eqb_spec i n) as [->|_]; [rewrite Hbit; reflexivity|].
    apply andb_false_r.
Qed.

Lemma u8_testbit x (i : Z) : 0 <= i < 8 -> Z.testbit (u8 x) i = Z.testbit x i.
Proof. intros Hi. unfold u8. apply (Z.mod_pow2_bits_low x 8 i). lia. Qed.

Lemma u8_zero_bits x (i : Z) : u8 x = 0 -> 0 <= i < 8 -> Z.testbit x i = false.
Proof.
  intros Hz Hi. rewrite <- u8_testbit, Hz by done. apply Z.bits_0.
Qed.

(** The table, entry [b] being the mask of bit [b] and its keycode. *)
Lemma MODIFIER_MAP_by_bit :
  keycode_map.MODIFIER_MAP
  = (fun b : nat => keycode_map.mkMapping (2 ^ Z.of_nat b) (MODIFIER_KEYCODES !!! b))
      <$> seq 0 8.
Proof. reflexivity. Qed.

Lemma modifier_loop_bits modifiers diff (bs : list nat) :
  Forall (fun b => (b < 8)%nat) bs ->
  modifier_loop
    ((fun b : nat => keycode_map.mkMapping (2 ^ Z.of_nat b) (MODIFIER_KEYCODES !!! b))
       <$> bs)
    modifiers (u8 diff)
  = omap (fun b : nat =>
            if Z.testbit diff (Z.of_nat b)
            then Some (mkKbdEvent (MODIFIER_KEYCODES !!! b)
                                  (negb (Z.testbit modifiers (Z.of_nat b))))
            else None)
         bs.
Proof.
  induction 1 as [|b bs Hb _ IH]; [reflexivity|].
  rewrite fmap_cons. cbn [modifier_loop omap list_omap keycode_map.usb_mask
                          keycode_map.adb_keycode].
  rewrite !land_pow2_eqb, u8_testbit, negb_involutive, IH by lia.
  destruct (Z.testbit diff (Z.of_nat b)); reflexivity.
Qed.

Lemma no_bits_no_events modifiers diff (bs : list nat) :
  u8 diff = 0 ->
  Forall (fun b => (b < 8)%nat) bs ->
  omap (fun b : nat =>
          if Z.testbit diff (Z.of_nat b)
          then Some (mkKbdEvent (MODIFIER_KEYCODES !!! b)
                                (negb (Z.testbit modifiers (Z.of_nat b))))
          else None)
       bs = [].
Proof.
  intros Hz. induction 1 as [|b bs Hb _ IH]; [reflexivity|].
  cbn [omap list_omap]. rewrite (u8_zero_bits diff (Z.of_nat b) Hz), IH by lia.
  reflexivity.
Qed.

Lemma scan_report_elem js data key :
  scan_report js data key = bool_decide (key ∈ (fun j => data !!! j) <$> js).
Proof.
  induction js as [|j js IH]; simpl.
  - first [reflexivity | symmetry; apply bool_decide_eq_false_2, not_elem_of_nil].
  - destruct (Z.eqb_spec (data !!! j) key) as [He|Hne].
    + symmetry. apply bool_decide_eq_true_2. rewrite He. apply list_elem_of_here.
    + rewrite IH. apply bool_decide_ext. rewrite elem_of_cons. intuition congruence.
Qed.

Lemma scan_prev_elem keys key :
  scan_prev keys key = bool_decide (key ∈ keys).
Proof.
  induction keys as [|k keys IH]; simpl.
  - first [reflexivity | symmetry; apply bool_decide_eq_false_2, not_elem_of_nil].
  - destruct (Z.eqb_spec k key) as [He|Hne].
    + symmetry. apply bool_decide_eq_true_2. rewrite He. apply list_elem_of_here.
    + rewrite IH. apply bool_decide_ext. rewrite elem_of_cons. intuition congruence.
Qed.

(** One turn of either key loop against the wording of the diff. *)
Lemma key_turn (rel : bool) key (seen : bool) (other : list Z) (rest : list KbdEvent) :
  seen = bool_decide (key ∈ other) ->
  (if key =? 0 then rest
   else if negb seen then
     if negb (u8 (usb_to_adb key) =? keycode_map.ADB_KEY_NONE)
     then mkKbdEvent (u8 (usb_to_adb key)) rel :: rest
     else rest
   else rest)
  = match (if bool_decide (key ≠ 0 ∧ (key ∉ other) ∧ u8 (usb_to_adb key) ≠ 255)
           then Some (mkKbdEvent (u8 (usb_to_adb key)) rel)
           else None) with
    | Some evt => evt :: rest
    | None => rest
    end.
Proof.
  intros ->. unfold keycode_map.ADB_KEY_NONE.
  destruct (Z.eqb_spec key 0) as [Hz|Hnz].
  { rewrite bool_decide_eq_false_2; [reflexivity|]. intuition congruence. }
  destruct (bool_decide (key ∈ other)) eqn:Hin; simpl.
  { apply bool_decide_eq_true in Hin.
    rewrite bool_decide_eq_false_2; [reflexivity|]. intuition congruence. }
  apply bool_decide_eq_false in Hin.
  destruct (Z.eqb_spec (u8 (usb_to_adb key)) 255) as [Hnone|Hcode]; simpl.
  - rewrite bool_decide_eq_false_2; [reflexivity|]. intuition congruence.
  - rewrite bool_decide_eq_true_2; [reflexivity|]. done.
Qed.

Lemma release_loop_spec data keys :
  release_loop usb_to_adb keys data
  = spec_key_events usb_to_adb true keys
      ((fun j => data !!! j) <$> key_slots (length data)).
Proof.
  induction keys as [|k keys IH]; [reflexivity|].
  unfold spec_key_events in *. cbn [release_loop omap list_omap].
  rewrite IH. apply key_turn, scan_report_elem.
Qed.

Lemma press_loop_spec data prev js :
  press_loop usb_to_adb js data prev
  = spec_key_events usb_to_adb false ((fun j => data !!! j) <$> js) prev.
Proof.
  induction js as [|j js IH]; [reflexivity|].
  unfold spec_key_events in *. rewrite fmap_cons.
  cbn [press_loop omap list_omap]. rewrite IH. apply key_turn, scan_prev_elem.
Qed.

Lemma key_slots_full len : (8 <= len)%nat -> key_slots len = [2; 3; 4; 5; 6; 7]%nat.
Proof.
  intros Hlen. unfold key_slots. cbn [seq].
  repeat (rewrite filter_cons_True by lia). reflexivity.
Qed.

(** In a report of eight bytes or more the key loops see bytes 2 to 7. *)
Lemma key_slots_report_keys (data : list Z) :
  (8 <= length data)%nat ->
  (fun j => data !!! j) <$> key_slots (length data) = report_keys data.
Proof.
  intros Hlen. rewrite key_slots_full by done.
  do 8 (destruct data as [|? data]; [simpl in Hlen; lia|]).
  reflexivity.
Qed.

Lemma save_keys_report_keys (data : list Z) :
  (8 <= length data)%nat -> save_keys data = report_keys data.
Proof.
  intros Hlen.
  do 8 (destruct data as [|? data]; [simpl in Hlen; lia|]).
  reflexivity.
Qed.

End ReportDiff.

(** C7.  The events one keyboard report produces.  For a report of eight
    bytes or more: first one event per bit set in modifiers XOR
    prev_modifiers, with the keycode the modifier table gives for that bit
    (0x36, 0x38, 0x3A, 0x37, 0x7D, 0x7B, 0x7C, 0x37 for bits 0 to 7) and
    released iff the bit is clear in the new modifiers; then one release
    per non-zero code of prev_keys that is not among bytes 2 to 7 of the
    report; then one press per non-zero code among bytes 2 to 7 that is not
    in prev_keys; a code the keycode table does not map produces nothing.
    For a shorter report: no event, and the previous keys and modifiers
    stay. *)
Theorem keyboard_report_events (usb_to_adb : Z -> Z) (data : list Z)
    (st : ble_hid_host.kbd_slot) :
  let r := ble_hid_host.on_keyboard_report usb_to_adb data st in
  ((8 <= length data)%nat ->
   r.2 = ble_hid_host.spec_modifier_events (data !!! 0%nat)
           (ble_hid_host.prev_modifiers st)
         ++ ble_hid_host.spec_key_events usb_to_adb true
              (ble_hid_host.prev_keys st) (ble_hid_host.report_keys data)
         ++ ble_hid_host.spec_key_events usb_to_adb false
              (ble_hid_host.report_keys data) (ble_hid_host.prev_keys st)) /\
  ((length data < 8)%nat ->
   r.2 = [] /\
   ble_hid_host.prev_keys r.1 = ble_hid_host.prev_keys st /\
   ble_hid_host.prev_modifiers r.1 = ble_hid_host.prev_modifiers st) /\
  keycode_map.adb_keycode <$> keycode_map.MODIFIER_MAP
  = [54; 56; 58; 55; 125; 123; 124; 55] /\
  keycode_map.usb_mask <$> keycode_map.MODIFIER_MAP
  = [1; 2; 4; 8; 16; 32; 64; 128].
Proof.
  intros r. subst r. unfold ble_hid_host.on_keyboard_report.
  split; [|split; [|split; reflexivity]].
  - intros Hlen.
    rewrite (proj2 (Nat.ltb_ge (length data) 8) Hlen).
    assert (Hbits : Forall (fun b => (b < 8)%nat) (seq 0 8))
      by (apply list.Forall_forall; intros b Hb; apply elem_of_seq in Hb; lia).
    set (modifiers := data !!! 0%nat).
    set (diff := Z.lxor modifiers (ble_hid_host.prev_modifiers st)).
    assert (Hmods :
      (if negb (u8 diff =? 0)
       then (ble_hid_host.modifier_loop keycode_map.MODIFIER_MAP modifiers (u8 diff),
             modifiers)
       else ([], ble_hid_host.prev_modifiers st)).1
      = ble_hid_host.spec_modifier_events modifiers (ble_hid_host.prev_modifiers st)).
    { unfold ble_hid_host.spec_modifier_events. fold diff.
      destruct (Z.eqb_spec (u8 diff) 0) as [Hz|_]; simpl negb; cbv iota; cbn [fst].
      - symmetry. apply no_bits_no_events; done.
      - rewrite MODIFIER_MAP_by_bit. apply modifier_loop_bits, Hbits. }
    destruct (if negb (u8 diff =? 0) then _ else _) as [mod_events mods'].
    cbn [fst snd] in *. rewrite Hmods.
    rewrite release_loop_spec, press_loop_spec, key_slots_report_keys by done.
    reflexivity.
  - intros Hlen.
    rewrite (proj2 (Nat.ltb_lt (length data) 8) Hlen). done.
Qed.

(** The key tap of the specification, with a keycode table that maps USB
    0x04 to ADB 0x00: a press, then a release; and a report of seven bytes
    produces nothing. *)
Lemma keyboard_report_events_witness :
  let usb_to_adb := fun k => if k =? 4 then 0 else 255 in
  let st0 := ble_hid_host.mkSlot [0; 0; 0; 0; 0; 0] 0 0 0 0 in
  let down := [0; 0; 4; 0; 0; 0; 0; 0] in
  let up := [0; 0; 0; 0; 0; 0; 0; 0] in
  let r1 := ble_hid_host.on_keyboard_report usb_to_adb down st0 in
  let r2 := ble_hid_host.on_keyboard_report usb_to_adb up r1.1 in
  ((8 <= length down)%nat /\ r1.2 = [mkKbdEvent 0 false]) /\
  ((8 <= length up)%nat /\ r2.2 = [mkKbdEvent 0 true]) /\
  ((length [2; 0; 4; 0; 0; 0; 0] < 8)%nat /\
   (ble_hid_host.on_keyboard_report usb_to_adb [2; 0; 4; 0; 0; 0; 0] st0).2 = []).
Proof.
  intros usb_to_adb st0 down up r1 r2.
  assert (H8 : (8 <= 8)%nat) by lia.
  assert (H7 : (7 < 8)%nat) by lia.
  split; [|split].
  - split; [exact H8|].
    destruct (keyboard_report_events usb_to_adb down st0) as (H & _).
    subst r1. rewrite (H H8). reflexivity.
  - split; [exact H8|].
    destruct (keyboard_report_events usb_to_adb up r1.1) as (H & _).
    subst r2. rewrite (H H8). reflexivity.
  - split; [exact H7|].
    destruct (keyboard_report_events usb_to_adb [2; 0; 4; 0; 0; 0; 0] st0)
      as (_ & H & _).
    exact (proj1 (H H7)).
Defined.

(** * Further properties of the protocol engine *)

Section Discipline.

Import adb_platform adb_protocol.

Lemma emits_measure_spin fuel state timeout start :
  emits [] (measure_spin fuel state timeout start).
Proof.
  induction fuel as [|fuel IH]; simpl; [intros w a w'; discriminate|].
  apply emits_quiet_bind; [apply emits_read_pin|]. intros p.
  apply emits_if; (apply emits_quiet_bind; [apply emits_micros_now|]); intros t.
  - apply emits_if; [apply emits_ret|apply IH].
  - apply emits_ret.
Qed.

Lemma emits_measure_pulse state timeout : emits [] (measure_pulse state timeout).
Proof.
  intros w a w'. unfold measure_pulse.
  apply (emits_quiet_bind [] read_pin); [apply emits_read_pin|]. intros p.
  apply emits_if; [apply emits_ret|].
  apply emits_quiet_bind; [apply emits_micros_now|]. intros start.
  apply emits_measure_spin.
Qed.

Lemma emits_receive_bit : emits [] receive_bit.
Proof.
  unfold receive_bit.
  apply emits_quiet_bind; [apply emits_wait_for_state|]. intros e.
  apply emits_if; [apply emits_ret|].
  apply emits_quiet_bind; [apply emits_measure_pulse|]. intros low.
  apply emits_if; [apply emits_ret|].
  apply emits_quiet_bind; [apply emits_wait_for_state|]. intros _.
  apply emits_ret.
Qed.

Lemma emits_receive_bits n : forall acc, emits [] (receive_bits n acc).
Proof.
  induction n as [|n IH]; intros acc; simpl; [apply emits_ret|].
  apply emits_quiet_bind; [apply emits_receive_bit|]. intros bit.
  apply emits_if; [apply emits_ret|apply IH].
Qed.

Lemma emits_receive_data : emits [] receive_data.
Proof.
  unfold receive_data.
  apply emits_quiet_bind; [apply emits_receive_bit|]. intros start.
  apply emits_if; [apply emits_ret|].
  apply emits_quiet_bind; [apply emits_receive_bits|]. intros result.
  apply emits_if; [apply emits_ret|].
  apply emits_quiet_bind; [apply emits_receive_bit|]. intros _.
  apply emits_ret.
Qed.

Lemma emits_receive_command : emits [] receive_command.
Proof.
  unfold receive_command, receive_byte.
  apply emits_quiet_bind; [apply emits_receive_bits|]. intros byte.
  apply emits_if; apply emits_ret.
Qed.

Lemma emits_send_bit bit : emits [DriveLow; Release] (send_bit bit).
Proof.
  unfold send_bit, drive_low, release.
  destruct bit.
  - apply (emits_bind [DriveLow] [Release]); [apply emits_emit|]. intros _.
    apply emits_quiet_bind; [apply emits_delay_us|]. intros _.
    rewrite <- (app_nil_r [Release]).
    apply emits_bind; [apply emits_emit|]. intros _. apply emits_delay_us.
  - apply (emits_bind [DriveLow] [Release]); [apply emits_emit|]. intros _.
    apply emits_quiet_bind; [apply emits_delay_us|]. intros _.
    rewrite <- (app_nil_r [Release]).
    apply emits_bind; [apply emits_emit|]. intros _. apply emits_delay_us.
Qed.

Lemma emits_send_bits n data :
  emits (concat (replicate n [DriveLow; Release])) (send_bits n data).
Proof.
  induction n as [|n IH]; simpl; [apply emits_ret|].
  apply (emits_bind [DriveLow; Release]); [apply emits_send_bit|].
  intros _. apply IH.
Qed.

(** X1.  A data frame sent by the device is eighteen low pulses, the start
    bit, sixteen data bits and the stop bit, each one released again, and
    nothing else happens on the line or to the interrupt mask. *)
Theorem send_data_eighteen_pulses (data : Z) (w w' : world) :
  send_data data w = Some (tt, w') ->
  new_effects w w' = concat (replicate 18 [DriveLow; Release]) /\
  list.last (trace w') = Some Release.
Proof.
  intros Hrun.
  assert (Hemits : emits (concat (replicate 18 [DriveLow; Release])) (send_data data)).
  { unfold send_data.
    apply (emits_bind [DriveLow; Release] (concat (replicate 17 [DriveLow; Release])));
      [apply emits_send_bit|]. intros _.
    change (concat (replicate 17 [DriveLow; Release]))
      with (concat (replicate 16 [DriveLow; Release]) ++ [DriveLow; Release]).
    apply emits_bind; [apply emits_send_bits|]. intros _. apply emits_send_bit. }
  pose proof (Hemits w tt w' Hrun) as Htrace.
  split; [apply new_effects_app, Htrace|].
  rewrite Htrace.
  change (concat (replicate 18 [DriveLow; Release]))
    with (concat (replicate 17 [DriveLow; Release]) ++ [DriveLow] ++ [Release]).
  rewrite !app_assoc. apply last_snoc.
Qed.

End Discipline.

Section Modes.

Import adb_platform adb_protocol.

Lemma discipline_app es1 : forall masked driving es2,
  discipline masked driving (es1 ++ es2)
  = match discipline masked driving es1 with
    | Some (m, d) => discipline m d es2
    | None => None
    end.
Proof.
  induction es1 as [|e es1 IH]; intros masked driving es2; [reflexivity|].
  destruct e, masked, driving; simpl; rewrite ?IH; reflexivity.
Qed.

Lemma keeps_emits {A} es before after (c : M A) :
  emits es c -> discipline before.1 before.2 es = Some after -> keeps before after c.
Proof. intros Hc Hd w a w' Hrun. exists es. split; [apply (Hc w a w' Hrun)|exact Hd]. Qed.

Lemma keeps_quiet {A} mode (c : M A) : emits [] c -> keeps mode mode c.
Proof. intros Hc. apply (keeps_emits []); [exact Hc|]. destruct mode; reflexivity. Qed.

Lemma keeps_bind {A B} m1 m2 m3 (c : M A) (k : A -> M B) :
  keeps m1 m2 c -> (forall a, keeps m2 m3 (k a)) -> keeps m1 m3 (bind c k).
Proof.
  intros Hc Hk w b w' Hrun. apply bind_some in Hrun as (a & w1 & H1 & H2).
  destruct (Hc w a w1 H1) as (es1 & Ht1 & Hd1).
  destruct (Hk a w1 b w' H2) as (es2 & Ht2 & Hd2).
  exists (es1 ++ es2). split; [rewrite Ht2, Ht1, app_assoc; reflexivity|].
  rewrite discipline_app, Hd1. destruct m2. exact Hd2.
Qed.

Lemma keeps_if {A} m1 m2 (b : bool) (c1 c2 : M A) :
  keeps m1 m2 c1 -> keeps m1 m2 c2 -> keeps m1 m2 (if b then c1 else c2).
Proof. destruct b; done. Qed.

Lemma keeps_send_data data : keeps masked_bus masked_bus (send_data data).
Proof.
  apply (keeps_emits (concat (replicate 18 [DriveLow; Release]))); [|reflexivity].
  unfold send_data.
  apply (emits_bind [DriveLow; Release] (concat (replicate 17 [DriveLow; Release])));
    [apply emits_send_bit|]. intros _.
  change (concat (replicate 17 [DriveLow; Release]))
    with (concat (replicate 16 [DriveLow; Release]) ++ [DriveLow; Release]).
  apply emits_bind; [apply emits_send_bits|]. intros _. apply emits_send_bit.
Qed.

Lemma keeps_dispatch_stop_bit cmd st :
  keeps masked_bus idle_bus (dispatch_stop_bit cmd true st).
Proof.
  eapply keeps_emits; [apply dispatch_stop_bit_effects|].
  cbv zeta. repeat case_match; reflexivity.
Qed.

Lemma keeps_dispatch_command cmd st :
  keeps idle_bus idle_bus (dispatch_command cmd st).
Proof.
  unfold dispatch_command.
  apply keeps_if; [|apply keeps_if; [|apply keeps_if; [|apply keeps_if]]].
  - destruct (if is_kbd cmd st then _ else _) as [[data|] st1].
    + apply (keeps_bind _ idle_bus); [apply keeps_quiet, emits_delay_us|]. intros _.
      apply (keeps_bind _ masked_bus).
      { apply (keeps_emits [IntsDisable]); [apply emits_emit|reflexivity]. }
      intros _. apply (keeps_bind _ masked_bus); [apply keeps_send_data|]. intros _.
      apply (keeps_bind _ idle_bus).
      { apply (keeps_emits [IntsEnable]); [apply emits_emit|reflexivity]. }
      intros _. apply keeps_quiet, emits_ret.
    + apply keeps_quiet, emits_ret.
  - apply (keeps_bind _ idle_bus); [apply keeps_quiet, emits_wait_for_state|].
    intros e. apply keeps_if; [apply keeps_quiet, emits_ret|].
    apply (keeps_bind _ masked_bus).
    { apply (keeps_emits [IntsDisable]); [apply emits_emit|reflexivity]. }
    intros _. apply (keeps_bind _ masked_bus); [apply keeps_quiet, emits_receive_data|].
    intros data. apply (keeps_bind _ idle_bus).
    { apply (keeps_emits [IntsEnable]); [apply emits_emit|reflexivity]. }
    intros _. repeat apply keeps_if; apply keeps_quiet, emits_ret.
  - apply keeps_quiet, emits_ret.
  - apply keeps_quiet, emits_ret.
  - apply keeps_quiet, emits_ret.
Qed.

Lemma keeps_handle_command cmd st :
  keeps masked_bus idle_bus (handle_command cmd true st).
Proof.
  unfold handle_command. cbv zeta.
  apply (keeps_bind _ idle_bus); [apply keeps_dispatch_stop_bit|].
  intros for_us. apply keeps_if; [apply keeps_dispatch_command|].
  apply keeps_quiet, emits_ret.
Qed.

Lemma keeps_attention_stage st : keeps idle_bus idle_bus (attention_stage st).
Proof.
  unfold attention_stage.
  apply (keeps_bind _ idle_bus); [apply keeps_quiet, emits_micros_now|]. intros t0.
  apply (keeps_bind _ idle_bus); [apply keeps_quiet, emits_wait_for_state|]. intros _.
  apply (keeps_bind _ idle_bus); [apply keeps_quiet, emits_micros_now|]. intros t.
  apply keeps_if; [|apply keeps_quiet, emits_ret].
  apply (keeps_bind _ masked_bus).
  { apply (keeps_emits [IntsDisable]); [apply emits_emit|reflexivity]. }
  intros _. apply (keeps_bind _ masked_bus); [apply keeps_quiet, emits_receive_command|].
  intros cmd. apply keeps_if; [apply keeps_handle_command|].
  apply (keeps_bind _ idle_bus).
  { apply (keeps_emits [IntsEnable]); [apply emits_emit|reflexivity]. }
  intros _. apply keeps_quiet, emits_ret.
Qed.

Lemma keeps_periodic_yield yc : keeps idle_bus idle_bus (periodic_yield yc).
Proof.
  unfold periodic_yield. cbv zeta. apply keeps_if; [|apply keeps_quiet, emits_ret].
  apply (keeps_bind _ idle_bus).
  { apply (keeps_emits [TaskDelay]); [apply emits_emit|reflexivity]. }
  intros _. apply keeps_quiet, emits_ret.
Qed.

Lemma keeps_bus_turn st yc : keeps idle_bus idle_bus (bus_turn st yc).
Proof.
  unfold bus_turn.
  apply (keeps_bind _ idle_bus); [apply keeps_quiet, emits_read_pin|]. intros p.
  apply keeps_if.
  { apply (keeps_bind _ idle_bus); [apply keeps_quiet, emits_wait_for_state|].
    intros _. apply keeps_quiet, emits_ret. }
  apply (keeps_bind _ idle_bus); [apply keeps_quiet, emits_wait_for_state|]. intros e.
  apply keeps_if.
  { apply (keeps_bind _ idle_bus).
    { apply (keeps_emits [TaskDelay]); [apply emits_emit|reflexivity]. }
    intros _. apply keeps_quiet, emits_ret. }
  apply (keeps_bind _ idle_bus); [apply keeps_quiet, emits_micros_now|]. intros t0.
  apply (keeps_bind _ idle_bus); [apply keeps_quiet, emits_wait_for_state|]. intros _.
  apply (keeps_bind _ idle_bus); [apply keeps_quiet, emits_micros_now|]. intros t.
  unfold pulse_stage. apply keeps_if; [apply keeps_quiet, emits_ret|].
  apply (keeps_bind _ idle_bus).
  { apply keeps_if; [apply keeps_attention_stage|apply keeps_quiet, emits_ret]. }
  intros st1. apply (keeps_bind _ idle_bus); [apply keeps_periodic_yield|].
  intros c. apply keeps_quiet, emits_ret.
Qed.

(** X2.  Any number of turns of the bus loop, started with the interrupts
    on and the line released: the device pulls the line low only with the
    interrupts masked, never unmasks them while it holds the line, never
    yields to the scheduler inside a masked or driven stretch, and ends
    every turn with the interrupts on and the line released. *)
Theorem bus_loop_discipline (turns : nat) (st : sys) (yc : Z) (w w' : world)
    (r : sys * Z) :
  bus_loop turns st yc w = Some (r, w') ->
  exists es,
    trace w' = trace w ++ es /\
    discipline false false es = Some (false, false).
Proof.
  intros Hrun.
  assert (Hk : forall n st yc, keeps idle_bus idle_bus (bus_loop n st yc)).
  { clear. induction n as [|n IH]; intros st yc; simpl.
    - apply keeps_quiet, emits_ret.
    - apply (keeps_bind _ idle_bus); [apply keeps_bus_turn|]. intros r. apply IH. }
  exact (Hk turns st yc w r w' Hrun).
Qed.

End Modes.

(** A key press is queued and the host polls the keyboard (Talk R0 to
    address 2, command byte 0x2C): the turn completes, within the
    discipline. *)
Lemma bus_loop_discipline_witness :
  let st := adb_protocol.mkSys adb_keyboard.power_on adb_mouse.power_on
              [mkKbdEvent 0 false] [] 0 0 in
  exists r w' es,
    adb_protocol.bus_loop 1 st 0 (command_turn 44) = Some (r, w') /\
    adb_protocol.s_talk_response_count r.1 = 1 /\
    trace w' = trace (command_turn 44) ++ es /\
    discipline false false es = Some (false, false).
Proof.
  intros st.
  destruct (adb_protocol.bus_loop 1 st 0 (command_turn 44)) as [[r w']|] eqn:Hrun.
  - destruct (bus_loop_discipline 1 st 0 (command_turn 44) w' r Hrun)
      as (es & Htrace & Hd).
    exists r, w', es. split; [reflexivity|]. split; [|split; assumption].
    vm_compute in Hrun. injection Hrun as <- _. reflexivity.
  - vm_compute in Hrun. discriminate Hrun.
Defined.

Lemma send_data_eighteen_pulses_witness :
  let w := mkWorld []
             (flat_map (fun i => [i * 100; i * 100 + 70; i * 100 + 70; i * 100 + 140])
                       (seqZ 0 18)) [] in
  let w' := mkWorld [] [] (concat (replicate 18 [DriveLow; Release])) in
  adb_protocol.send_data 255 w = Some (tt, w') /\
  new_effects w w' = concat (replicate 18 [DriveLow; Release]).
Proof.
  intros w w'.
  assert (Hrun : adb_protocol.send_data 255 w = Some (tt, w')) by reflexivity.
  split; [exact Hrun|].
  exact (proj1 (send_data_eighteen_pulses 255 w w' Hrun)).
Defined.

Section Addressing.

Import adb_platform adb_protocol.

Ltac run_inv H :=
  repeat (apply bind_some in H as (? & ? & _ & H));
  try (injection H as <- _).

Lemma dispatch_stop_bit_result cmd ints st w for_us w' :
  dispatch_stop_bit cmd ints st w = Some (for_us, w') ->
  for_us = is_kbd cmd st || is_mouse cmd st.
Proof.
  unfold dispatch_stop_bit. intros H.
  destruct (is_kbd cmd st), (is_mouse cmd st); simpl in H;
    apply bind_some in H as (? & ? & _ & H);
    apply bind_some in H as (? & ? & _ & H);
    injection H as <- _; reflexivity.
Qed.

(** X3.  A command whose address is that of neither device changes
    nothing the emulators own: whatever the command, both state blocks and
    both queues are what they were, and only the poll counter moves. *)
Theorem foreign_command_leaves_devices (cmd : AdbCommand) (ints : bool)
    (st st' : sys) (w w' : world) :
  is_kbd cmd st = false ->
  is_mouse cmd st = false ->
  handle_command cmd ints st w = Some (st', w') ->
  st' = count_poll st.
Proof.
  intros Hk Hm Hrun. unfold handle_command in Hrun. cbv zeta in Hrun.
  apply bind_some in Hrun as (for_us & w1 & Hstop & Hrun).
  apply dispatch_stop_bit_result in Hstop.
  change (is_kbd cmd (count_poll st)) with (is_kbd cmd st) in Hstop.
  change (is_mouse cmd (count_poll st)) with (is_mouse cmd st) in Hstop.
  rewrite Hk, Hm in Hstop. subst for_us. injection Hrun as <- _. reflexivity.
Qed.

Lemma foreign_command_leaves_devices_witness :
  let cmd := mkCmd 7 ADB_CMD_RESET 0 true in
  let st := mkSys adb_keyboard.power_on adb_mouse.power_on
                  [mkKbdEvent 0 false] [] 0 0 in
  let w := mkWorld [false] [0; 1; 1; 301] [] in
  let w' := mkWorld [] [] [DriveLow; Release; IntsEnable] in
  is_kbd cmd st = false /\
  is_mouse cmd st = false /\
  exists st', handle_command cmd true st w = Some (st', w') /\ st' = count_poll st.
Proof.
  intros cmd st w w'.
  assert (Hrun : handle_command cmd true st w = Some (count_poll st, w'))
    by reflexivity.
  split; [reflexivity|]. split; [reflexivity|].
  exists (count_poll st). split; [exact Hrun|].
  exact (foreign_command_leaves_devices cmd true st (count_poll st) w w'
           eq_refl eq_refl Hrun).
Defined.

(** X4.  The keyboard comes first.  Whenever a command has the keyboard's
    address, also when the mouse has the same address:  Talk is answered
    by the keyboard's [handle_talk] alone, which leaves the keyboard state
    and queue as it returns them; the word put on the bus is the word it
    returned, after Tlt and with the interrupts masked, and the response
    counter moves iff there is a word.  The payload of a Listen that
    arrives goes to the keyboard's [handle_listen]; a Listen whose frame
    does not start or is in error changes nothing.  Either way the mouse
    state and queue stay as they were.  Flush and Reset reach every device
    that has the address. *)
Theorem keyboard_precedence (cmd : AdbCommand) (st st' : sys) (w w' : world) :
  is_kbd cmd st = true ->
  dispatch_command cmd st w = Some (st', w') ->
  (command cmd = ADB_CMD_TALK ->
   let r := adb_keyboard.handle_talk (reg cmd) (kbd st) (kbd_queue st) in
   kbd st' = r.1.2 /\ kbd_queue st' = r.2 /\
   mouse st' = mouse st /\ mouse_queue st' = mouse_queue st /\
   s_poll_count st' = s_poll_count st /\
   (forall data, r.1.1 = Some data ->
      s_talk_response_count st' = u32 (s_talk_response_count st + 1) /\
      (run delay_us ADB_TLT_US ;
       run interrupts_disable ;
       run send_data data ;
       interrupts_enable) w = Some (tt, w')) /\
   (r.1.1 = None ->
      s_talk_response_count st' = s_talk_response_count st /\ w' = w)) /\
  (command cmd = ADB_CMD_LISTEN ->
   mouse st' = mouse st /\ mouse_queue st' = mouse_queue st /\
   kbd_queue st' = kbd_queue st /\
   (forall w1,
      wait_for_state false (ADB_TLT_MAX_US + 100) w = Some (0, w1) ->
      kbd st' = kbd st) /\
   (forall e w1 w2 data w3,
      wait_for_state false (ADB_TLT_MAX_US + 100) w = Some (e, w1) ->
      e <> 0 ->
      interrupts_disable w1 = Some (tt, w2) ->
      receive_data w2 = Some (data, w3) ->
      kbd st' = if data >=? 0
                then adb_keyboard.handle_listen (reg cmd) (u16 data) (kbd st)
                else kbd st)) /\
  (command cmd = ADB_CMD_FLUSH ->
   kbd st' = adb_keyboard.handle_flush (kbd st) /\
   mouse st' = if is_mouse cmd st then adb_mouse.handle_flush (mouse st)
               else mouse st) /\
  (command cmd = ADB_CMD_RESET ->
   kbd st' = adb_keyboard.handle_reset (kbd st) /\
   mouse st' = if is_mouse cmd st then adb_mouse.handle_reset (mouse st)
               else mouse st).
Proof.
  intros Hk Hrun. unfold dispatch_command in Hrun. rewrite Hk in Hrun.
  split; [|split; [|split]].
  - intros Hc r. subst r. rewrite Hc in Hrun.
    change (ADB_CMD_TALK =? ADB_CMD_TALK) with true in Hrun. cbv iota in Hrun.
    destruct (adb_keyboard.handle_talk (reg cmd) (kbd st) (kbd_queue st))
      as [[[data|] k] q]; cbn [fst snd].
    + apply bind_some in Hrun as ([] & w1 & H1 & Hrun).
      apply bind_some in Hrun as ([] & w2 & H2 & Hrun).
      apply bind_some in Hrun as ([] & w3 & H3 & Hrun).
      apply bind_some in Hrun as ([] & w4 & H4 & Hrun).
      injection Hrun as <- <-.
      do 5 (split; [reflexivity|]). split; [|discriminate].
      intros d [= <-]. split; [reflexivity|].
      rewrite (bind_run _ _ _ _ _ H1), (bind_run _ _ _ _ _ H2),
        (bind_run _ _ _ _ _ H3).
      exact H4.
    + injection Hrun as <- <-. repeat split; done.
  - intros Hc. rewrite Hc in Hrun.
    change (ADB_CMD_LISTEN =? ADB_CMD_TALK) with false in Hrun.
    change (ADB_CMD_LISTEN =? ADB_CMD_LISTEN) with true in Hrun.
    cbv iota in Hrun.
    apply bind_some in Hrun as (e & w1 & Hwait & Hrun).
    destruct (Z.eqb_spec e 0) as [->|He].
    + injection Hrun as <- _. repeat split; try done.
      intros e' w1' w2 data w3 Hwait' He'. rewrite Hwait in Hwait'.
      injection Hwait' as <- _. done.
    + apply bind_some in Hrun as ([] & w2 & Hoff & Hrun).
      apply bind_some in Hrun as (data & w3 & Hdata & Hrun).
      apply bind_some in Hrun as ([] & w4 & _ & Hrun).
      assert (Hst : st' = if data >=? 0
                          then with_kbd (adb_keyboard.handle_listen (reg cmd)
                                           (u16 data) (kbd st)) (kbd_queue st) st
                          else st)
        by (destruct (data >=? 0); injection Hrun as <- _; reflexivity).
      repeat split; try (rewrite Hst; destruct (data >=? 0); reflexivity).
      * intros w1' Hwait'. rewrite Hwait in Hwait'. injection Hwait' as -> _.
        done.
      * intros e' w1' w2' data' w3' Hwait' _ Hoff' Hdata'.
        rewrite Hwait in Hwait'. injection Hwait' as <- <-.
        rewrite Hoff in Hoff'. injection Hoff' as <-.
        rewrite Hdata in Hdata'. injection Hdata' as <- _.
        rewrite Hst. destruct (data >=? 0); reflexivity.
  - intros Hc. rewrite Hc in Hrun.
    change (ADB_CMD_FLUSH =? ADB_CMD_TALK) with false in Hrun.
    change (ADB_CMD_FLUSH =? ADB_CMD_LISTEN) with false in Hrun.
    change (ADB_CMD_FLUSH =? ADB_CMD_FLUSH) with true in Hrun.
    cbv iota zeta in Hrun. injection Hrun as <- _.
    destruct (is_mouse cmd st); done.
  - intros Hc. rewrite Hc in Hrun.
    change (ADB_CMD_RESET =? ADB_CMD_TALK) with false in Hrun.
    change (ADB_CMD_RESET =? ADB_CMD_LISTEN) with false in Hrun.
    change (ADB_CMD_RESET =? ADB_CMD_FLUSH) with false in Hrun.
    change (ADB_CMD_RESET =? ADB_CMD_RESET) with true in Hrun.
    cbv iota zeta in Hrun. injection Hrun as <- _.
    destruct (is_mouse cmd st); done.
Qed.

End Addressing.

(** Keyboard and mouse both at address 3, with handler ids 2 and 4: Talk R3
    is answered with the keyboard's word 0x6302, not the mouse's 0x6304,
    and the mouse, which has motion to report, is left alone. *)
Lemma keyboard_precedence_witness :
  let shared :=
    adb_protocol.mkSys
      (adb_keyboard.handle_listen 3 768 adb_keyboard.power_on)
      (adb_mouse.mk 3 4 10 (-4) false false 1) [] [] 0 0 in
  let cmd := adb_protocol.mkCmd 3 ADB_CMD_TALK 3 true in
  let w := mkWorld []
             ([0; 200] ++ flat_map (fun i => [i * 100; i * 100 + 70;
                                              i * 100 + 70; i * 100 + 140])
                                   (seqZ 3 18)) [] in
  adb_protocol.is_kbd cmd shared = true /\
  adb_protocol.is_mouse cmd shared = true /\
  adb_protocol.mouse_has_data shared = true /\
  (adb_keyboard.handle_talk 3 (adb_protocol.kbd shared) []).1.1 = Some 25346 /\
  (adb_mouse.handle_talk 3 (adb_protocol.mouse shared) []).1.1 = Some 25348 /\
  exists st' w',
    adb_protocol.dispatch_command cmd shared w = Some (st', w') /\
    adb_protocol.mouse st' = adb_protocol.mouse shared /\
    (run adb_platform.delay_us ADB_TLT_US ;
     run adb_platform.interrupts_disable ;
     run adb_protocol.send_data 25346 ;
     adb_platform.interrupts_enable) w = Some (tt, w').
Proof.
  intros shared cmd w.
  assert (Hk : adb_protocol.is_kbd cmd shared = true) by reflexivity.
  assert (Hword : (adb_keyboard.handle_talk (adb_protocol.reg cmd)
                     (adb_protocol.kbd shared)
                     (adb_protocol.kbd_queue shared)).1.1 = Some 25346)
    by reflexivity.
  assert (Hrun : exists r, adb_protocol.dispatch_command cmd shared w = Some r)
    by (eexists; vm_compute; reflexivity).
  destruct Hrun as [[st' w'] Hrun].
  split; [exact Hk|]. split; [reflexivity|]. split; [reflexivity|].
  split; [reflexivity|]. split; [reflexivity|].
  exists st', w'. split; [exact Hrun|].
  destruct (keyboard_precedence cmd shared st' w w' Hk Hrun) as (HT & _).
  destruct (HT eq_refl) as (_ & _ & Hm & _ & _ & Hsome & _).
  split; [exact Hm|]. exact (proj2 (Hsome 25346 Hword)).
Defined.

Section Timing.

Import adb_platform adb_protocol.

Lemma delay_spin_waits fuel start us : forall w w',
  delay_spin fuel start us w = Some (tt, w') ->
  exists early t,
    clock w = early ++ t :: clock w' /\
    Forall (fun x => u32 (u32 x - start) < us) early /\
    us <= u32 (u32 t - start) /\
    pins w' = pins w /\ trace w' = trace w.
Proof.
  induction fuel as [|fuel IH]; intros w w' Hrun; [discriminate|].
  simpl in Hrun. unfold bind, micros_now in Hrun.
  destruct (clock w) as [|x ts] eqn:Hclock; [discriminate|].
  destruct (Z.ltb_spec (u32 (u32 x - start)) us) as [Hearly|Hlate].
  - apply IH in Hrun as (early & t & Hc & Hall & Ht & Hp & Htr).
    simpl in Hc, Hp, Htr. exists (x :: early), t.
    rewrite Hc. split; [reflexivity|]. split; [constructor; assumption|].
    split; [exact Ht|]. split; assumption.
  - injection Hrun as <-. exists [], x. simpl.
    split; [reflexivity|]. split; [constructor|]. split; [lia|]. done.
Qed.

(** X5.  [delay_us] never returns early.  It returns at the first reading
    of the timer that is at least [us] microseconds after the reading it
    started with, the difference taken modulo 2^32, so also when the timer
    wraps in between; it reads no pin and does nothing to the line. *)
Theorem delay_us_waits (us : Z) (w w' : world) :
  delay_us us w = Some (tt, w') ->
  exists t0 early t,
    clock w = t0 :: early ++ t :: clock w' /\
    Forall (fun x => u32 (u32 x - u32 t0) < us) early /\
    us <= u32 (u32 t - u32 t0) /\
    pins w' = pins w /\ trace w' = trace w.
Proof.
  unfold delay_us, bind, micros_now. intros Hrun.
  destruct (clock w) as [|t0 ts] eqn:Hclock; [discriminate|].
  apply delay_spin_waits in Hrun as (early & t & Hc & Hall & Ht & Hp & Htr).
  simpl in Hc, Hp, Htr. exists t0, early, t. rewrite Hc. done.
Qed.

(** The timer wraps during the wait: started at 2^32 - 100, a delay of
    200 is over at the reading 100. *)
Lemma delay_us_waits_witness :
  let w := mkWorld [true] [4294967196; 4294967290; 50; 100; 7] [] in
  let w' := mkWorld [true] [7] [] in
  adb_platform.delay_us 200 w = Some (tt, w') /\
  exists t0 early t,
    clock w = t0 :: early ++ t :: clock w' /\
    200 <= u32 (u32 t - u32 t0).
Proof.
  intros w w'.
  assert (Hrun : adb_platform.delay_us 200 w = Some (tt, w')) by reflexivity.
  split; [exact Hrun|].
  destruct (delay_us_waits 200 w w' Hrun) as (t0 & early & t & Hc & _ & Ht & _).
  exists t0, early, t. split; assumption.
Defined.

End Timing.

Section Decoding.

Import adb_platform adb_protocol.

Lemma u32_diff a b : u32 (u32 a - u32 b) = u32 (a - b).
Proof. unfold u32. Z.div_mod_to_equations. lia. Qed.

(** A pulse that is there at the first look and ends after [k] more
    looks, each of them before the timeout: the time from the start to the
    reading after the look that saw the end. *)
Lemma measure_spin_reaches state timeout start (k : nat) :
  forall fuel ps looks t1 rest tr,
    (k < fuel)%nat ->
    length looks = k ->
    Forall (fun t => u32 (u32 t - start) < timeout) looks ->
    measure_spin fuel state timeout start
      (mkWorld (replicate k state ++ negb state :: ps) (looks ++ t1 :: rest) tr)
    = Some (u32 (u32 t1 - start), mkWorld ps rest tr).
Proof.
  induction k as [|k IH]; intros fuel ps looks t1 rest tr Hfuel Hlen Hearly.
  - destruct looks; [|discriminate]. destruct fuel as [|fuel]; [lia|].
    cbn [replicate app measure_spin bind read_pin micros_now pins clock trace].
    replace (eqb (negb state) state) with false by (destruct state; reflexivity).
    reflexivity.
  - destruct looks as [|b looks]; [discriminate|].
    destruct fuel as [|fuel]; [lia|].
    apply Forall_cons_1 in Hearly as [Hb Hearly].
    cbn [replicate app measure_spin bind read_pin micros_now pins clock trace].
    rewrite eqb_reflx.
    cbn [bind micros_now pins clock trace].
    destruct (Z.geb_spec (u32 (u32 b - start)) timeout); [lia|].
    apply IH; [lia|simpl in Hlen; lia|done].
Qed.

Lemma measure_pulse_reaches state timeout (k : nat) ps t0 looks t1 rest tr :
  length looks = k ->
  Forall (fun t => u32 (u32 t - u32 t0) < timeout) looks ->
  measure_pulse state timeout
    (mkWorld (state :: replicate k state ++ negb state :: ps)
             (t0 :: looks ++ t1 :: rest) tr)
  = Some (u32 (u32 t1 - u32 t0), mkWorld ps rest tr).
Proof.
  intros Hlen Hearly. unfold measure_pulse, bind, read_pin, micros_now.
  cbn [pins clock trace]. rewrite eqb_reflx. cbn [negb].
  apply measure_spin_reaches; [|done..].
  cbn [length]. rewrite length_app, length_replicate. simpl. lia.
Qed.

Lemma Forall_u32_diff (start timeout : Z) (ts : list Z) :
  Forall (fun t => u32 (t - start) < timeout) ts ->
  Forall (fun t => u32 (u32 t - u32 start) < timeout) ts.
Proof.
  apply Forall_impl. intros t Ht. rewrite u32_diff. exact Ht.
Qed.

(** One cell that arrives is read as the bit it carries, however often
    the loops looked. *)
Lemma receive_bit_sight (s : sight) ps cs tr :
  arrives s ->
  receive_bit (mkWorld (sight_pins s ++ ps) (sight_clock s ++ cs) tr)
  = Some (Z.b2z (sight_bit s), mkWorld ps cs tr).
Proof.
  intros (Hhigh & Hfall & Hlow & Htime).
  unfold receive_bit, sight_pins, sight_clock.
  rewrite <- !app_assoc. cbn [app].
  erewrite bind_run;
    [|apply (wait_for_state_reaches false _ (length (wait_high s)));
      [reflexivity|apply Forall_u32_diff, Hhigh]].
  rewrite u32_diff. rewrite (proj2 (Z.eqb_neq _ _) Hfall).
  erewrite bind_run;
    [|apply (measure_pulse_reaches false _ (length (low_looks s)));
      [reflexivity|apply Forall_u32_diff, Hlow]].
  rewrite u32_diff. fold (low_time s). rewrite (proj2 (Z.eqb_neq _ _) Htime).
  erewrite bind_run; [|apply wait_for_state_immediate; reflexivity].
  unfold sight_bit. destruct (low_time s <? ADB_BIT_THRESHOLD_US); reflexivity.
Qed.

Lemma lor_next_bit v (i : nat) :
  Z.lor (Z.shiftl (Z.b2z (Z.testbit v (Z.of_nat i))) (Z.of_nat i))
        (Z.land v (Z.ones (Z.of_nat i)))
  = Z.land v (Z.ones (Z.of_nat (S i))).
Proof.
  apply Z.bits_inj'. intros k Hk.
  rewrite Z.lor_spec, !Z.land_spec, Z.shiftl_spec by lia.
  rewrite !Z.ones_spec by lia.
  destruct (Z.lt_trichotomy k (Z.of_nat i)) as [Hlt|[->|Hgt]].
  - rewrite Z.testbit_neg_r by lia.
    repeat case_bool_decide; try lia. reflexivity.
  - rewrite Z.sub_diag, Z.b2z_bit0.
    repeat case_bool_decide; try lia.
    destruct (Z.testbit v (Z.of_nat i)); reflexivity.
  - replace (Z.testbit (Z.b2z (Z.testbit v (Z.of_nat i))) (k - Z.of_nat i))
      with false.
    + repeat case_bool_decide; lia || apply andb_false_r.
    + symmetry. destruct (Z.testbit v (Z.of_nat i)); simpl.
      * apply (Z.bits_above_log2 1); simpl; lia.
      * apply Z.bits_0.
Qed.

(** Cells that arrive and carry the [n] low bits of [v], most significant
    first, are read back as those bits. *)
Lemma receive_bits_sights v (n : nat) : forall (vs : list sight) acc ps cs tr,
  Forall arrives vs ->
  sight_bit <$> vs = msb_first n v ->
  receive_bits n acc
    (mkWorld (flat_map sight_pins vs ++ ps) (flat_map sight_clock vs ++ cs) tr)
  = Some (Z.lor acc (Z.land v (Z.ones (Z.of_nat n))), mkWorld ps cs tr).
Proof.
  induction n as [|n IH]; intros vs acc ps cs tr Hok Hbits.
  - destruct vs; [|discriminate]. simpl.
    rewrite Z.land_0_r, Z.lor_0_r. reflexivity.
  - destruct vs as [|s vs]; [discriminate|].
    cbn [msb_first] in Hbits. rewrite fmap_cons in Hbits.
    injection Hbits as Hbit Hrest.
    apply Forall_cons_1 in Hok as [Hs Hok].
    cbn [flat_map receive_bits]. rewrite <- !app_assoc.
    rewrite (bind_run _ _ _ _ _ (receive_bit_sight s _ _ tr Hs)).
    rewrite Hbit.
    replace (Z.b2z (Z.testbit v (Z.of_nat n)) <? 0) with false
      by (destruct (Z.testbit v (Z.of_nat n)); reflexivity).
    rewrite (IH vs _ ps cs tr Hok Hrest), <- Z.lor_assoc, lor_next_bit.
    reflexivity.
Qed.

End Decoding.

Section Frames.

Import adb_platform adb_protocol.

Lemma lor_bounded (m a b : Z) :
  0 <= m -> 0 <= a < 2 ^ m -> 0 <= b < 2 ^ m -> 0 <= Z.lor a b < 2 ^ m.
Proof.
  intros Hm Ha Hb.
  assert (Hnn : 0 <= Z.lor a b) by (apply Z.lor_nonneg; lia).
  apply Z.bounded_iff_bits_nonneg'; [lia..|]. intros l Hl.
  rewrite Z.lor_spec.
  rewrite (proj1 (Z.bounded_iff_bits_nonneg' m a Hm (proj1 Ha)) Ha l Hl).
  rewrite (proj1 (Z.bounded_iff_bits_nonneg' m b Hm (proj1 Hb)) Hb l Hl).
  reflexivity.
Qed.

(** X6.  A command byte is read back whole from any eight bit cells that
    arrive and carry its bits, most significant first.  The device sees a
    cell as the line high for any number of looks, then low at the look
    that ends the wait, still low at the look that starts the measurement
    and for any number of looks after it, then high.  The cell arrives
    when its falling edge is seen within 200 microseconds, at a reading of
    the timer later than the one the wait began with, and its low phase
    ends within 115 microseconds, at a reading later than the one the
    measurement began with; it carries a 1 iff the low time found is under
    50 microseconds.  However often the loops look at the line, and at
    whatever values of the 32-bit timer: the address is the high nibble of
    the byte, the command its bits 3:2 and the register its bits 1:0.  The
    stop bit is left on the line. *)
Theorem receive_command_round_trip (byte : Z) (vs : list sight)
    (ps : list bool) (cs : list Z) (tr : list effect) :
  0 <= byte < 256 ->
  Forall arrives vs ->
  sight_bit <$> vs = msb_first 8 byte ->
  receive_command
    (mkWorld (flat_map sight_pins vs ++ ps) (flat_map sight_clock vs ++ cs) tr)
  = Some (mkCmd (byte / 16) (byte / 4 mod 4) (byte mod 4) true,
          mkWorld ps cs tr).
Proof.
  intros Hbyte Hok Hbits. unfold receive_command, receive_byte.
  rewrite (bind_run _ _ _ _ _ (receive_bits_sights byte 8 vs 0 ps cs tr Hok Hbits)).
  rewrite Z.lor_0_l, Z.land_ones by lia.
  change (2 ^ Z.of_nat 8) with 256. rewrite Z.mod_small by lia.
  destruct (Z.ltb_spec byte 0); [lia|].
  rewrite !Z.shiftr_div_pow2 by lia.
  change 15 with (Z.ones 4). change 3 with (Z.ones 2).
  rewrite !Z.land_ones by lia.
  change (2 ^ 4) with 16. change (2 ^ 2) with 4.
  rewrite (Z.mod_small (byte / 16) 16) by (Z.div_mod_to_equations; lia).
  reflexivity.
Qed.

End Frames.

(** Cells polled several times each, 35 or 65 microseconds low, one every
    100 microseconds: they arrive, also those that straddle the wrap of
    the timer. *)
Lemma polled_cell_arrives (t low : Z) :
  0 < low < 100 -> arrives (polled_cell t low).
Proof.
  intros Hlow. unfold arrives, polled_cell, low_time, ADB_BIT_CELL_US,
    ADB_TIMING_TOLERANCE_US.
  cbn [wait_start wait_high fall low_start low_looks rise].
  repeat split.
  - repeat constructor; unfold u32; Z.div_mod_to_equations; lia.
  - unfold u32. Z.div_mod_to_equations. lia.
  - repeat constructor; unfold u32; Z.div_mod_to_equations; lia.
  - unfold u32. Z.div_mod_to_equations. lia.
Qed.

(** Talk R0 to address 2, the byte 0x2C, its cells starting 296
    microseconds before the timer wraps. *)
Lemma receive_command_round_trip_witness :
  let vs := (fun '(i, low) => polled_cell (4294967000 + 100 * i) low)
              <$> zip (seqZ 0 8) [65; 65; 35; 65; 35; 35; 65; 65] in
  0 <= 44 < 256 /\
  Forall arrives vs /\
  sight_bit <$> vs = msb_first 8 44 /\
  adb_protocol.receive_command
    (mkWorld (flat_map sight_pins vs ++ []) (flat_map sight_clock vs ++ []) [])
  = Some (adb_protocol.mkCmd 2 ADB_CMD_TALK 0 true, mkWorld [] [] []).
Proof.
  intros vs.
  assert (H : 0 <= 44 < 256) by lia.
  assert (Hok : Forall arrives vs)
    by (repeat constructor; apply polled_cell_arrives; lia).
  assert (Hbits : sight_bit <$> vs = msb_first 8 44) by reflexivity.
  split; [exact H|]. split; [exact Hok|]. split; [exact Hbits|].
  exact (receive_command_round_trip 44 vs [] [] [] H Hok Hbits).
Defined.

Section DataFrames.

Import adb_platform adb_protocol.

(** X7.  The data frame of a Listen is read back as the sixteen bits it
    carries: a start cell that arrives and carries a 1, then sixteen cells
    that arrive and carry the bits of the word, most significant first
    (X6 says when a cell arrives and which bit it carries).  The stop bit
    is received and not looked at: whatever its reception returns, also an
    error, the word is the result. *)
Theorem receive_data_round_trip (data : Z) (start : sight) (vs : list sight)
    (ps : list bool) (cs : list Z) (tr : list effect) (stop : Z) (w' : world) :
  0 <= data < 65536 ->
  arrives start -> sight_bit start = true ->
  Forall arrives vs ->
  sight_bit <$> vs = msb_first 16 data ->
  receive_bit (mkWorld ps cs tr) = Some (stop, w') ->
  receive_data
    (mkWorld (sight_pins start ++ flat_map sight_pins vs ++ ps)
             (sight_clock start ++ flat_map sight_clock vs ++ cs) tr)
  = Some (data, w').
Proof.
  intros Hdata Hstart Hone Hok Hbits Hstop. unfold receive_data.
  rewrite (bind_run _ _ _ _ _ (receive_bit_sight start _ _ tr Hstart)).
  rewrite Hone.
  change ((Z.b2z true <? 0) || negb (Z.b2z true =? 1)) with false. cbv iota.
  rewrite (bind_run _ _ _ _ _ (receive_bits_sights data 16 vs 0 ps cs tr Hok Hbits)).
  rewrite Z.lor_0_l, Z.land_ones by lia.
  change (2 ^ Z.of_nat 16) with 65536. rewrite Z.mod_small by lia.
  destruct (Z.ltb_spec data 0); [lia|].
  rewrite (bind_run _ _ _ _ _ Hstop). reflexivity.
Qed.

End DataFrames.

(** The word 0x0600, and a host that sends no stop bit: the line stays
    high until the wait for the stop bit runs out. *)
Lemma receive_data_round_trip_witness :
  let start := polled_cell 300 35 in
  let vs := (fun '(i, low) => polled_cell (400 + 100 * i) low)
              <$> zip (seqZ 0 16)
                    [65; 65; 65; 65; 65; 35; 35; 65; 65; 65; 65; 65; 65; 65; 65; 65] in
  0 <= 1536 < 65536 /\
  arrives start /\ sight_bit start = true /\
  Forall arrives vs /\
  sight_bit <$> vs = msb_first 16 1536 /\
  adb_protocol.receive_bit (mkWorld [true] [2000; 2250] [])
  = Some (-1, mkWorld [] [] []) /\
  adb_protocol.receive_data
    (mkWorld (sight_pins start ++ flat_map sight_pins vs ++ [true])
             (sight_clock start ++ flat_map sight_clock vs ++ [2000; 2250]) [])
  = Some (1536, mkWorld [] [] []).
Proof.
  intros start vs.
  assert (H : 0 <= 1536 < 65536) by lia.
  assert (Hstart : arrives start) by (apply polled_cell_arrives; lia).
  assert (Hone : sight_bit start = true) by reflexivity.
  assert (Hok : Forall arrives vs)
    by (repeat constructor; apply polled_cell_arrives; lia).
  assert (Hbits : sight_bit <$> vs = msb_first 16 1536) by reflexivity.
  assert (Hstop : adb_protocol.receive_bit (mkWorld [true] [2000; 2250] [])
                  = Some (-1, mkWorld [] [] [])) by reflexivity.
  split; [exact H|]. split; [exact Hstart|]. split; [exact Hone|].
  split; [exact Hok|]. split; [exact Hbits|]. split; [exact Hstop|].
  exact (receive_data_round_trip 1536 start vs [true] [2000; 2250] [] (-1)
           (mkWorld [] [] []) H Hstart Hone Hok Hbits Hstop).
Defined.

Section Ranges.

Import adb_platform adb_protocol.

Lemma receive_bit_values w b w' :
  receive_bit w = Some (b, w') -> b = -1 \/ b = 0 \/ b = 1.
Proof.
  unfold receive_bit. intros H.
  apply bind_some in H as (e & w1 & _ & H).
  destruct (e =? 0); [injection H as <- _; lia|].
  apply bind_some in H as (low & w2 & _ & H).
  destruct (low =? 0); [injection H as <- _; lia|].
  apply bind_some in H as (? & w3 & _ & H).
  injection H as <- _. destruct (low <? ADB_BIT_THRESHOLD_US); lia.
Qed.

Lemma receive_bits_range (m : Z) (n : nat) : forall acc w r w',
  Z.of_nat n <= m ->
  0 <= acc < 2 ^ m ->
  receive_bits n acc w = Some (r, w') ->
  r = -1 \/ 0 <= r < 2 ^ m.
Proof.
  induction n as [|n IH]; intros acc w r w' Hn Hacc Hrun; simpl in Hrun.
  - injection Hrun as <- _. right. exact Hacc.
  - apply bind_some in Hrun as (bit & w1 & Hbit & Hrun).
    apply receive_bit_values in Hbit.
    destruct (Z.ltb_spec bit 0); [injection Hrun as <- _; left; reflexivity|].
    apply IH in Hrun; [exact Hrun|lia|].
    apply lor_bounded; [lia|exact Hacc|].
    rewrite Z.shiftl_mul_pow2 by lia.
    assert (Hpow : 0 < 2 ^ Z.of_nat n < 2 ^ m).
    { split; [apply Z.pow_pos_nonneg; lia|apply Z.pow_lt_mono_r; lia]. }
    destruct Hbit as [->|[->| ->]]; lia.
Qed.

(** X8.  What the receivers can return, on any behaviour of the line and
    the timer: [receive_byte] gives -1 or a byte, [receive_data] gives -1
    or a 16-bit word, and a command that [receive_command] marks valid has
    a 4-bit address, a 2-bit command and a 2-bit register; one it does not
    mark valid has all three fields 0. *)
Theorem receiver_ranges (w w' : world) :
  (forall r, receive_byte w = Some (r, w') -> r = -1 \/ 0 <= r < 256) /\
  (forall r, receive_data w = Some (r, w') -> r = -1 \/ 0 <= r < 65536) /\
  (forall cmd, receive_command w = Some (cmd, w') ->
     if valid cmd
     then 0 <= address cmd < 16 /\ 0 <= command cmd < 4 /\ 0 <= reg cmd < 4
     else address cmd = 0 /\ command cmd = 0 /\ reg cmd = 0).
Proof.
  split; [|split].
  - intros r Hrun. unfold receive_byte in Hrun.
    apply (receive_bits_range 8) in Hrun; [exact Hrun|simpl; lia..].
  - intros r Hrun. unfold receive_data in Hrun.
    apply bind_some in Hrun as (start & w1 & _ & Hrun).
    destruct ((start <? 0) || negb (start =? 1));
      [injection Hrun as <- _; left; reflexivity|].
    apply bind_some in Hrun as (result & w2 & Hbits & Hrun).
    apply (receive_bits_range 16) in Hbits; [|simpl; lia..].
    destruct (result <? 0); [injection Hrun as <- _; left; reflexivity|].
    apply bind_some in Hrun as (? & w3 & _ & Hrun).
    injection Hrun as <- _. exact Hbits.
  - intros cmd Hrun. unfold receive_command in Hrun.
    apply bind_some in Hrun as (byte & w1 & _ & Hrun).
    destruct (byte <? 0); injection Hrun as <- _; simpl; [done|].
    change 15 with (Z.ones 4). change 3 with (Z.ones 2).
    rewrite !Z.land_ones by lia.
    change (2 ^ 4) with 16. change (2 ^ 2) with 4.
    repeat split; Z.div_mod_to_equations; lia.
Qed.

End Ranges.

Lemma receiver_ranges_witness :
  exists r w',
    adb_protocol.receive_byte
      (mkWorld (cells 8 44 870).1 (cells 8 44 870).2 []) = Some (r, w') /\
    (r = -1 \/ 0 <= r < 256).
Proof.
  exists 44, (mkWorld [] [] []).
  assert (Hrun : adb_protocol.receive_byte
                   (mkWorld (cells 8 44 870).1 (cells 8 44 870).2 [])
                 = Some (44, mkWorld [] [] [])) by reflexivity.
  split; [exact Hrun|].
  destruct (receiver_ranges (mkWorld (cells 8 44 870).1 (cells 8 44 870).2 [])
              (mkWorld [] [] [])) as (H & _).
  exact (H 44 Hrun).
Defined.

(** * Further properties of the keyboard emulator *)

Section KeyboardPolls.

Import adb_keyboard.

Lemma handle_talk_r0_wf s q : wf s -> wf (handle_talk 0 s q).1.2.
Proof.
  intros Hs. unfold handle_talk. simpl (0 =? 0). cbv iota.
  destruct (process_queue_contents q s Hs) as (Hwf & _ & _).
  destruct (process_queue q s) as [s1 q1]. cbn [fst snd] in *.
  destruct (buf_empty s1); [exact Hwf|].
  pose proof (buf_pop_wf s1 Hwf) as Hwf2.
  destruct (buf_pop s1) as [key1 s2]. cbn [fst snd] in *.
  destruct (buf_empty s2); [exact Hwf2|].
  pose proof (buf_pop_wf s2 Hwf2) as Hwf3.
  destruct (buf_pop s2) as [key2 s3]. exact Hwf3.
Qed.

Lemma pair_words_shift c i : pair_words c !! S i = pair_words (drop 2 c) !! i.
Proof. destruct c as [|a [|b rest]]; reflexivity. Qed.

Lemma first_word c :
  match c with
  | [] => None
  | [hi] => Some (Z.lor (Z.shiftl hi 8) 255)
  | hi :: lo :: _ => Some (Z.lor (Z.shiftl hi 8) lo)
  end = pair_words c !! 0%nat.
Proof. destruct c as [|a [|b rest]]; reflexivity. Qed.

Lemma kbd_polls_words n : forall s q,
  wf s ->
  (kbd_polls n s q).1
  = (fun i => pair_words (ring_contents (process_queue q s).1) !! i) <$> seq 0 n.
Proof.
  induction n as [|n IH]; intros s q Hs; [reflexivity|].
  cbn [kbd_polls seq]. rewrite fmap_cons.
  destruct (talk_r0_on_ring s q Hs) as (Hword & Hrest & Hq).
  pose proof (handle_talk_r0_wf s q Hs) as Hwf1.
  destruct (handle_talk 0 s q) as [[r s1] q1]. cbn [fst snd] in *. subst q1.
  specialize (IH s1 [] Hwf1).
  destruct (kbd_polls n s1 []) as [rs s2]. cbn [fst snd] in *.
  rewrite Hword, first_word. f_equal.
  rewrite IH. cbn [process_queue fst]. rewrite Hrest.
  rewrite <- fmap_S_seq, <- list_fmap_compose.
  apply list_fmap_ext. intros k i _. cbn [compose].
  symmetry. apply pair_words_shift.
Qed.

(** X9.  Successive Talk R0 polls hand the key events over in the order
    they were queued, two to a word and none twice: with [c] the bytes the
    ring holds after the first drain, poll number [i] answers with word
    number [i] of [c] paired up, and the polls after the last word get no
    data. *)
Theorem keyboard_polls_fifo (n : nat) (s : adb_keyboard.state) (q : list KbdEvent) :
  adb_keyboard.wf s ->
  let room := Z.to_nat (31 - ring_count s) in
  let c := ring_contents s ++ take room (adb_event <$> q) in
  (kbd_polls n s q).1 = (fun i => pair_words c !! i) <$> seq 0 n.
Proof.
  intros Hs room c. rewrite (kbd_polls_words n s q Hs).
  destruct (process_queue_contents q s Hs) as (_ & _ & ->). reflexivity.
Qed.

Lemma keyboard_polls_fifo_witness :
  adb_keyboard.wf adb_keyboard.power_on /\
  (kbd_polls 3 adb_keyboard.power_on
     [mkKbdEvent 56 false; mkKbdEvent 0 false; mkKbdEvent 0 true]).1
  = [Some 14336; Some 33023; None].
Proof.
  split; [exact kbd_power_on_wf|].
  rewrite (keyboard_polls_fifo 3 adb_keyboard.power_on
             [mkKbdEvent 56 false; mkKbdEvent 0 false; mkKbdEvent 0 true]
             kbd_power_on_wf).
  reflexivity.
Defined.

Lemma first_word_some c : is_Some (pair_words c !! 0%nat) <-> c <> [].
Proof.
  destruct c as [|a [|b rest]]; simpl; split; done.
Qed.

(** X10.  The keyboard asks for service exactly when a poll would be
    answered: [has_data] is true iff Talk R0, with the same queue, returns
    a word. *)
Theorem keyboard_has_data_iff_answer (s : adb_keyboard.state) (q : list KbdEvent) :
  adb_keyboard.wf s ->
  has_data s q = true <-> is_Some (handle_talk 0 s q).1.1.
Proof.
  intros Hs.
  destruct (talk_r0_on_ring s q Hs) as (Hword & _ & _).
  destruct (process_queue_contents q s Hs) as (_ & _ & Hc).
  rewrite Hword, Hc, first_word, first_word_some.
  unfold has_data, event_queue.pending.
  destruct (buf_empty s) eqn:He.
  - apply buf_empty_iff in He; [|done].
    rewrite (ring_contents_nil s He), He.
    change (Z.to_nat (31 - 0)) with 31%nat.
    destruct q as [|evt q]; simpl; split; done.
  - apply buf_empty_false in He; [|done].
    pose proof (ring_contents_length s) as Hlen.
    destruct (ring_contents s) as [|a rest]; [simpl in Hlen; lia|].
    simpl. split; done.
Qed.

Lemma keyboard_has_data_iff_answer_witness :
  adb_keyboard.wf adb_keyboard.power_on /\
  has_data adb_keyboard.power_on [mkKbdEvent 0 false] = true /\
  is_Some (handle_talk 0 adb_keyboard.power_on [mkKbdEvent 0 false]).1.1.
Proof.
  split; [exact kbd_power_on_wf|]. split; [reflexivity|].
  apply (keyboard_has_data_iff_answer adb_keyboard.power_on [mkKbdEvent 0 false]
           kbd_power_on_wf).
  reflexivity.
Defined.

End KeyboardPolls.

Section Registers.

Lemma lor_96_nibble x : 0 <= x < 16 -> Z.lor 96 x = 96 + x.
Proof.
  intros Hx.
  assert (H : x = 0 \/ x = 1 \/ x = 2 \/ x = 3 \/ x = 4 \/ x = 5 \/ x = 6 \/ x = 7 \/
              x = 8 \/ x = 9 \/ x = 10 \/ x = 11 \/ x = 12 \/ x = 13 \/ x = 14 \/
              x = 15) by lia.
  repeat (destruct H as [->|H]; [reflexivity|]). subst x. reflexivity.
Qed.

(** The word of Talk R3: 0x60 and the address nibble in the high byte, the
    handler id in the low byte. *)
Lemma talk_r3_word a h :
  is_u8 h ->
  u16 (Z.lor (Z.shiftl (u8 (Z.lor 96 (Z.land a 15))) 8) h)
  = 24576 + 256 * (a mod 16) + h.
Proof.
  unfold is_u8. intros Hh.
  assert (Ha : 0 <= a mod 16 < 16) by (Z.div_mod_to_equations; lia).
  rewrite land_low4, lor_96_nibble, u8_small, lor_bytes, u16_small by lia.
  lia.
Qed.

Lemma listen_fields data :
  is_u16 data ->
  u8 (Z.shiftr data 8) = data / 256 /\ u8 (Z.land data 255) = data mod 256.
Proof.
  unfold is_u16. intros Hd. split.
  - rewrite Z.shiftr_div_pow2 by lia. change (2 ^ 8) with 256.
    apply u8_small. Z.div_mod_to_equations. lia.
  - change 255 with (Z.ones 8). rewrite Z.land_ones by lia.
    change (2 ^ 8) with 256. apply u8_small. Z.div_mod_to_equations. lia.
Qed.

(** X11.  Listen R3 followed by Talk R3, on either device.  The high byte
    of the payload proposes an address and the low byte a handler id; 0
    and 0xFE in either byte mean no change; the address keeps the low
    nibble only.  Talk R3 then returns 0x60 with that address in the high
    byte and that handler id in the low byte. *)
Theorem listen_talk_r3 (data : Z) (k : adb_keyboard.state) (m : adb_mouse.state)
    (kq : list KbdEvent) (mq : list MouseEvent) :
  is_u16 data -> adb_keyboard.wf k -> adb_mouse.wf m ->
  let hi := data / 256 in
  let lo := data mod 256 in
  let keep (b : Z) := (b =? 0) || (b =? 254) in
  let k' := adb_keyboard.handle_listen 3 data k in
  let m' := adb_mouse.handle_listen 3 data m in
  let ka := if keep hi then adb_keyboard.s_address k else hi mod 16 in
  let kh := if keep lo then adb_keyboard.s_handler k else lo in
  let ma := if keep hi then adb_mouse.s_address m else hi mod 16 in
  let mh := if keep lo then adb_mouse.s_handler m else lo in
  adb_keyboard.s_address k' = ka /\ adb_keyboard.s_handler k' = kh /\
  (adb_keyboard.handle_talk 3 k' kq).1.1 = Some (24576 + 256 * (ka mod 16) + kh) /\
  adb_mouse.s_address m' = ma /\ adb_mouse.s_handler m' = mh /\
  (adb_mouse.handle_talk 3 m' mq).1.1 = Some (24576 + 256 * (ma mod 16) + mh).
Proof.
  intros Hd Hk Hm hi lo keep k' m' ka kh ma mh.
  destruct (listen_fields data Hd) as [Hhi Hlo].
  assert (Hlo_byte : is_u8 lo) by (unfold is_u8, lo; Z.div_mod_to_equations; lia).
  assert (Hk' : adb_keyboard.s_address k' = ka /\ adb_keyboard.s_handler k' = kh).
  { subst k' ka kh keep. unfold adb_keyboard.handle_listen.
    change (3 =? 2) with false. change (3 =? 3) with true. cbv iota zeta.
    rewrite Hhi, Hlo, land_low4. fold hi lo.
    destruct (hi =? 0), (hi =? 254), (lo =? 0), (lo =? 254); simpl; done. }
  assert (Hm' : adb_mouse.s_address m' = ma /\ adb_mouse.s_handler m' = mh).
  { subst m' ma mh keep. unfold adb_mouse.handle_listen.
    change (3 =? 3) with true. cbv iota zeta.
    rewrite Hhi, Hlo, land_low4. fold hi lo.
    destruct (hi =? 0), (hi =? 254), (lo =? 0), (lo =? 254); simpl; done. }
  destruct Hk' as [Hka Hkh]. destruct Hm' as [Hma Hmh].
  assert (Hkh_byte : is_u8 kh).
  { subst kh. destruct (keep lo); [apply Hk|exact Hlo_byte]. }
  assert (Hmh_byte : is_u8 mh).
  { subst mh. destruct (keep lo); [apply Hm|exact Hlo_byte]. }
  repeat split; try assumption.
  - unfold adb_keyboard.handle_talk.
    change (3 =? 0) with false. change (3 =? 2) with false.
    change (3 =? 3) with true. cbv iota zeta. cbn [fst].
    rewrite Hka, Hkh, talk_r3_word by assumption. reflexivity.
  - unfold adb_mouse.handle_talk.
    change (3 =? 0) with false. change (3 =? 3) with true. cbv iota zeta.
    cbn [fst]. rewrite Hma, Hmh, talk_r3_word by assumption. reflexivity.
Qed.

(** The enumeration of the specification: the host moves both devices to
    address 6 and leaves the handler. *)
Lemma listen_talk_r3_witness :
  is_u16 1536 /\ adb_keyboard.wf adb_keyboard.power_on /\
  adb_mouse.wf adb_mouse.power_on /\
  (adb_keyboard.handle_talk 3
     (adb_keyboard.handle_listen 3 1536 adb_keyboard.power_on) []).1.1
  = Some 26114.
Proof.
  assert (Hd : is_u16 1536) by (unfold is_u16; lia).
  split; [exact Hd|]. split; [exact kbd_power_on_wf|].
  split; [exact mouse_power_on_wf|].
  destruct (listen_talk_r3 1536 adb_keyboard.power_on adb_mouse.power_on [] []
              Hd kbd_power_on_wf mouse_power_on_wf) as (_ & _ & H & _).
  rewrite H. reflexivity.
Defined.

Lemma kbd_flush_wf s : adb_keyboard.wf s -> adb_keyboard.wf (adb_keyboard.handle_flush s).
Proof. intros [Ha Hh Hl Hb Hhd Htl Hr]. split; simpl; try done; lia. Qed.

(** X12.  Flush on the keyboard empties the ring and nothing else: address,
    handler id and register 2 stay, and the queue is not drained, so
    events queued at the time of the Flush are what the next Talk R0
    delivers. *)
Theorem keyboard_flush_spares_queue (s : adb_keyboard.state) (q : list KbdEvent) :
  adb_keyboard.wf s ->
  let s' := adb_keyboard.handle_flush s in
  adb_keyboard.ring_contents s' = [] /\
  adb_keyboard.s_address s' = adb_keyboard.s_address s /\
  adb_keyboard.s_handler s' = adb_keyboard.s_handler s /\
  adb_keyboard.s_register2 s' = adb_keyboard.s_register2 s /\
  adb_keyboard.has_data s' q = event_queue.pending q /\
  (forall n, (kbd_polls n s' q).1
             = (fun i => pair_words (take 31 (adb_keyboard.adb_event <$> q)) !! i)
                 <$> seq 0 n).
Proof.
  intros Hs s'. pose proof (kbd_flush_wf s Hs) as Hwf.
  repeat split.
  intros n. rewrite (kbd_polls_words n s' q Hwf).
  destruct (process_queue_contents q s' Hwf) as (_ & _ & ->). reflexivity.
Qed.

Lemma keyboard_flush_spares_queue_witness :
  let s := (adb_keyboard.process_queue [mkKbdEvent 1 false; mkKbdEvent 1 true]
              adb_keyboard.power_on).1 in
  adb_keyboard.wf s /\
  adb_keyboard.ring_contents s = [1; 129] /\
  (kbd_polls 2 (adb_keyboard.handle_flush s) [mkKbdEvent 7 false]).1
  = [Some 2047; None].
Proof.
  intros s.
  assert (Hs : adb_keyboard.wf s).
  { apply process_queue_contents, kbd_power_on_wf. }
  split; [exact Hs|]. split; [reflexivity|].
  destruct (keyboard_flush_spares_queue s [mkKbdEvent 7 false] Hs)
    as (_ & _ & _ & _ & _ & H).
  rewrite H. reflexivity.
Defined.

End Registers.

(** * Further properties of the mouse emulator *)

Section MousePolls.

Import adb_mouse.

(** Talk R0 with the truncations removed. *)
Lemma mouse_talk_r0_step s q :
  wf s ->
  let s1 := (process_queue q s).1 in
  let dx7 := clamp7 (s_accum_dx s1) in
  let dy7 := clamp7 (s_accum_dy s1) in
  handle_talk 0 s q
  = if adb_mouse_idle s1 then (None, s1, [])
    else (Some (Z.lor (Z.shiftl (Z.lor (if s_button_pressed s1 then 0 else 128)
                                       (Z.land dy7 127)) 8)
                      (Z.lor 128 (Z.land dx7 127))),
          mk (s_address s1) (s_handler s1)
             (s_accum_dx s1 - dx7) (s_accum_dy s1 - dy7)
             (s_button_pressed s1) false (s_events_from_queue s1),
          []).
Proof.
  intros Hs s1 dx7 dy7.
  pose proof (process_queue_wf q s Hs) as [_ _ Hx Hy].
  pose proof (process_queue_drains q s) as Hq.
  unfold handle_talk. simpl (0 =? 0). cbv iota. subst s1 dx7 dy7.
  unfold adb_mouse_idle.
  destruct (process_queue q s) as [s1 q1]. cbn [fst snd] in *. subst q1.
  case_match; [reflexivity|].
  rewrite !residual_fits by assumption.
  rewrite !report_byte_fits
    by (lia || (destruct (s_button_pressed s1); lia)).
  rewrite report_word_fits; [reflexivity|..].
  - rewrite <- (report_byte_fits _ (clamp7 (s_accum_dy s1)))
      by (destruct (s_button_pressed s1); lia).
    apply u8_range.
  - rewrite <- (report_byte_fits 128 (clamp7 (s_accum_dx s1))) by lia.
    apply u8_range.
Qed.

Lemma mouse_poll_once s :
  wf s ->
  let s' := (handle_talk 0 s []).1.2 in
  wf s' /\
  s_accum_dx s' = s_accum_dx s - clamp7 (s_accum_dx s) /\
  s_accum_dy s' = s_accum_dy s - clamp7 (s_accum_dy s) /\
  s_button_changed s' = false /\
  s_button_pressed s' = s_button_pressed s.
Proof.
  intros Hs s'. subst s'. rewrite (mouse_talk_r0_step s [] Hs).
  cbn [process_queue fst]. destruct Hs as [Ha Hh Hx Hy].
  pose proof (clamp7_max_min _ Hx). pose proof (clamp7_max_min _ Hy).
  destruct (adb_mouse_idle s) eqn:Hidle; cbn [fst snd].
  - unfold adb_mouse_idle in Hidle.
    apply andb_prop in Hidle as [Hxy Hc]. apply andb_prop in Hxy as [Hx0 Hy0].
    apply Z.eqb_eq in Hx0, Hy0. apply negb_true_iff in Hc.
    rewrite Hx0, Hy0. repeat split; try done; unfold is_u8, is_i16 in *; lia.
  - repeat split; simpl; try done; unfold is_u8, is_i16 in *; lia.
Qed.

Lemma clamp7_cases a :
  is_i16 a ->
  a - clamp7 a = if 0 <=? a then Z.max 0 (a - 63) else Z.min 0 (a + 64).
Proof.
  intros Ha. rewrite clamp7_max_min by done.
  destruct (Z.leb_spec 0 a); lia.
Qed.

(** X13.  With no new motion, each Talk R0 takes up to 63 off a positive
    accumulator and up to 64 off a negative one, and nothing is lost or
    overshot: after [n] polls an accumulator that held [a] holds
    max(0, a - 63 n) if [a] was positive and min(0, a + 64 n) if it was
    negative.  After 521 polls both are 0, whatever they held, and the
    mouse has no data left. *)
Theorem mouse_polls_residual (n : nat) (s : adb_mouse.state) :
  adb_mouse.wf s ->
  let left (a : Z) :=
    if 0 <=? a then Z.max 0 (a - 63 * Z.of_nat n)
    else Z.min 0 (a + 64 * Z.of_nat n) in
  s_accum_dx (mouse_polls n s) = left (s_accum_dx s) /\
  s_accum_dy (mouse_polls n s) = left (s_accum_dy s) /\
  s_button_pressed (mouse_polls n s) = s_button_pressed s /\
  ((521 <= n)%nat -> has_data (mouse_polls n s) [] = false).
Proof.
  intros Hs left.
  assert (H : s_accum_dx (mouse_polls n s) = left (s_accum_dx s) /\
              s_accum_dy (mouse_polls n s) = left (s_accum_dy s) /\
              s_button_pressed (mouse_polls n s) = s_button_pressed s /\
              ((0 < n)%nat -> s_button_changed (mouse_polls n s) = false)).
  { subst left. revert s Hs. induction n as [|n IH]; intros s Hs.
    - cbn [mouse_polls]. repeat split; try lia.
      + destruct (Z.leb_spec 0 (s_accum_dx s)); lia.
      + destruct (Z.leb_spec 0 (s_accum_dy s)); lia.
    - cbn [mouse_polls].
      destruct (mouse_poll_once s Hs) as (Hwf & Hx & Hy & Hc & Hp).
      destruct (IH _ Hwf) as (IHx & IHy & IHp & IHc).
      rewrite IHx, IHy, IHp, Hx, Hy, Hp.
      rewrite !clamp7_cases by apply Hs.
      repeat split.
      + destruct (Z.leb_spec 0 (s_accum_dx s));
          repeat (match goal with |- context [0 <=? ?e] =>
                    destruct (Z.leb_spec 0 e) end); lia.
      + destruct (Z.leb_spec 0 (s_accum_dy s));
          repeat (match goal with |- context [0 <=? ?e] =>
                    destruct (Z.leb_spec 0 e) end); lia.
      + intros _. destruct n as [|n']; [exact Hc|apply IHc; lia]. }
  destruct H as (Hx & Hy & Hp & Hc).
  split; [exact Hx|]. split; [exact Hy|]. split; [exact Hp|].
  intros Hn. unfold has_data. rewrite Hx, Hy, Hc by lia.
  destruct Hs as [_ _ Hdx Hdy]. unfold is_i16 in *. subst left. cbv beta.
  destruct (Z.leb_spec 0 (s_accum_dx s)), (Z.leb_spec 0 (s_accum_dy s));
    repeat (rewrite Z.max_l by lia); repeat (rewrite Z.min_l by lia);
    reflexivity.
Qed.

Lemma mouse_polls_residual_witness :
  let s := adb_mouse.mk 3 2 200 (-200) false true 1 in
  adb_mouse.wf s /\
  s_accum_dx (mouse_polls 3 s) = 11 /\
  s_accum_dy (mouse_polls 3 s) = -8 /\
  ((521 <= 521)%nat /\ has_data (mouse_polls 521 s) [] = false).
Proof.
  intros s.
  assert (Hs : adb_mouse.wf s) by (split; cbv; (split; [discriminate|reflexivity])).
  split; [exact Hs|].
  destruct (mouse_polls_residual 3 s Hs) as (Hx & Hy & _).
  split; [rewrite Hx; reflexivity|]. split; [rewrite Hy; reflexivity|].
  destruct (mouse_polls_residual 521 s Hs) as (_ & _ & _ & H).
  assert (Hn : (521 <= 521)%nat) by lia.
  split; [exact Hn|exact (H Hn)].
Defined.

End MousePolls.

Section MouseWord.

Import adb_mouse.

Lemma lor_shiftl_low a b (k : Z) :
  0 <= k -> 0 <= b < 2 ^ k -> Z.lor (Z.shiftl a k) b = a * 2 ^ k + b.
Proof.
  intros Hk Hb.
  rewrite <- Z.lxor_lor, <- Z.add_nocarry_lxor, Z.shiftl_mul_pow2; try reflexivity;
    try lia.
  all: apply Z.bits_inj'; intros n Hn; rewrite Z.land_spec, Z.bits_0.
  all: destruct (Z.lt_ge_cases n k) as [Hlt|Hge].
  all: try (rewrite Z.shiftl_spec_low by lia; reflexivity).
  all: rewrite (proj1 (Z.bounded_iff_bits_nonneg' k b Hk (proj1 Hb)) Hb n Hge).
  all: apply andb_false_r.
Qed.

Lemma low7_signed v : -64 <= v <= 63 -> (Z.land v 127 + 64) mod 128 - 64 = v.
Proof. intros Hv. rewrite land_low7. Z.div_mod_to_equations. lia. Qed.

(** The Talk R0 word as a number. *)
Lemma mouse_word_value (pressed : bool) dx7 dy7 :
  Z.lor (Z.shiftl (Z.lor (if pressed then 0 else 128) (Z.land dy7 127)) 8)
        (Z.lor 128 (Z.land dx7 127))
  = ((if pressed then 0 else 128) + dy7 mod 128) * 256 + 128 + dx7 mod 128.
Proof.
  assert (Hx : 0 <= dx7 mod 128 < 128) by (Z.div_mod_to_equations; lia).
  assert (Hy : 0 <= dy7 mod 128 < 128) by (Z.div_mod_to_equations; lia).
  rewrite !land_low7.
  assert (H128 : forall y, 0 <= y < 128 -> Z.lor 128 y = 128 + y).
  { intros y Hy'. change 128 with (Z.shiftl 1 7) at 1.
    rewrite lor_shiftl_low by (simpl; lia). reflexivity. }
  rewrite (H128 (dx7 mod 128)) by lia.
  replace (Z.lor (if pressed then 0 else 128) (dy7 mod 128))
    with ((if pressed then 0 else 128) + dy7 mod 128)
    by (destruct pressed; [rewrite Z.lor_0_l|rewrite H128 by lia]; reflexivity).
  rewrite (lor_shiftl_low _ _ 8) by (simpl; lia).
  change (2 ^ 8) with 256. destruct pressed; lia.
Qed.

(** X14.  The word of a mouse Talk R0 decodes back to what was reported:
    its bits 6:0, read as a 7-bit two's complement number, are the X delta
    taken off the accumulator, its bits 14:8 the Y delta, bit 15 is 1 iff
    the button is up, and bit 7 is always 1. *)
Theorem mouse_word_decodes (s : adb_mouse.state) (q : list MouseEvent) (word : Z) :
  adb_mouse.wf s ->
  (handle_talk 0 s q).1.1 = Some word ->
  let s1 := (process_queue q s).1 in
  let s2 := (handle_talk 0 s q).1.2 in
  0 <= word < 65536 /\
  (Z.land word 127 + 64) mod 128 - 64 = s_accum_dx s1 - s_accum_dx s2 /\
  (Z.land (Z.shiftr word 8) 127 + 64) mod 128 - 64
  = s_accum_dy s1 - s_accum_dy s2 /\
  word / 32768 = (if s_button_pressed s1 then 0 else 1) /\
  (word / 128) mod 2 = 1.
Proof.
  intros Hs Hword s1 s2. subst s2.
  rewrite (mouse_talk_r0_step s q Hs) in Hword |- *. fold s1 in Hword |- *.
  pose proof (process_queue_wf q s Hs) as [_ _ Hx Hy]. fold s1 in Hx, Hy.
  pose proof (clamp7_range _ Hx) as Hcx. pose proof (clamp7_range _ Hy) as Hcy.
  destruct (adb_mouse_idle s1); [discriminate|].
  cbn [fst snd s_accum_dx s_accum_dy] in *.
  injection Hword as <-. rewrite mouse_word_value.
  set (dx7 := clamp7 (s_accum_dx s1)) in *.
  set (dy7 := clamp7 (s_accum_dy s1)) in *.
  set (up := if s_button_pressed s1 then 0 else 128).
  assert (Hup : up = 0 \/ up = 128)
    by (subst up; destruct (s_button_pressed s1); lia).
  assert (Hmx : 0 <= dx7 mod 128 < 128) by (Z.div_mod_to_equations; lia).
  assert (Hmy : 0 <= dy7 mod 128 < 128) by (Z.div_mod_to_equations; lia).
  rewrite Z.shiftr_div_pow2, !land_low7 by lia. change (2 ^ 8) with 256.
  replace (((up + dy7 mod 128) * 256 + 128 + dx7 mod 128) / 256)
    with (up + dy7 mod 128) by (Z.div_mod_to_equations; lia).
  repeat split.
  - lia.
  - lia.
  - Z.div_mod_to_equations. lia.
  - Z.div_mod_to_equations. lia.
  - subst up. destruct (s_button_pressed s1); Z.div_mod_to_equations; lia.
  - Z.div_mod_to_equations. lia.
Qed.

Lemma mouse_word_decodes_witness :
  adb_mouse.wf adb_mouse.power_on /\
  (handle_talk 0 adb_mouse.power_on [mkMouseEvent (-3) 200 true]).1.1 = Some 16381 /\
  (Z.land 16381 127 + 64) mod 128 - 64 = -3 /\
  (Z.land (Z.shiftr 16381 8) 127 + 64) mod 128 - 64 = 63.
Proof.
  assert (Hword : (handle_talk 0 adb_mouse.power_on
                     [mkMouseEvent (-3) 200 true]).1.1 = Some 16381)
    by reflexivity.
  split; [exact mouse_power_on_wf|]. split; [exact Hword|].
  destruct (mouse_word_decodes adb_mouse.power_on [mkMouseEvent (-3) 200 true]
              16381 mouse_power_on_wf Hword) as (_ & Hx & Hy & _).
  split; [rewrite Hx|rewrite Hy]; reflexivity.
Defined.

End MouseWord.

Section MouseDrain.

Import adb_mouse.

Lemma i16_add_l x y : i16 (i16 x + y) = i16 (x + y).
Proof. unfold i16. Z.div_mod_to_equations. lia. Qed.

Lemma u32_add_l x y : u32 (u32 x + y) = u32 (x + y).
Proof. unfold u32. Z.div_mod_to_equations. lia. Qed.

Lemma process_queue_sums q : forall s,
  let s1 := (process_queue q s).1 in
  s_accum_dx s1 = (if q is [] then s_accum_dx s
                   else i16 (s_accum_dx s + foldr (fun e acc => dx e + acc) 0 q)) /\
  s_accum_dy s1 = (if q is [] then s_accum_dy s
                   else i16 (s_accum_dy s + foldr (fun e acc => dy e + acc) 0 q)) /\
  s_button_pressed s1 = default (s_button_pressed s) (list.last (button <$> q)) /\
  s_button_changed s1
  = s_button_changed s
    || existsb (fun b => negb (eqb b (s_button_pressed s))) (button <$> q).
Proof.
  induction q as [|evt q IH]; intros s; cbn [process_queue fst].
  - simpl. rewrite orb_false_r. done.
  - destruct (IH (absorb evt s)) as (Hx & Hy & Hp & Hc).
    cbv zeta in *. rewrite Hx, Hy, Hp, Hc. clear Hx Hy Hp Hc IH.
    cbn [absorb s_accum_dx s_accum_dy s_button_pressed s_button_changed
         fmap list_fmap foldr existsb].
    repeat split.
    + destruct q; [f_equal; simpl; lia|].
      rewrite i16_add_l. f_equal. cbn [foldr]. lia.
    + destruct q; [f_equal; simpl; lia|].
      rewrite i16_add_l. f_equal. cbn [foldr]. lia.
    + destruct q as [|e2 q].
      * simpl. destruct (button evt), (s_button_pressed s); reflexivity.
      * rewrite !fmap_cons, last_cons_cons.
        destruct (proj2 (last_is_Some (button e2 :: (button <$> q)))) as [b Hb];
          [done|].
        rewrite Hb. reflexivity.
    + destruct (eqb (button evt) (s_button_pressed s)) eqn:He; cbn [negb orb].
      * reflexivity.
      * rewrite orb_true_r. reflexivity.
Qed.

(** X15.  What the drain of the mouse queue leaves: each accumulator has
    grown by the sum of the queued deltas, wrapped once to 16 bits; the
    button state is that of the last event; and the edge flag is set iff
    it was set or some queued event differs from the button state the
    drain started with, so a click that goes down and up between two
    polls is flagged although the state ends where it began. *)
Theorem mouse_drain_sums (s : adb_mouse.state) (q : list MouseEvent) :
  adb_mouse.wf s ->
  let s1 := (process_queue q s).1 in
  s_accum_dx s1 = i16 (s_accum_dx s + foldr (fun e acc => dx e + acc) 0 q) /\
  s_accum_dy s1 = i16 (s_accum_dy s + foldr (fun e acc => dy e + acc) 0 q) /\
  s_button_pressed s1 = default (s_button_pressed s) (list.last (button <$> q)) /\
  s_button_changed s1
  = s_button_changed s
    || existsb (fun b => negb (eqb b (s_button_pressed s))) (button <$> q) /\
  (process_queue q s).2 = [].
Proof.
  intros [_ _ Hx Hy] s1.
  destruct (process_queue_sums q s) as (Ex & Ey & Ep & Ec). fold s1 in Ex, Ey, Ep, Ec.
  split; [|split; [|split; [exact Ep|split; [exact Ec|apply process_queue_drains]]]].
  - rewrite Ex. destruct q; [|reflexivity].
    simpl. rewrite Z.add_0_r, i16_small; done.
  - rewrite Ey. destruct q; [|reflexivity].
    simpl. rewrite Z.add_0_r, i16_small; done.
Qed.

Lemma mouse_drain_sums_witness :
  let q := [mkMouseEvent 30000 1 true; mkMouseEvent 5000 (-1) false] in
  adb_mouse.wf adb_mouse.power_on /\
  s_accum_dx (process_queue q adb_mouse.power_on).1 = -30536 /\
  s_button_pressed (process_queue q adb_mouse.power_on).1 = false /\
  s_button_changed (process_queue q adb_mouse.power_on).1 = true.
Proof.
  intros q.
  split; [exact mouse_power_on_wf|].
  destruct (mouse_drain_sums adb_mouse.power_on q mouse_power_on_wf)
    as (Hx & _ & Hp & Hc & _).
  split; [rewrite Hx; reflexivity|].
  split; [rewrite Hp; reflexivity|rewrite Hc; reflexivity].
Defined.

(** X16.  SRQ and the answer of the mouse.  A Talk R0 that returns a word
    was announced: [has_data] was true for the same state and queue.  With
    nothing queued the two coincide.  (Queued events whose deltas cancel
    make [has_data] true and the answer empty.) *)
Theorem mouse_answer_implies_has_data (s : adb_mouse.state) (q : list MouseEvent) :
  (is_Some (handle_talk 0 s q).1.1 -> has_data s q = true) /\
  (has_data s [] = true <-> is_Some (handle_talk 0 s []).1.1).
Proof.
  assert (Hempty : has_data s [] = true <-> is_Some (handle_talk 0 s []).1.1).
  { unfold has_data, handle_talk, event_queue.pending.
    simpl (0 =? 0). cbn [process_queue length Nat.ltb Nat.leb].
    rewrite orb_false_r.
    destruct (s_accum_dx s =? 0), (s_accum_dy s =? 0), (s_button_changed s);
      simpl; split; try done; intros _; eexists; reflexivity. }
  split; [|exact Hempty].
  destruct q as [|evt q]; [apply Hempty|].
  intros _. unfold has_data, event_queue.pending. simpl. apply orb_true_r.
Qed.

Lemma mouse_answer_implies_has_data_witness :
  let q := [mkMouseEvent 5 0 false; mkMouseEvent (-5) 0 false] in
  is_Some (handle_talk 0 adb_mouse.power_on [mkMouseEvent 5 0 false]).1.1 /\
  has_data adb_mouse.power_on [mkMouseEvent 5 0 false] = true /\
  has_data adb_mouse.power_on q = true /\
  (handle_talk 0 adb_mouse.power_on q).1.1 = None.
Proof.
  intros q.
  assert (Hans : is_Some (handle_talk 0 adb_mouse.power_on
                            [mkMouseEvent 5 0 false]).1.1)
    by (eexists; reflexivity).
  split; [exact Hans|].
  split; [|split; reflexivity].
  exact (proj1 (mouse_answer_implies_has_data adb_mouse.power_on
                  [mkMouseEvent 5 0 false]) Hans).
Defined.

End MouseDrain.

(** * Further properties of the BLE ingest *)

Section MouseReport.

Import ble_hid_link.

Lemma le16_round_trip v :
  is_i16 v -> i16 (Z.lor (v mod 256) (Z.shiftl (v / 256 mod 256) 8)) = v.
Proof.
  unfold is_i16. intros Hv.
  rewrite Z.lor_comm, lor_bytes by (Z.div_mod_to_equations; lia).
  unfold i16. Z.div_mod_to_equations. lia.
Qed.

Lemma i8_round_trip v : -128 <= v < 128 -> i8 (v mod 256) = v.
Proof. intros Hv. unfold i8. Z.div_mod_to_equations. lia. Qed.

Lemma low_bit_odd x : negb (Z.land x 1 =? 0) = Z.odd x.
Proof.
  change 1 with (2 ^ 0). rewrite land_pow2_eqb, negb_involutive by lia.
  apply Z.bit0_odd.
Qed.

(** X17.  What [on_mouse_report] makes of a report.  Fewer than three
    bytes: no event, and the slot keeps its button state.  Five bytes or
    more: the deltas are the two little-endian 16-bit numbers after the
    button byte, so a report that carries [dx] and [dy] in two's complement
    gives them back.  Three or four bytes: the deltas are the two signed
    bytes after the button byte.  The button is bit 0 of the first byte. *)
Theorem mouse_report_parse (flags dx dy : Z) (rest : list Z) (prev : bool)
    (count : Z) :
  is_i16 dx -> is_i16 dy ->
  (forall data, (length data < 3)%nat ->
     on_mouse_report data prev count = (prev, u32 (count + 1), None)) /\
  on_mouse_report
    ([flags; dx mod 256; dx / 256 mod 256; dy mod 256; dy / 256 mod 256] ++ rest)
    prev count
  = (Z.odd flags, u32 (count + 1), Some (mkMouseEvent dx dy (Z.odd flags))) /\
  (-128 <= dx < 128 -> -128 <= dy < 128 -> (length rest <= 1)%nat ->
   on_mouse_report ([flags; dx mod 256; dy mod 256] ++ rest) prev count
   = (Z.odd flags, u32 (count + 1), Some (mkMouseEvent dx dy (Z.odd flags)))).
Proof.
  intros Hdx Hdy. split; [|split].
  - intros data Hlen. unfold on_mouse_report.
    rewrite (proj2 (Nat.ltb_lt (length data) 3) Hlen). reflexivity.
  - unfold on_mouse_report. cbn [app length Nat.ltb Nat.leb].
    cbv zeta. cbn [button lookup_total list_lookup_total].
    rewrite !le16_round_trip, low_bit_odd by assumption. reflexivity.
  - intros Hx Hy Hrest. unfold on_mouse_report.
    destruct rest as [|r0 [|r1 rest]]; [| |simpl in Hrest; lia];
      cbn [app length Nat.ltb Nat.leb]; cbv zeta; cbn [button];
      cbn [lookup_total list_lookup_total];
      rewrite !i8_round_trip, low_bit_odd by assumption; reflexivity.
Qed.

Lemma mouse_report_parse_witness :
  is_i16 (-300) /\ is_i16 7 /\
  on_mouse_report [1; 212; 254; 7; 0; 0; 0] false 0
  = (true, 1, Some (mkMouseEvent (-300) 7 true)).
Proof.
  assert (Hx : is_i16 (-300)) by (unfold is_i16; lia).
  assert (Hy : is_i16 7) by (unfold is_i16; lia).
  split; [exact Hx|]. split; [exact Hy|].
  destruct (mouse_report_parse 1 (-300) 7 [0; 0] false 0 Hx Hy) as (_ & H & _).
  exact H.
Defined.

End MouseReport.

Section Classification.

Import ble_hid_link.

Lemma usage_hit_at d u i : usage_hit d u i = true <-> usage_at d u i.
Proof.
  unfold usage_hit, usage_at. rewrite !andb_true_iff, !Z.eqb_eq, Nat.ltb_lt.
  split.
  - intros ((((H0 & H1) & Hlen) & H2) & H3).
    rewrite <- H0, <- H1, <- H2, <- H3.
    repeat split; apply list_lookup_lookup_total_lt; lia.
  - intros (H0 & H1 & H2 & H3).
    pose proof (lookup_lt_Some _ _ _ H3).
    repeat split; try lia; apply list_lookup_total_correct; assumption.
Qed.

Lemma scan_step_hit d found i :
  scan_step d found i = (found.1 || usage_hit d 6 i, found.2 || usage_hit d 2 i).
Proof.
  unfold scan_step, usage_hit. destruct found as [k m]. cbn [fst snd].
  destruct (d !!! i =? 5), (d !!! (i + 1)%nat =? 1), (i + 3 <? length d)%nat;
    cbn [andb]; rewrite ?orb_false_r; try reflexivity.
  destruct (d !!! (i + 2)%nat =? 9); cbn [andb]; rewrite ?orb_false_r;
    [|reflexivity].
  cbv zeta.
  destruct (Z.eqb_spec (d !!! (i + 3)%nat) 6) as [H6|H6].
  - rewrite H6. rewrite orb_true_r, orb_false_r. reflexivity.
  - destruct (Z.eqb_spec (d !!! (i + 3)%nat) 2) as [H2|H2];
      rewrite ?orb_true_r, ?orb_false_r; reflexivity.
Qed.

Lemma scan_fold_hit d (js : list nat) : forall found,
  foldl (scan_step d) found js
  = (found.1 || existsb (usage_hit d 6) js, found.2 || existsb (usage_hit d 2) js).
Proof.
  induction js as [|j js IH]; intros found; simpl.
  - rewrite !orb_false_r. destruct found; reflexivity.
  - rewrite IH, scan_step_hit. cbn [fst snd]. rewrite <- !orb_assoc. reflexivity.
Qed.

Lemma scan_report_map_spec d u :
  existsb (usage_hit d u) (seq 0 (length d - 1)) = true <-> exists i, usage_at d u i.
Proof.
  rewrite existsb_exists. split.
  - intros (i & _ & Hi). exists i. apply usage_hit_at, Hi.
  - intros (i & Hi). exists i. split; [|apply usage_hit_at, Hi].
    destruct Hi as (_ & _ & _ & H3). apply lookup_lt_Some in H3.
    apply in_seq. lia.
Qed.

(** X18.  How a device is classified.  A Boot input characteristic settles
    it and the Report Map is not looked at.  Otherwise, with a readable
    Report Map, the device is a mouse iff the map has the bytes 05 01 09 02
    somewhere, and a keyboard iff it has 05 01 09 06 somewhere or has
    neither of the two; with no readable Report Map it is neither. *)
Theorem detect_device_type_spec (boot_kbd boot_mouse : bool)
    (report_map : option (list Z)) :
  let r := detect_device_type boot_kbd boot_mouse report_map in
  (boot_kbd || boot_mouse = true -> r = (boot_kbd, boot_mouse)) /\
  (boot_kbd || boot_mouse = false ->
   match report_map with
   | None => r = (false, false)
   | Some d =>
       (r.2 = true <-> exists i, usage_at d 2 i) /\
       (r.1 = true <-> (exists i, usage_at d 6 i) \/ ~ (exists i, usage_at d 2 i))
   end).
Proof.
  intros r. subst r. unfold detect_device_type. split; intros Hboot; rewrite Hboot.
  - reflexivity.
  - destruct report_map as [d|]; [|reflexivity].
    unfold scan_report_map. rewrite scan_fold_hit. cbn [fst snd orb].
    pose proof (scan_report_map_spec d 6) as H6.
    pose proof (scan_report_map_spec d 2) as H2.
    destruct (existsb (usage_hit d 6) (seq 0 (length d - 1))),
             (existsb (usage_hit d 2) (seq 0 (length d - 1)));
      cbn [negb andb fst snd]; clear Hboot; intuition congruence.
Qed.

Lemma detect_device_type_spec_witness :
  let map := [5; 1; 9; 2; 161; 1; 9; 1] in
  false || false = false /\
  usage_at map 2 0 /\
  detect_device_type false false (Some map) = (false, true).
Proof.
  intros map.
  assert (Hboot : false || false = false) by reflexivity.
  assert (Hat : usage_at map 2 0) by (repeat split).
  split; [exact Hboot|]. split; [exact Hat|].
  destruct (detect_device_type_spec false false (Some map)) as (_ & H).
  destruct (H Hboot) as (Hm & Hk).
  destruct (detect_device_type false false (Some map)) as [k m] eqn:Hr.
  cbn [fst snd] in Hm, Hk.
  assert (m = true) as -> by (apply Hm; exists 0%nat; exact Hat).
  destruct k; [|reflexivity].
  vm_compute in Hr. discriminate Hr.
Defined.

Lemma is_disconnected_spec d :
  is_disconnected d = true <-> state d = DISCONNECTED.
Proof. unfold is_disconnected. destruct (state d); split; done. Qed.

(** The choice of the slot: as long as one is free, a free one, of the
    device's kind or, for a device of no kind, any. *)
Lemma choose_slot_spec (dev_is_kbd dev_is_mouse need_kbd need_mouse : bool) :
  match choose_slot dev_is_kbd dev_is_mouse need_kbd need_mouse with
  | Some true =>
      need_kbd = true /\
      (dev_is_kbd = true \/ (dev_is_kbd = false /\ dev_is_mouse = false))
  | Some false =>
      (need_kbd = false /\ need_mouse = false) \/
      (need_mouse = true /\
       (dev_is_mouse = true \/ (dev_is_kbd = false /\ dev_is_mouse = false)))
  | None =>
      (dev_is_kbd = true /\ dev_is_mouse = false /\ need_kbd = false) \/
      (dev_is_mouse = true /\ dev_is_kbd = false /\ need_mouse = false)
  end.
Proof.
  destruct dev_is_kbd, dev_is_mouse, need_kbd, need_mouse; simpl; tauto.
Qed.

(** X19.  What [try_connect] does to the two slots, whatever the stack
    answers.  A slot that is not DISCONNECTED is left exactly as it was.
    When the call returns true, the connection, the discovery and the
    subscription succeeded and the link is still up, and exactly one slot
    changed: a slot that was DISCONNECTED is now CONNECTED to the peer,
    with no reconnection attempt counted, typed keyboard if it is the
    keyboard slot and mouse if it is the mouse slot; the keyboard slot
    takes only a device detected as a keyboard or as nothing, the mouse
    slot only one detected as a mouse or as nothing.  When the call
    returns false, each slot is in the state it was in, with the type it
    had. *)
Theorem try_connect_slots (peer : Z) (k : Stack) (kb ms : BleDevice) :
  let r := try_connect peer k kb ms in
  (state kb <> DISCONNECTED -> r.1.2 = kb) /\
  (state ms <> DISCONNECTED -> r.2 = ms) /\
  (r.1.1 = true ->
   connects k = true /\ discovers k = true /\ stays_connected k = true /\
   exists h,
     hid_service k = Some h /\
     let dev := detect_device_type (bool_decide (is_Some (boot_kbd_input h)))
                                   (bool_decide (is_Some (boot_mouse_input h)))
                                   (report_map h) in
     (state kb = DISCONNECTED /\
      r.1.2 = connected_as true peer kb /\ r.2 = ms /\
      subscribe_keyboard h = true /\
      (dev.1 = true \/ dev = (false, false))) \/
     (state ms = DISCONNECTED /\
      r.2 = connected_as false peer ms /\ r.1.2 = kb /\
      subscribe_mouse h = true /\
      (dev.2 = true \/ dev = (false, false)))) /\
  (r.1.1 = false ->
   state r.1.2 = state kb /\ state r.2 = state ms /\
   is_keyboard r.1.2 = is_keyboard kb /\ is_mouse r.1.2 = is_mouse kb /\
   is_keyboard r.2 = is_keyboard ms /\ is_mouse r.2 = is_mouse ms).
Proof.
  intros r. subst r. unfold try_connect.
  pose proof (is_disconnected_spec kb) as Hkb.
  pose proof (is_disconnected_spec ms) as Hms.
  destruct (negb (is_disconnected kb) && negb (is_disconnected ms)) eqn:Hnone.
  { cbn [fst snd]. repeat split; done. }
  destruct (connects k); cbn [negb]; [|cbn [fst snd]; repeat split; done].
  destruct (discovers k); cbn [negb]; [|cbn [fst snd]; repeat split; done].
  destruct (hid_service k) as [h|]; [|cbn [fst snd]; repeat split; done].
  cbv zeta.
  set (dev := detect_device_type (bool_decide (is_Some (boot_kbd_input h)))
                (bool_decide (is_Some (boot_mouse_input h))) (report_map h)).
  pose proof (choose_slot_spec dev.1 dev.2 (is_disconnected kb)
                (is_disconnected ms)) as Hslot.
  assert (Hpair : forall b1 b2 : bool, dev.1 = b1 -> dev.2 = b2 -> dev = (b1, b2))
    by (intros b1 b2 <- <-; destruct dev; reflexivity).
  destruct (choose_slot dev.1 dev.2 (is_disconnected kb) (is_disconnected ms))
    as [[|]|]; [| |cbn [fst snd]; repeat split; done].
  - destruct Hslot as [Hneed Hkind]. apply Hkb in Hneed.
    assert (Hother : state ms <> DISCONNECTED -> ms = ms) by done.
    destruct (subscribe_keyboard h) eqn:Hsub, (stays_connected k) eqn:Hup;
      cbn [negb fst snd];
      (split; [intros Hn; done|]); (split; [done|]).
    + split; [|discriminate]. intros _.
      do 3 (split; [reflexivity|]). exists h. split; [reflexivity|].
      left. do 4 (split; [done|]).
      destruct Hkind as [Hk1|[Hk1 Hk2]]; [left; exact Hk1|right; auto].
    + split; [discriminate|]. intros _. cbn [given_up state is_keyboard is_mouse].
      repeat split; done.
    + split; [discriminate|]. intros _. cbn [given_up state is_keyboard is_mouse].
      repeat split; done.
    + split; [discriminate|]. intros _. cbn [given_up state is_keyboard is_mouse].
      repeat split; done.
  - destruct Hslot as [[Hk0 Hm0]|[Hneed Hkind]].
    { rewrite Hk0, Hm0 in Hnone. discriminate. }
    apply Hms in Hneed.
    destruct (subscribe_mouse h) eqn:Hsub, (stays_connected k) eqn:Hup;
      cbn [negb fst snd];
      (split; [done|]); (split; [intros Hn; done|]).
    + split; [|discriminate]. intros _.
      do 3 (split; [reflexivity|]). exists h. split; [reflexivity|].
      right. do 4 (split; [done|]).
      destruct Hkind as [Hk1|[Hk1 Hk2]]; [left; exact Hk1|right; auto].
    + split; [discriminate|]. intros _. cbn [given_up state is_keyboard is_mouse].
      repeat split; done.
    + split; [discriminate|]. intros _. cbn [given_up state is_keyboard is_mouse].
      repeat split; done.
    + split; [discriminate|]. intros _. cbn [given_up state is_keyboard is_mouse].
      repeat split; done.
Qed.

Lemma try_connect_slots_witness :
  let free := mkDevice false DISCONNECTED false false [0; 0; 0; 0; 0; 0] 0 false 0
                       false false 0 0 0 in
  let taken := mkDevice true CONNECTED true false [0; 0; 0; 0; 0; 0] 0 false 9
                        false false 0 0 0 in
  let report := mkChr true true false true in
  let mouse_hid := mkHid None None (Some [5; 1; 9; 2; 161; 1]) None [report] in
  let kbd_hid := mkHid (Some (mkChr false true false true)) None None
                       (Some (true, true)) [] in
  let up h := mkStack true true (Some h) true in
  state taken <> DISCONNECTED /\
  try_connect 77 (up mouse_hid) taken free
  = (true, taken, connected_as false 77 free) /\
  try_connect 77 (up kbd_hid) taken free = (false, taken, free) /\
  try_connect 77 (mkStack true true (Some kbd_hid) false) free free
  = (false, free, free).
Proof.
  intros free taken report mouse_hid kbd_hid up.
  assert (Htaken : state taken <> DISCONNECTED) by discriminate.
  split; [exact Htaken|].
  destruct (try_connect_slots 77 (up mouse_hid) taken free) as (Hkeep & _).
  specialize (Hkeep Htaken).
  split; [|split; reflexivity].
  destruct (try_connect 77 (up mouse_hid) taken free) as [[ok kb'] ms'] eqn:Hr.
  cbn [fst snd] in Hkeep. subst kb'.
  vm_compute in Hr. injection Hr as <- <-. reflexivity.
Defined.

End Classification.

(** * Further properties of the keyboard report callback *)

Section KeyboardReports.

Import ble_hid_host.

Variable usb_to_adb : Z -> Z.

Lemma omap_none {A B} (f : A -> option B) (l : list A) :
  (forall x, x ∈ l -> f x = None) -> omap f l = [].
Proof.
  induction l as [|x l IH]; intros H; [reflexivity|].
  cbn [omap list_omap]. rewrite (H x) by left.
  apply IH. intros y Hy. apply H. right. exact Hy.
Qed.

Lemma omap_Forall {A B} (P : B -> Prop) (f : A -> option B) (l : list A) :
  (forall x y, f x = Some y -> P y) -> Forall P (omap f l).
Proof.
  intros H. induction l as [|x l IH]; [constructor|].
  cbn [omap list_omap]. destruct (f x) as [y|] eqn:E; [|exact IH].
  constructor; [exact (H x y E)|exact IH].
Qed.

Lemma omap_length_le {A B} (f : A -> option B) (l : list A) :
  (length (omap f l) <= length l)%nat.
Proof.
  induction l as [|x l IH]; [reflexivity|].
  cbn [omap list_omap]. destruct (f x); simpl; lia.
Qed.

(** What a report of eight bytes or more does, in one equation. *)
Lemma long_report (data : list Z) (st : kbd_slot) :
  (8 <= length data)%nat ->
  let r := on_keyboard_report usb_to_adb data st in
  r.2 = spec_modifier_events (data !!! 0%nat) (prev_modifiers st)
        ++ spec_key_events usb_to_adb true (prev_keys st) (report_keys data)
        ++ spec_key_events usb_to_adb false (report_keys data) (prev_keys st) /\
  prev_keys r.1 = report_keys data /\
  prev_modifiers r.1
  = (if u8 (Z.lxor (data !!! 0%nat) (prev_modifiers st)) =? 0
     then prev_modifiers st else data !!! 0%nat).
Proof.
  intros Hlen r. subst r. unfold on_keyboard_report.
  rewrite (proj2 (Nat.ltb_ge (length data) 8) Hlen).
  assert (Hbits : Forall (fun b => (b < 8)%nat) (seq 0 8))
    by (apply list.Forall_forall; intros b Hb; apply elem_of_seq in Hb; lia).
  set (modifiers := data !!! 0%nat).
  set (diff := Z.lxor modifiers (prev_modifiers st)).
  rewrite release_loop_spec, press_loop_spec, key_slots_report_keys by done.
  unfold spec_modifier_events. fold diff.
  destruct (Z.eqb_spec (u8 diff) 0) as [Hz|_]; cbn [negb fst snd].
  - rewrite (no_bits_no_events modifiers diff (seq 0 8) Hz Hbits).
    rewrite save_keys_report_keys by done. done.
  - rewrite MODIFIER_MAP_by_bit, (modifier_loop_bits modifiers diff _ Hbits).
    rewrite save_keys_report_keys by done. done.
Qed.

Lemma spec_key_events_self (rel : bool) (l : list Z) :
  spec_key_events usb_to_adb rel l l = [].
Proof.
  unfold spec_key_events. apply omap_none. intros k Hk.
  rewrite bool_decide_eq_false_2; [reflexivity|]. intros (_ & Hn & _). done.
Qed.

Lemma spec_key_events_zeros (rel : bool) (n : nat) (other : list Z) :
  spec_key_events usb_to_adb rel (replicate n 0) other = [].
Proof.
  unfold spec_key_events. apply omap_none. intros k Hk.
  apply elem_of_replicate in Hk as [-> _].
  rewrite bool_decide_eq_false_2; [reflexivity|]. intros (Hn & _). done.
Qed.

Lemma spec_modifier_events_same (m p : Z) :
  u8 (Z.lxor m p) = 0 -> spec_modifier_events m p = [].
Proof.
  intros Hz. unfold spec_modifier_events.
  apply no_bits_no_events; [exact Hz|].
  apply list.Forall_forall. intros b Hb. apply elem_of_seq in Hb. lia.
Qed.

(** X20.  The same report twice: whatever the slot held before, the second
    of two equal reports produces no event and leaves the remembered keys
    and modifiers as the first one set them. *)
Theorem repeated_report_silent (data : list Z) (st : kbd_slot) :
  let r1 := on_keyboard_report usb_to_adb data st in
  let r2 := on_keyboard_report usb_to_adb data r1.1 in
  r2.2 = [] /\
  prev_keys r2.1 = prev_keys r1.1 /\
  prev_modifiers r2.1 = prev_modifiers r1.1.
Proof.
  intros r1 r2. destruct (Nat.le_gt_cases 8 (length data)) as [Hlen|Hlen].
  - destruct (long_report data st Hlen) as (_ & Hk1 & Hm1). fold r1 in Hk1, Hm1.
    destruct (long_report data r1.1 Hlen) as (He2 & Hk2 & Hm2).
    fold r2 in He2, Hk2, Hm2.
    assert (Hsame : u8 (Z.lxor (data !!! 0%nat) (prev_modifiers r1.1)) = 0).
    { rewrite Hm1.
      destruct (Z.eqb_spec (u8 (Z.lxor (data !!! 0%nat) (prev_modifiers st))) 0)
        as [Hz|_]; [exact Hz|].
      rewrite Z.lxor_nilpotent. reflexivity. }
    rewrite He2, Hk2, Hm2, Hk1, Hsame.
    rewrite (spec_modifier_events_same _ _ Hsame), !spec_key_events_self.
    done.
  - subst r2. unfold on_keyboard_report at 1 2 3.
    rewrite (proj2 (Nat.ltb_lt (length data) 8) Hlen). done.
Qed.

(** X21.  One report produces at most 8 events more than the slot remembers
    keys plus 6 (20 with the six remembered keys).  Handed to the queue, the
    events are appended in order up to the queue's depth of 32, and those
    beyond it are dropped. *)
Theorem report_events_bounded (data : list Z) (st : kbd_slot) (q : list KbdEvent) :
  let evts := (on_keyboard_report usb_to_adb data st).2 in
  (length evts <= 8 + length (prev_keys st) + 6)%nat /\
  deliver evts q = q ++ take (KBD_QUEUE_SIZE - length q) evts.
Proof.
  intros evts. split.
  - subst evts. destruct (Nat.le_gt_cases 8 (length data)) as [Hlen|Hlen].
    + destruct (long_report data st Hlen) as (-> & _).
      rewrite !length_app.
      pose proof (omap_length_le
        (fun b : nat =>
           if Z.testbit (Z.lxor (data !!! 0%nat) (prev_modifiers st)) (Z.of_nat b)
           then Some (mkKbdEvent (MODIFIER_KEYCODES !!! b)
                        (negb (Z.testbit (data !!! 0%nat) (Z.of_nat b))))
           else None) (seq 0 8)) as Hm.
      rewrite length_seq in Hm.
      unfold spec_modifier_events, spec_key_events.
      pose proof (omap_length_le
        (fun k => if bool_decide (k ≠ 0 ∧ (k ∉ report_keys data) ∧ u8 (usb_to_adb k) ≠ 255)
                  then Some (mkKbdEvent (u8 (usb_to_adb k)) true) else None)
        (prev_keys st)) as Hr.
      pose proof (omap_length_le
        (fun k => if bool_decide (k ≠ 0 ∧ (k ∉ prev_keys st) ∧ u8 (usb_to_adb k) ≠ 255)
                  then Some (mkKbdEvent (u8 (usb_to_adb k)) false) else None)
        (report_keys data)) as Hp.
      assert (length (report_keys data) <= 6)%nat
        by (unfold report_keys; rewrite length_take; lia).
      lia.
    + unfold on_keyboard_report.
      rewrite (proj2 (Nat.ltb_lt (length data) 8) Hlen). simpl. lia.
  - clearbody evts. revert q. unfold deliver.
    induction evts as [|e evts IH]; intros q.
    + rewrite take_nil, app_nil_r. reflexivity.
    + cbn [foldl]. rewrite IH.
      unfold event_queue.send_kbd, event_queue.send.
      destruct (Nat.ltb_spec (length q) KBD_QUEUE_SIZE) as [Hroom|Hfull];
        cbn [snd].
      * rewrite length_app. cbn [length].
        replace (KBD_QUEUE_SIZE - length q)%nat
          with (S (KBD_QUEUE_SIZE - (length q + 1)))%nat by lia.
        cbn [take]. rewrite <- app_assoc. reflexivity.
      * replace (KBD_QUEUE_SIZE - length q)%nat with 0%nat by lia.
        reflexivity.
Qed.

End KeyboardReports.

(** * Further properties of the BLE link *)

Section Link.

Import ble_hid_host ble_hid_link.

(** X22.  What a disconnect forgets.  The first keyboard report after a
    disconnect produces presses only, whatever was held down before: the
    callback compares it with the cleared keys and modifiers, so that
    report carries no release for a key that was down when the link
    dropped. *)
Theorem first_report_after_disconnect (usb_to_adb : Z -> Z) (peer now : Z)
    (d : BleDevice) (count used dropped : Z) (data : list Z) :
  let st := kbd_slot_of (onDisconnect peer now d) count used dropped in
  Forall (fun e => released e = false) (on_keyboard_report usb_to_adb data st).2.
Proof.
  intros st.
  assert (Hk : ble_hid_host.prev_keys st = replicate 6 0)
    by (subst st; unfold kbd_slot_of, onDisconnect;
        destruct (is_keyboard d || is_mouse d); reflexivity).
  assert (Hm : ble_hid_host.prev_modifiers st = 0)
    by (subst st; unfold kbd_slot_of, onDisconnect;
        destruct (is_keyboard d || is_mouse d); reflexivity).
  destruct (Nat.le_gt_cases 8 (length data)) as [Hlen|Hlen].
  - destruct (long_report usb_to_adb data st Hlen) as (-> & _).
    rewrite Hk, Hm, spec_key_events_zeros. cbn [app].
    apply Forall_app. split.
    + unfold spec_modifier_events. apply omap_Forall. intros b e.
      rewrite Z.lxor_0_r.
      destruct (Z.testbit (data !!! 0%nat) (Z.of_nat b)); [|discriminate].
      intros [= <-]. reflexivity.
    + unfold spec_key_events. apply omap_Forall. intros k e.
      case_bool_decide; [|discriminate]. intros [= <-]. reflexivity.
  - unfold on_keyboard_report.
    rewrite (proj2 (Nat.ltb_lt (length data) 8) Hlen). constructor.
Qed.

Section Backoff.

Variable try_reconnect : BleDevice -> bool * BleDevice.

Lemma i32_u32_zero : i32 (u32 0) = 0.
Proof. reflexivity. Qed.

(** One failed attempt, made when it is due. *)
Lemma retry_fails (d : BleDevice) :
  (try_reconnect d).1 = false ->
  same_schedule d (try_reconnect d).2 ->
  state d = RECONNECTING ->
  let d' := retry try_reconnect d in
  reconnect_attempts d' = reconnect_attempts d + 1 /\
  (reconnect_attempts d + 1 < 10 ->
   state d' = RECONNECTING /\
   reconnect_delay_ms d'
   = Z.min (u32 (reconnect_delay_ms d * 2)) BLE_RECONNECT_MAX_MS /\
   reconnect_next_ms d'
   = u32 (reconnect_next_ms d + reconnect_delay_ms d')) /\
  (10 <= reconnect_attempts d + 1 ->
   state d' = DISCONNECTED /\ has_client d' = false /\
   is_keyboard d' = false /\ is_mouse d' = false).
Proof.
  intros Hfail (Hst & Hnext & Hdelay & Hatt) Hrec d'. subst d'.
  unfold retry, handle_reconnection. rewrite Hrec, Z.sub_diag, i32_u32_zero.
  change (0 <? 0) with false. cbv iota.
  destruct (try_reconnect d) as [ok d1]. cbn [fst snd] in *. subst ok.
  cbv iota. rewrite Hatt, Hdelay, Hst, Hrec.
  unfold BLE_RECONNECT_MAX_ATTEMPTS.
  destruct (Z.geb_spec (reconnect_attempts d + 1) 10) as [Hge|Hlt];
    cbn [reconnect_attempts state reconnect_delay_ms reconnect_next_ms
         has_client is_keyboard is_mouse];
    (split; [reflexivity|]); split; intros H; try lia; done.
Qed.

(** X23.  The reconnection schedule.  After a disconnect of a device of
    known type, with every attempt failing and made when it is due: for
    [k] below 10, after [k] attempts the slot is still reconnecting, has
    counted [k] attempts and waits min(1000 * 2^k, 30000) ms for the next;
    the tenth failure gives the slot up (disconnected, no client, no type),
    and further calls change nothing. *)
Theorem reconnection_backoff (peer now : Z) (d0 : BleDevice) (k : nat) :
  (forall d, (try_reconnect d).1 = false /\ same_schedule d (try_reconnect d).2) ->
  is_keyboard d0 || is_mouse d0 = true ->
  let d := Nat.iter k (retry try_reconnect) (onDisconnect peer now d0) in
  if (k <? 10)%nat then
    state d = RECONNECTING /\
    reconnect_attempts d = Z.of_nat k /\
    reconnect_delay_ms d = Z.min (1000 * 2 ^ Z.of_nat k) 30000
  else
    state d = DISCONNECTED /\ has_client d = false /\
    is_keyboard d = false /\ is_mouse d = false /\
    reconnect_attempts d = 10.
Proof.
  intros Hfail Htype. induction k as [|k IH]; intros d.
  - subst d. cbn [Nat.iter]. unfold onDisconnect. rewrite Htype. done.
  - subst d. rewrite Nat.iter_succ. cbv zeta in IH.
    set (d := Nat.iter k (retry try_reconnect) (onDisconnect peer now d0)) in *.
    destruct (Nat.ltb_spec k 10) as [Hk|Hk].
    + destruct IH as (Hst & Hatt & Hdelay).
      destruct (Hfail d) as (Hf & Hsame).
      destruct (retry_fails d Hf Hsame Hst) as (Hatt' & Hgo & Hstop).
      rewrite Hatt in *.
      destruct (Nat.ltb_spec (S k) 10) as [Hk'|Hk'].
      * destruct Hgo as (Hst' & Hdelay' & _); [lia|].
        split; [exact Hst'|]. split; [lia|].
        rewrite Hdelay', Hdelay. unfold BLE_RECONNECT_MAX_MS.
        assert (Hpow : 2 ^ Z.of_nat (S k) = 2 * 2 ^ Z.of_nat k)
          by (rewrite Nat2Z.inj_succ; apply Z.pow_succ_r; lia).
        assert (0 < 2 ^ Z.of_nat k) by (apply Z.pow_pos_nonneg; lia).
        rewrite Hpow, u32_small by lia. lia.
      * destruct Hstop as (Hst' & Hc & Hkb & Hm'); [lia|].
        repeat split; try done. lia.
    + destruct IH as (Hst & Hc & Hkb & Hm & Hatt).
      destruct (Nat.ltb_spec (S k) 10) as [Hk'|_]; [lia|].
      unfold retry, handle_reconnection. rewrite Hst. done.
Qed.

End Backoff.

Lemma reconnection_backoff_witness :
  let try_reconnect := fun d : BleDevice => (false, d) in
  let d0 := mkDevice true CONNECTED true false [4; 0; 0; 0; 0; 0] 2 false 0
                     false false 0 0 0 in
  let d := Nat.iter 3 (retry try_reconnect) (onDisconnect 77 5000 d0) in
  state d = RECONNECTING /\ reconnect_attempts d = 3 /\
  reconnect_delay_ms d = 8000.
Proof.
  intros try_reconnect d0 d.
  assert (Hfail : forall d, (try_reconnect d).1 = false /\
                            same_schedule d (try_reconnect d).2)
    by (intros x; repeat split).
  assert (Htype : is_keyboard d0 || is_mouse d0 = true) by reflexivity.
  exact (reconnection_backoff try_reconnect 77 5000 d0 3 Hfail Htype).
Defined.

(** X24.  The due test survives the wrap of the millisecond clock.  With
    the next attempt [wait] ms ahead of [now], for [wait] from 1 to 2^31,
    the call changes nothing, also when [now + wait] has wrapped past
    2^32; with the attempt [late] ms overdue, for [late] below 2^31, the
    attempt is made, and if it succeeds the slot is as [try_reconnect]
    left it. *)
Theorem reconnection_due (try_reconnect : BleDevice -> bool * BleDevice)
    (now : Z) (d : BleDevice) :
  0 <= now < 4294967296 ->
  0 <= reconnect_next_ms d < 4294967296 ->
  (forall wait, 0 < wait <= 2147483648 ->
     reconnect_next_ms d = u32 (now + wait) ->
     handle_reconnection try_reconnect now d = d) /\
  (forall late, 0 <= late < 2147483648 ->
     now = u32 (reconnect_next_ms d + late) ->
     state d = RECONNECTING ->
     (try_reconnect d).1 = true ->
     handle_reconnection try_reconnect now d = (try_reconnect d).2).
Proof.
  intros Hnow Hnext. split.
  - intros wait Hwait Heq. unfold handle_reconnection.
    destruct (state d); try reflexivity.
    assert (Hneg : i32 (u32 (now - reconnect_next_ms d)) < 0).
    { rewrite Heq. unfold i32, u32. Z.div_mod_to_equations. lia. }
    apply Z.ltb_lt in Hneg. rewrite Hneg. reflexivity.
  - intros late Hlate Heq Hst Hok. unfold handle_reconnection. rewrite Hst.
    assert (Hpos : 0 <= i32 (u32 (now - reconnect_next_ms d))).
    { rewrite Heq. unfold i32, u32. Z.div_mod_to_equations. lia. }
    apply Z.ltb_ge in Hpos. rewrite Hpos.
    destruct (try_reconnect d) as [ok d1]. cbn [fst snd] in *. subst ok.
    reflexivity.
Qed.

Lemma reconnection_due_witness :
  let try_reconnect := fun d : BleDevice => (false, d) in
  let d := mkDevice true RECONNECTING true false [0; 0; 0; 0; 0; 0] 0 false 0
                    true false 704 1000 0 in
  0 < 1000 <= 2147483648 /\
  reconnect_next_ms d = u32 (4294967000 + 1000) /\
  handle_reconnection try_reconnect 4294967000 d = d.
Proof.
  intros try_reconnect d.
  assert (Hnow : 0 <= 4294967000 < 4294967296) by lia.
  assert (Hnext : 0 <= reconnect_next_ms d < 4294967296) by (simpl; lia).
  assert (Hwait : 0 < 1000 <= 2147483648) by lia.
  assert (Heq : reconnect_next_ms d = u32 (4294967000 + 1000)) by reflexivity.
  split; [exact Hwait|]. split; [exact Heq|].
  exact (proj1 (reconnection_due try_reconnect 4294967000 d Hnow Hnext)
           1000 Hwait Heq).
Defined.

End Link.

(** * From a keyboard report to the word on the bus *)

Section EndToEnd.

Import ble_hid_host.

Variable usb_to_adb : Z -> Z.

Lemma spec_key_events_single (rel : bool) (k : Z) (n : nat) (other : list Z) :
  k <> 0 -> k ∉ other -> u8 (usb_to_adb k) <> 255 ->
  spec_key_events usb_to_adb rel (k :: replicate n 0) other
  = [mkKbdEvent (u8 (usb_to_adb k)) rel].
Proof.
  intros Hk Hother Hmap.
  pose proof (spec_key_events_zeros usb_to_adb rel n other) as Hz.
  unfold spec_key_events in *. cbn [omap list_omap].
  rewrite bool_decide_eq_true_2 by done.
  f_equal. exact Hz.
Qed.

(** Talk R0 with an empty ring and one event in the queue. *)
Lemma talk_single (s : adb_keyboard.state) (evt : KbdEvent) :
  adb_keyboard.wf s -> adb_keyboard.ring_count s = 0 ->
  let t := adb_keyboard.handle_talk 0 s [evt] in
  t.1.1 = Some (Z.lor (Z.shiftl (adb_keyboard.adb_event evt) 8) 255) /\
  adb_keyboard.wf t.1.2 /\ adb_keyboard.ring_count t.1.2 = 0 /\ t.2 = [].
Proof.
  intros Hs Hempty t. subst t.
  destruct (talk_r0_on_ring s [evt] Hs) as (Hword & Hrest & Hq).
  destruct (process_queue_contents [evt] s Hs) as (_ & _ & Hc).
  rewrite (ring_contents_nil s Hempty), Hempty in Hc.
  change (Z.to_nat (31 - 0)) with 31%nat in Hc.
  change (take 31 (adb_keyboard.adb_event <$> [evt]))
    with [adb_keyboard.adb_event evt] in Hc.
  cbn [app] in Hc.
  rewrite Hc in Hword, Hrest. cbn [drop] in Hrest.
  split; [exact Hword|]. split; [apply handle_talk_r0_wf, Hs|].
  split; [|exact Hq].
  pose proof (ring_contents_length (adb_keyboard.handle_talk 0 s [evt]).1.2) as Hl.
  rewrite Hrest in Hl. cbn [length] in Hl.
  pose proof (ring_count_range (adb_keyboard.handle_talk 0 s [evt]).1.2). lia.
Qed.

(** X25.  A key tap, end to end.  On a slot with no key down and a
    keyboard with an empty ring, the report of a key the table maps to
    [code] queues one press, and the next Talk R0 answers with
    (code & 0x7F) << 8 | 0xFF; the report that lifts the key queues one
    release, and the Talk R0 after it answers with
    (0x80 | code & 0x7F) << 8 | 0xFF. *)
Theorem key_tap_reaches_host (k : Z) (s : adb_keyboard.state)
    (count used dropped : Z) :
  k <> 0 -> u8 (usb_to_adb k) <> 255 ->
  adb_keyboard.wf s -> adb_keyboard.ring_count s = 0 ->
  let code := u8 (usb_to_adb k) in
  let st0 := mkSlot (replicate 6 0) 0 count used dropped in
  let r1 := on_keyboard_report usb_to_adb [0; 0; k; 0; 0; 0; 0; 0] st0 in
  let t1 := adb_keyboard.handle_talk 0 s (deliver r1.2 []) in
  let r2 := on_keyboard_report usb_to_adb [0; 0; 0; 0; 0; 0; 0; 0] r1.1 in
  let t2 := adb_keyboard.handle_talk 0 t1.1.2 (deliver r2.2 t1.2) in
  r1.2 = [mkKbdEvent code false] /\
  t1.1.1 = Some (Z.lor (Z.shiftl (Z.land code 127) 8) 255) /\
  r2.2 = [mkKbdEvent code true] /\
  t2.1.1 = Some (Z.lor (Z.shiftl (Z.lor 128 (Z.land code 127)) 8) 255).
Proof.
  intros Hk Hmap Hs Hempty code st0 r1 t1 r2 t2.
  assert (Hzeros : k ∉ replicate 6 0)
    by (intros Hin; apply elem_of_replicate in Hin as [-> _]; done).
  assert (H8 : (8 <= 8)%nat) by lia.
  destruct (long_report usb_to_adb [0; 0; k; 0; 0; 0; 0; 0] st0 H8)
    as (He1 & Hk1 & Hm1).
  fold r1 in He1, Hk1, Hm1.
  change (report_keys [0; 0; k; 0; 0; 0; 0; 0]) with (k :: replicate 5 0)
    in He1, Hk1.
  change (prev_keys st0) with (replicate 6 0) in He1.
  change (prev_modifiers st0) with 0 in He1, Hm1.
  rewrite spec_modifier_events_same, spec_key_events_zeros,
    spec_key_events_single in He1 by done.
  change (prev_modifiers r1.1 = 0) in Hm1. cbn [app] in He1.
  destruct (long_report usb_to_adb [0; 0; 0; 0; 0; 0; 0; 0] r1.1 H8)
    as (He2 & _ & _).
  fold r2 in He2. rewrite Hk1, Hm1 in He2.
  change (report_keys [0; 0; 0; 0; 0; 0; 0; 0]) with (replicate 6 0) in He2.
  rewrite spec_modifier_events_same, spec_key_events_zeros,
    spec_key_events_single in He2 by done.
  cbn [app] in He2.
  assert (Hd1 : deliver r1.2 [] = [mkKbdEvent code false])
    by (rewrite He1; reflexivity).
  destruct (talk_single s (mkKbdEvent code false) Hs Hempty)
    as (Hw1 & Hwf1 & Hc1 & Hq1).
  rewrite <- Hd1 in Hw1, Hwf1, Hc1, Hq1. fold t1 in Hw1, Hwf1, Hc1, Hq1.
  assert (Hd2 : deliver r2.2 t1.2 = [mkKbdEvent code true])
    by (rewrite He2, Hq1; reflexivity).
  destruct (talk_single t1.1.2 (mkKbdEvent code true) Hwf1 Hc1)
    as (Hw2 & _).
  rewrite <- Hd2 in Hw2. fold t2 in Hw2.
  destruct (adb_event_layout (mkKbdEvent code false)) as (Hl1 & _).
  destruct (adb_event_layout (mkKbdEvent code true)) as (Hl2 & _).
  cbn [released adb_keycode] in Hl1, Hl2. rewrite Z.lor_0_l in Hl1.
  rewrite Hl1 in Hw1. rewrite Hl2 in Hw2.
  done.
Qed.

End EndToEnd.

Lemma key_tap_reaches_host_witness :
  let usb_to_adb := fun k => if k =? 4 then 0 else 255 in
  let r1 := ble_hid_host.on_keyboard_report usb_to_adb [0; 0; 4; 0; 0; 0; 0; 0]
              (ble_hid_host.mkSlot (replicate 6 0) 0 0 0 0) in
  let t1 := adb_keyboard.handle_talk 0 adb_keyboard.power_on
              (ble_hid_host.deliver r1.2 []) in
  4 <> 0 /\ u8 (usb_to_adb 4) <> 255 /\
  adb_keyboard.wf adb_keyboard.power_on /\
  adb_keyboard.ring_count adb_keyboard.power_on = 0 /\
  t1.1.1 = Some 255.
Proof.
  intros usb_to_adb r1 t1.
  assert (Hk : 4 <> 0) by lia.
  assert (Hmap : u8 (usb_to_adb 4) <> 255) by (vm_compute; discriminate).
  assert (Hempty : adb_keyboard.ring_count adb_keyboard.power_on = 0)
    by reflexivity.
  split; [exact Hk|]. split; [exact Hmap|].
  split; [exact kbd_power_on_wf|]. split; [exact Hempty|].
  exact (proj1 (proj2 (key_tap_reaches_host usb_to_adb 4 adb_keyboard.power_on
                         0 0 0 Hk Hmap kbd_power_on_wf Hempty))).
Defined.
